(** * The NVP plugin of Quantum: cluster resolution, switch selection and
      reconciliation of the local record store with the NVP backend.

    Shallow embedding of
      quantum/plugins/nicira/nicira_nvp_plugin/nvp_cluster.py
      quantum/plugins/nicira/nicira_nvp_plugin/QuantumPlugin.py
    Python dictionaries are [gmap]s or association lists (when the iteration
    order matters), exceptions are values of [exn] carried by [result], and
    the methods of [NvpPluginV2] are computations in a state-and-exception
    monad over the local record store, the backend, the log and the
    zone-to-cluster cache. *)

From stdpp Require Import gmap strings list fin_maps pretty.
From Stdlib Require Import ZArith Lia.

Open Scope string_scope.
Open Scope Z_scope.
Open Scope list_scope.

(** ** Python values, exceptions, log records *)

(** The Python values that requests and result dictionaries carry.
    [PyObject] stands for a plain [object()] such as
    [attributes.ATTR_NOT_SPECIFIED]. *)
Inductive pyval : Type :=
| PyNone
| PyBool (b : bool)
| PyInt (z : Z)
| PyStr (s : string)
| PyStrList (l : list string)
| PyPairs (l : list (string * string))
| PyObject (tag : string).

(** [bool(v)]: the truth value Python gives to [v] in an [if]. *)
Definition truthy (v : pyval) : bool :=
  match v with
  | PyNone => false
  | PyBool b => b
  | PyInt z => negb (z =? 0)
  | PyStr s => negb (String.eqb s "")
  | PyStrList l => match l with [] => false | _ => true end
  | PyPairs l => match l with [] => false | _ => true end
  | PyObject _ => true
  end.

(** [v is False]: identity with the singleton [False]. *)
Definition is_False (v : pyval) : bool :=
  match v with
  | PyBool false => true
  | _ => false
  end.

(** An attribute of a request body: the key may be missing from the
    dictionary, or hold [ATTR_NOT_SPECIFIED], [None] or a value. *)
Inductive attr (A : Type) : Type :=
| Absent
| ATTR_NOT_SPECIFIED
| AttrNone
| Attr (a : A).
Arguments Absent {A}.
Arguments ATTR_NOT_SPECIFIED {A}.
Arguments AttrNone {A}.
Arguments Attr {A} a.

(** Modelled from the spec: [attributes.is_attr_set], applied to
    [d.get(key)]: the value is neither [None] nor [ATTR_NOT_SPECIFIED]; a
    missing key reads as [None] through [dict.get]. *)
Definition is_attr_set {A} (a : attr A) : bool :=
  match a with
  | Attr _ => true
  | _ => false
  end.

(** [d.get(key)] seen as an optional value: the sentinel is a value that is
    neither [None] nor of the attribute's type, kept apart by [attr]. *)
Definition attr_value {A} (a : attr A) : option A :=
  match a with
  | Attr x => Some x
  | _ => None
  end.

Inductive exn : Type :=
| NetworkNotFound (net_id : string)
| NetworkInUse (net_id : string)
| PortNotFound (port_id : string)
| VlanIdInUse (vlan_id : Z) (physical_network : option string)
| InvalidInput (error_message : string)
| NotImplementedError (message : string)
| PolicyNotAuthorized (action : string)
| NvpInvalidNovaZone (nova_zone : string)
| NvpNoMorePortsException (network : string)
| NvpPluginException (err_msg : string)
| NvpOutOfSyncException
| NvpApiException (message : string)
| DBError (message : string)
| AttributeError (message : string)
| IndexError (message : string)
| KeyError (key : string).

Inductive result (A : Type) : Type :=
| Ok (a : A)
| Raise (e : exn).
Arguments Ok {A} a.
Arguments Raise {A} e.

Definition is_Ok {A} (r : result A) : bool :=
  match r with Ok _ => true | Raise _ => false end.

Inductive log_level : Type := DEBUG | INFO | WARNING | ERROR | EXCEPTION.

(** One call of [LOG.<level>(template, args)].  Scalar arguments are kept as
    they print under [%s]; arguments that print through [repr] of a
    structure (lists of pairs, [locals()]) are left out of [log_args]. *)
Record LogRecord : Type := LOG {
  log_level_of : log_level;
  log_msg : string;
  log_args : list string
}.

(** ** nvp_cluster.NVPCluster *)

(** One entry of [NVPCluster.controllers], the dictionary that
    [add_controller] builds. *)
Record Controller : Type := {
  ctl_ip : string;
  ctl_port : Z;
  ctl_user : string;
  ctl_password : string;
  ctl_request_timeout : Z;
  ctl_http_timeout : Z;
  ctl_retries : Z;
  ctl_redirects : Z;
  ctl_default_tz_uuid : string;
  ctl_uuid : option string;
  ctl_zone : option string
}.

Record NVPCluster : Type := {
  _name : string;
  controllers : list Controller
}.

Module NVPCluster.

(** [self.controllers[0]]: every scalar property of the cluster reads the
    first controller, and raises [IndexError] when there is none. *)
Definition first_controller (c : NVPCluster) : result Controller :=
  match controllers c with
  | ctl :: _ => Ok ctl
  | [] => Raise (IndexError "list index out of range")
  end.

Definition property {A} (f : Controller -> A) (c : NVPCluster) : result A :=
  match first_controller c with
  | Ok ctl => Ok (f ctl)
  | Raise e => Raise e
  end.

Definition name (c : NVPCluster) : string := _name c.
Definition host := property ctl_ip.
Definition port := property ctl_port.
Definition user := property ctl_user.
Definition password := property ctl_password.
Definition request_timeout := property ctl_request_timeout.
Definition http_timeout := property ctl_http_timeout.
Definition retries := property ctl_retries.
Definition redirects := property ctl_redirects.
Definition default_tz_uuid := property ctl_default_tz_uuid.
Definition zone := property ctl_zone.
Definition uuid := property ctl_uuid.

(** [get_controller(idx)] for a non-negative index. *)
Definition get_controller (c : NVPCluster) (idx : nat) : result Controller :=
  match controllers c !! idx with
  | Some ctl => Ok ctl
  | None => Raise (IndexError "list index out of range")
  end.

End NVPCluster.


(** ** Backend resources, as the NVP API returns them *)

Record Tag : Type := { scope : string; tag : string }.

(** A logical switch with its [_relations.LogicalSwitchStatus]. *)
Record LSwitch : Type := {
  ls_uuid : string;
  ls_display_name : string;
  ls_tags : list Tag;
  ls_fabric_status : bool;
  ls_lport_count : Z
}.

(** A logical port with its [_relations.LogicalPortStatus]. *)
Record LPort : Type := {
  lp_uuid : string;
  lp_tags : list Tag;
  lp_admin_status_enabled : bool;
  lp_display_name : string;
  lp_fabric_status_up : bool
}.

(** ** Requests and records *)

Module NetworkTypes.
Definition STT := "stt".
Definition GRE := "gre".
Definition FLAT := "flat".
Definition VLAN := "vlan".
End NetworkTypes.

Module pnet.
Definition NETWORK_TYPE := "provider:network_type".
Definition PHYSICAL_NETWORK := "provider:physical_network".
Definition SEGMENTATION_ID := "provider:segmentation_id".
End pnet.

Module psec.
Definition PORTSECURITY := "port_security_enabled".
End psec.

Module constants.
Definition NET_STATUS_ACTIVE := "ACTIVE".
Definition NET_STATUS_DOWN := "DOWN".
Definition PORT_STATUS_ACTIVE := "ACTIVE".
Definition PORT_STATUS_DOWN := "DOWN".
End constants.

(** The request context: the caller, and what the policy engine lets the
    caller do ([policy.check(context, action, resource)], taken as a
    parameter of the context since quantum/policy.py is not part of the
    plugin). *)
Record Context : Type := {
  ctx_tenant_id : string;
  is_admin : bool;
  policy_check : string -> bool
}.

(** [network['network']], the body of a create or update request. *)
Record NetworkBody : Type := {
  nb_id : attr string;
  nb_name : attr string;
  nb_tenant_id : attr string;
  nb_admin_state_up : attr pyval;
  nb_shared : attr bool;
  nb_network_type : attr string;
  nb_physical_network : attr string;
  nb_segmentation_id : attr Z;
  nb_port_security : attr bool;
  nb_nova_id : option string
}.

(** [port['port']]. *)
Record PortBody : Type := {
  pb_id : attr string;
  pb_network_id : string;
  pb_tenant_id : attr string;
  pb_name : attr string;
  pb_device_id : attr string;
  pb_admin_state_up : attr bool;
  pb_mac_address : attr string;
  pb_fixed_ips : attr (list (string * string));
  pb_port_security : attr bool;
  pb_nova_id : option string
}.

(** Rows of the local record store. *)
Record Network : Type := {
  net_id : string;
  net_tenant_id : string;
  net_name : option string;
  net_admin_state_up : bool;
  net_status : string;
  net_shared : bool;
  net_subnets : list string
}.

Record Port : Type := {
  port_id : string;
  port_network_id : string;
  port_tenant_id : string;
  port_name : string;
  port_device_id : string;
  port_admin_state_up : bool;
  port_mac_address : string;
  port_fixed_ips : list (string * string);
  port_status : string
}.

(** A row of [nicira_db]'s network binding table. *)
Record NetworkBinding : Type := {
  network_id : string;
  binding_type : string;
  tz_uuid : option string;
  vlan_id : option Z
}.

Record DB : Type := {
  networks : list Network;
  ports : list Port;
  network_bindings : list NetworkBinding;
  network_security_bindings : list (string * bool);
  port_security_bindings : list (string * bool)
}.

(** The provider attributes of a network dictionary, present once
    [_extend_network_dict_provider] has found a binding. *)
Record ProviderAttrs : Type := {
  pa_network_type : string;
  pa_physical_network : option string;
  pa_segmentation_id : option Z
}.

(** The dictionary of a network, as [_make_network_dict] builds it and the
    plugin extends it. *)
Record NetDict : Type := {
  nd_id : string;
  nd_name : option string;
  nd_tenant_id : string;
  nd_admin_state_up : bool;
  nd_status : string;
  nd_shared : bool;
  nd_subnets : list string;
  nd_provider : option ProviderAttrs;
  nd_port_security : option bool
}.

(** The dictionary of a port. *)
Record PortDict : Type := {
  pd_id : string;
  pd_network_id : string;
  pd_tenant_id : string;
  pd_name : string;
  pd_device_id : string;
  pd_admin_state_up : bool;
  pd_mac_address : string;
  pd_fixed_ips : list (string * string);
  pd_status : option string;
  pd_port_security : option bool
}.

(** [filters]: field name to the list of accepted values. *)
Abbreviation Filters := (gmap string (list string)).

(** [filters.get(key)] used as a condition and as a sequence: a missing key
    gives [None], which is false and, like the empty list, has nothing to
    iterate in the branches the plugin takes. *)
Definition filters_get (filters : Filters) (key : string) : list string :=
  default [] (filters !! key).

Definition nonempty {A} (l : list A) : bool :=
  match l with [] => false | _ => true end.

(** ** The collaborators of the plugin *)

(** The functions of [nvplib] that the plugin calls, over the state [NVP] of
    the backend.  The module is not part of the plugin's two files: its
    functions are taken as they are called, queries as functions of the
    backend state, mutations as functions that also return the new backend
    state; each may raise. *)
Class NvpLib (NVP : Type) : Type := {
  (** [get_lswitches(cluster, quantum_net_id)] *)
  get_lswitches : NVPCluster -> string -> NVP -> result (list LSwitch);
  (** [create_lswitch(cluster, tenant_id, display_name, transport_type,
      transport_zone_uuid, vlan_id, quantum_net_id)] *)
  create_lswitch :
    NVPCluster -> string -> option string -> option string -> option string ->
    option Z -> option string -> NVP -> result LSwitch * NVP;
  (** [update_lswitch(cluster, lswitch_id, display_name, tenant_id, tags)] *)
  update_lswitch :
    NVPCluster -> string -> string -> string -> list Tag -> NVP ->
    result unit * NVP;
  (** [delete_networks(cluster, net_id, lswitch_ids)] *)
  delete_networks :
    NVPCluster -> string -> list string -> NVP -> result unit * NVP;
  (** [get_all_query_pages(path, c)] on a path of logical switches *)
  get_all_query_pages_lswitch :
    string -> NVPCluster -> NVP -> result (list LSwitch);
  (** [get_all_query_pages(path, c)] on a path of logical ports *)
  get_all_query_pages_lport :
    string -> NVPCluster -> NVP -> result (list LPort);
  (** [create_lport(cluster, lswitch_uuid, tenant_id, quantum_port_id,
      display_name, device_id, admin_status_enabled, mac_address, fixed_ips,
      port_security_enabled)] *)
  create_lport :
    NVPCluster -> string -> string -> string -> string -> string -> bool ->
    string -> list (string * string) -> option bool -> NVP ->
    result LPort * NVP;
  (** [plug_interface(cluster, lswitch_id, port, type, attachment)] *)
  plug_interface :
    NVPCluster -> string -> string -> string -> string -> NVP ->
    result unit * NVP
}.

(** Library functions whose values the plugin only passes on:
    [hashlib.sha1(s).hexdigest()], [utils.str_uuid()] and the MAC address
    generator of the base plugin, the last two as functions of the store
    they draw a fresh value for. *)
Class Generators : Type := {
  sha1_hexdigest : string -> string;
  str_uuid : DB -> string;
  generate_mac : DB -> string
}.

(** [self.nvp_opts], the options the plugin reads. *)
Record NvpOpts : Type := {
  max_lp_per_overlay_ls : Z;
  max_lp_per_bridged_ls : Z;
  default_cluster_name : option string
}.

(** The plugin object after [__init__]: [self.clusters] is the dictionary
    from cluster names to clusters that [__init__] fills
    ([self.clusters[c_opts['name']] = cluster]), kept here in its iteration
    order; [self.default_cluster] is one of its values. *)
Record Plugin : Type := {
  clusters : list (string * NVPCluster);
  default_cluster : NVPCluster;
  nvp_opts : NvpOpts
}.

(** [self.clusters.itervalues()] and iteration over the dictionary itself
    ([for x in self.clusters]), which yields its keys. *)
Definition itervalues (self : Plugin) : list NVPCluster := (clusters self).*2.
Definition iterkeys (self : Plugin) : list string := (clusters self).*1.

Section WithBackend.

Context {NVP : Type}.

(** What a request runs against: the local record store (the session), the
    backend, the log, and the attribute [self.novazone_cluster_map] of the
    plugin, its zone-to-cluster cache.  [_novazone_to_cluster] reads and
    writes the attribute, but neither the class body, nor [__init__], nor
    any other method assigns it: it is [None] for a plugin that does not
    have the attribute, which is the plugin as [__init__] leaves it, and
    [Some m] for a plugin on which the attribute has been set to the
    dictionary [m] from outside. *)
Record State : Type := {
  db : DB;
  nvp : NVP;
  log : list LogRecord;
  novazone_cluster_map : option (gmap string NVPCluster)
}.

Definition set_db (d : DB) (s : State) : State :=
  {| db := d; nvp := nvp s; log := log s;
     novazone_cluster_map := novazone_cluster_map s |}.
Definition set_nvp (n : NVP) (s : State) : State :=
  {| db := db s; nvp := n; log := log s;
     novazone_cluster_map := novazone_cluster_map s |}.
Definition add_log (r : LogRecord) (s : State) : State :=
  {| db := db s; nvp := nvp s; log := log s ++ [r];
     novazone_cluster_map := novazone_cluster_map s |}.
Definition set_novazone_cluster_map (m : gmap string NVPCluster) (s : State)
  : State :=
  {| db := db s; nvp := nvp s; log := log s; novazone_cluster_map := Some m |}.

(** Computations that read and update the state and may raise. *)
Definition M (A : Type) : Type := State -> result A * State.

Definition ret {A} (a : A) : M A := fun s => (Ok a, s).
Definition raise {A} (e : exn) : M A := fun s => (Raise e, s).
Definition bind {A B} (m : M A) (k : A -> M B) : M B :=
  fun s =>
    match m s with
    | (Ok a, s') => k a s'
    | (Raise e, s') => (Raise e, s')
    end.

(** [try: m except Exception: h] with a handler that sees the exception. *)
Definition try_except {A} (m : M A) (h : exn -> M A) : M A :=
  fun s =>
    match m s with
    | (Ok a, s') => (Ok a, s')
    | (Raise e, s') => h e s'
    end.

Definition lift {A} (r : result A) : M A := fun s => (r, s).
Definition LOG_ (lvl : log_level) (msg : string) (args : list string) : M unit :=
  fun s => (Ok tt, add_log (LOG lvl msg args) s).

(** A query of the backend, and a call that changes it. *)
Definition nvp_query {A} (q : NVP -> result A) : M A :=
  fun s => (q (nvp s), s).
Definition nvp_call {A} (f : NVP -> result A * NVP) : M A :=
  fun s => let '(r, n) := f (nvp s) in (r, set_nvp n s).

(** A read of the local store, and a statement that changes it. *)
Definition db_query {A} (q : DB -> result A) : M A :=
  fun s => (q (db s), s).
Definition db_call {A} (f : DB -> result A * DB) : M A :=
  fun s => let '(r, d) := f (db s) in (r, set_db d s).

(** Modelled from the spec: the transaction scope of the local store,
    [with context.session.begin(subtransactions=True)], which belongs to the
    session and not to the plugin.  The local mutations of the body are kept
    when it returns and rolled back when it raises; backend calls and log
    records are outside the transaction and stay. *)
Definition session_begin {A} (body : M A) : M A :=
  fun s =>
    match body s with
    | (Ok a, s') => (Ok a, s')
    | (Raise e, s') => (Raise e, set_db (db s) s')
    end.

End WithBackend.

Arguments State NVP : clear implicits.
Arguments M NVP A : clear implicits.

Declare Scope plugin_scope.
Delimit Scope plugin_scope with plugin.
Notation "x <- m ;; k" := (bind m (fun x => k))
  (at level 100, m at next level, right associativity) : plugin_scope.
Notation "m ;;; k" := (bind m (fun _ => k))
  (at level 100, right associativity) : plugin_scope.
Open Scope plugin_scope.

(** ** The local record store *)

(** The base plugin [QuantumDbPluginV2], the mixin [PortSecurityDbMixin] and
    [nicira_db] are the plugin's interface to the local record store; their
    files are not the plugin's.  Each is modelled on the store as a record of
    tables keyed by the id of the network or port. *)
Module Store.

Definition empty : DB :=
  {| networks := []; ports := []; network_bindings := [];
     network_security_bindings := []; port_security_bindings := [] |}.

Definition set_networks (l : list Network) (d : DB) : DB :=
  {| networks := l; ports := ports d;
     network_bindings := network_bindings d;
     network_security_bindings := network_security_bindings d;
     port_security_bindings := port_security_bindings d |}.
Definition set_ports (l : list Port) (d : DB) : DB :=
  {| networks := networks d; ports := l;
     network_bindings := network_bindings d;
     network_security_bindings := network_security_bindings d;
     port_security_bindings := port_security_bindings d |}.
Definition set_network_bindings (l : list NetworkBinding) (d : DB) : DB :=
  {| networks := networks d; ports := ports d;
     network_bindings := l;
     network_security_bindings := network_security_bindings d;
     port_security_bindings := port_security_bindings d |}.
Definition set_network_security_bindings (l : list (string * bool)) (d : DB)
  : DB :=
  {| networks := networks d; ports := ports d;
     network_bindings := network_bindings d;
     network_security_bindings := l;
     port_security_bindings := port_security_bindings d |}.
Definition set_port_security_bindings (l : list (string * bool)) (d : DB)
  : DB :=
  {| networks := networks d; ports := ports d;
     network_bindings := network_bindings d;
     network_security_bindings := network_security_bindings d;
     port_security_bindings := l |}.

Definition find_network (id : string) (d : DB) : option Network :=
  List.find (fun n => String.eqb (net_id n) id) (networks d).
Definition find_port (id : string) (d : DB) : option Port :=
  List.find (fun p => String.eqb (port_id p) id) (ports d).
Definition assoc {A} (id : string) (l : list (string * A)) : option A :=
  snd <$> List.find (fun kv => String.eqb (fst kv) id) l.

(** Modelled from the spec: [QuantumDbPluginV2._make_network_dict], a fresh
    dictionary per row read, with none of the extension attributes. *)
Definition _make_network_dict (n : Network) : NetDict :=
  {| nd_id := net_id n; nd_name := net_name n;
     nd_tenant_id := net_tenant_id n;
     nd_admin_state_up := net_admin_state_up n;
     nd_status := net_status n; nd_shared := net_shared n;
     nd_subnets := net_subnets n;
     nd_provider := None; nd_port_security := None |}.

(** Modelled from the spec: [QuantumDbPluginV2._make_port_dict], the same
    for a port. *)
Definition _make_port_dict (p : Port) : PortDict :=
  {| pd_id := port_id p; pd_network_id := port_network_id p;
     pd_tenant_id := port_tenant_id p; pd_name := port_name p;
     pd_device_id := port_device_id p;
     pd_admin_state_up := port_admin_state_up p;
     pd_mac_address := port_mac_address p;
     pd_fixed_ips := port_fixed_ips p;
     pd_status := Some (port_status p); pd_port_security := None |}.

(** Modelled from the spec: the field-equality filters of the bulk reads of
    the base plugin: a key with a non-empty list of values keeps the rows
    whose field is one of them. *)
Definition field_ok (filters : option Filters) (key value : string) : bool :=
  match filters with
  | None => true
  | Some f =>
      match filters_get f key with
      | [] => true
      | vs => bool_decide (value ∈ vs)
      end
  end.

(** Modelled from the spec: [QuantumDbPluginV2._get_tenant_id_for_create],
    the tenant a created record belongs to: the one the request names, or
    else the caller's. *)
Definition _get_tenant_id_for_create (ctx : Context) (tenant : attr string)
  : string :=
  default (ctx_tenant_id ctx) (attr_value tenant).

(** Modelled from the spec: [QuantumDbPluginV2._get_network], the local
    record of a network, [NetworkNotFound] when there is none. *)
Definition _get_network (id : string) (d : DB) : result Network :=
  match find_network id d with
  | Some n => Ok n
  | None => Raise (NetworkNotFound id)
  end.

Section Generated.
Context {gen : Generators}.

(** Modelled from the spec: [QuantumDbPluginV2.create_network], which
    creates the local network record under the id the request carries (the
    plugin sets it to the backend's) or a generated one; ids are unique
    keys of the table. *)
Definition create_network (ctx : Context) (body : NetworkBody) (d : DB)
  : result NetDict * DB :=
  let id := default (str_uuid d) (attr_value (nb_id body)) in
  match find_network id d with
  | Some _ => (Raise (DBError "duplicate network id"), d)
  | None =>
      let n := {| net_id := id;
                  net_tenant_id :=
                    _get_tenant_id_for_create ctx (nb_tenant_id body);
                  net_name := attr_value (nb_name body);
                  net_admin_state_up :=
                    default true (truthy <$> attr_value (nb_admin_state_up body));
                  net_status := constants.NET_STATUS_ACTIVE;
                  net_shared := default false (attr_value (nb_shared body));
                  net_subnets := [] |} in
      (Ok (_make_network_dict n), set_networks (networks d ++ [n]) d)
  end.

(** Modelled from the spec: [QuantumDbPluginV2.create_port], which
    allocates the local port record (id and MAC address are assigned
    locally) on an existing network. *)
Definition create_port (ctx : Context) (body : PortBody) (d : DB)
  : result PortDict * DB :=
  match find_network (pb_network_id body) d with
  | None => (Raise (NetworkNotFound (pb_network_id body)), d)
  | Some _ =>
      let id := default (str_uuid d) (attr_value (pb_id body)) in
      match find_port id d with
      | Some _ => (Raise (DBError "duplicate port id"), d)
      | None =>
          let p := {| port_id := id;
                      port_network_id := pb_network_id body;
                      port_tenant_id :=
                        _get_tenant_id_for_create ctx (pb_tenant_id body);
                      port_name := default "" (attr_value (pb_name body));
                      port_device_id :=
                        default "" (attr_value (pb_device_id body));
                      port_admin_state_up :=
                        default true (attr_value (pb_admin_state_up body));
                      port_mac_address :=
                        default (generate_mac d)
                                (attr_value (pb_mac_address body));
                      port_fixed_ips :=
                        default [] (attr_value (pb_fixed_ips body));
                      port_status := constants.PORT_STATUS_ACTIVE |} in
          (Ok (_make_port_dict p), set_ports (ports d ++ [p]) d)
      end
  end.

End Generated.

(** Modelled from the spec: [QuantumDbPluginV2.delete_network], which
    deletes the local record of a network (with its provider binding and
    port-security rows); the network must exist and have no port. *)
Definition delete_network (ctx : Context) (id : string) (d : DB)
  : result unit * DB :=
  match find_network id d with
  | None => (Raise (NetworkNotFound id), d)
  | Some _ =>
      if nonempty
           (List.filter (fun p => String.eqb (port_network_id p) id) (ports d))
      then (Raise (NetworkInUse id), d)
      else
        (Ok tt,
         {| networks :=
              List.filter (fun n => negb (String.eqb (net_id n) id))
                          (networks d);
            ports := ports d;
            network_bindings :=
              List.filter (fun b => negb (String.eqb (network_id b) id))
                          (network_bindings d);
            network_security_bindings :=
              List.filter (fun kv => negb (String.eqb (fst kv) id))
                          (network_security_bindings d);
            port_security_bindings := port_security_bindings d |})
  end.

(** Modelled from the spec: [QuantumDbPluginV2.get_networks], the
    filterable bulk read of the local network records. *)
Definition get_networks (ctx : Context) (filters : option Filters) (d : DB)
  : list NetDict :=
  _make_network_dict <$>
    List.filter
      (fun n =>
         field_ok filters "id" (net_id n)
         && field_ok filters "tenant_id" (net_tenant_id n)
         && match net_name n with
            | Some nm => field_ok filters "name" nm
            | None => field_ok filters "name" ""
            end)
      (networks d).

(** Modelled from the spec: [QuantumDbPluginV2.get_ports], the filterable
    bulk read of the local port records. *)
Definition get_ports (ctx : Context) (filters : option Filters) (d : DB)
  : list PortDict :=
  _make_port_dict <$>
    List.filter
      (fun p =>
         field_ok filters "id" (port_id p)
         && field_ok filters "network_id" (port_network_id p)
         && field_ok filters "device_id" (port_device_id p)
         && field_ok filters "tenant_id" (port_tenant_id p)
         && field_ok filters "name" (port_name p))
      (ports d).

(** Modelled from the spec: [QuantumDbPluginV2.update_network], which
    updates the fields of the local record that the request carries. *)
Definition update_network (ctx : Context) (id : string) (body : NetworkBody)
  (d : DB) : result NetDict * DB :=
  match find_network id d with
  | None => (Raise (NetworkNotFound id), d)
  | Some n =>
      let n' := {| net_id := net_id n;
                   net_tenant_id := net_tenant_id n;
                   net_name :=
                     match nb_name body with
                     | Attr nm => Some nm
                     | AttrNone => None
                     | _ => net_name n
                     end;
                   net_admin_state_up :=
                     match nb_admin_state_up body with
                     | Attr v => truthy v
                     | _ => net_admin_state_up n
                     end;
                   net_status := net_status n;
                   net_shared :=
                     default (net_shared n) (attr_value (nb_shared body));
                   net_subnets := net_subnets n |} in
      (Ok (_make_network_dict n'),
       set_networks
         ((fun m => if String.eqb (net_id m) id then n' else m)
            <$> networks d) d)
  end.

(** Modelled from the spec: [nicira_db.get_network_binding], the provider
    binding of a network, if it has one. *)
Definition get_network_binding (id : string) (d : DB)
  : option NetworkBinding :=
  List.find (fun b => String.eqb (network_id b) id) (network_bindings d).

(** Modelled from the spec: [nicira_db.get_network_binding_by_vlanid], a
    provider binding that holds the segmentation id, if there is one. *)
Definition get_network_binding_by_vlanid (vlan : Z) (d : DB)
  : option NetworkBinding :=
  List.find (fun b => bool_decide (vlan_id b = Some vlan))
            (network_bindings d).

(** Modelled from the spec: [nicira_db.add_network_binding], which records
    the provider binding of a network; a network has at most one. *)
Definition add_network_binding (id binding_type : string)
  (tz_uuid : option string) (vlan_id : option Z) (d : DB)
  : result NetworkBinding * DB :=
  match get_network_binding id d with
  | Some _ => (Raise (DBError "duplicate network binding"), d)
  | None =>
      let b := {| network_id := id; binding_type := binding_type;
                  tz_uuid := tz_uuid; vlan_id := vlan_id |} in
      (Ok b, set_network_bindings (network_bindings d ++ [b]) d)
  end.

(** Modelled from the spec: [PortSecurityDbMixin._get_network_security_binding],
    the row of the network in the port-security side table, if any. *)
Definition _get_network_security_binding (id : string) (d : DB)
  : option bool :=
  assoc id (network_security_bindings d).

(** Modelled from the spec: [PortSecurityDbMixin._get_port_security_binding],
    the row of the port in the port-security side table, if any. *)
Definition _get_port_security_binding (id : string) (d : DB) : option bool :=
  assoc id (port_security_bindings d).

(** Modelled from the spec:
    [PortSecurityDbMixin._process_network_create_port_security], which
    records the port-security flag of a created network (enabled unless
    the request says otherwise); a network has one row. *)
Definition _process_network_create_port_security (id : string)
  (port_security : attr bool) (d : DB) : result unit * DB :=
  match _get_network_security_binding id d with
  | Some _ => (Raise (DBError "duplicate network security binding"), d)
  | None =>
      (Ok tt,
       set_network_security_bindings
         (network_security_bindings d
            ++ [(id, default true (attr_value port_security))]) d)
  end.

(** Modelled from the spec:
    [PortSecurityDbMixin._update_network_security_binding], which sets the
    flag of the network to the Boolean the request carries. *)
Definition _update_network_security_binding (id : string)
  (value : option bool) (d : DB) : result unit * DB :=
  match value with
  | None => (Raise (DBError "port_security_enabled is not a boolean"), d)
  | Some b =>
      (Ok tt,
       set_network_security_bindings
         ((fun kv => if String.eqb (fst kv) id then (id, b) else kv)
            <$> network_security_bindings d) d)
  end.

(** Modelled from the spec:
    [PortSecurityDbMixin._process_port_security_create], which records the
    port-security flag of a created port; a port has one row. *)
Definition _process_port_security_create (id : string) (value : bool)
  (d : DB) : result unit * DB :=
  match _get_port_security_binding id d with
  | Some _ => (Raise (DBError "duplicate port security binding"), d)
  | None =>
      (Ok tt,
       set_port_security_bindings (port_security_bindings d ++ [(id, value)]) d)
  end.

(** Modelled from the spec:
    [PortSecurityDbMixin._determine_port_security_and_has_ip]: the flag of
    the request when it is set, else the flag of the network, else enabled;
    and whether the port has a fixed IP. *)
Definition _determine_port_security_and_has_ip (network_id : string)
  (port_security : attr bool) (fixed_ips : list (string * string)) (d : DB)
  : bool * bool :=
  (default (default true (_get_network_security_binding network_id d))
           (attr_value port_security),
   nonempty fixed_ips).

(** Modelled from the spec:
    [PortSecurityDbMixin._extend_network_port_security_dict], the
    port-security projection on a network dictionary. *)
Definition _extend_network_port_security_dict (net : NetDict) (d : DB)
  : NetDict :=
  {| nd_id := nd_id net; nd_name := nd_name net;
     nd_tenant_id := nd_tenant_id net;
     nd_admin_state_up := nd_admin_state_up net;
     nd_status := nd_status net; nd_shared := nd_shared net;
     nd_subnets := nd_subnets net;
     nd_provider := nd_provider net;
     nd_port_security := _get_network_security_binding (nd_id net) d |}.

(** Modelled from the spec:
    [PortSecurityDbMixin._extend_port_port_security_dict], the
    port-security projection on a port dictionary. *)
Definition _extend_port_port_security_dict (p : PortDict) (d : DB)
  : PortDict :=
  {| pd_id := pd_id p; pd_network_id := pd_network_id p;
     pd_tenant_id := pd_tenant_id p; pd_name := pd_name p;
     pd_device_id := pd_device_id p;
     pd_admin_state_up := pd_admin_state_up p;
     pd_mac_address := pd_mac_address p; pd_fixed_ips := pd_fixed_ips p;
     pd_status := pd_status p;
     pd_port_security := _get_port_security_binding (pd_id p) d |}.

End Store.

(** ** NvpPluginV2 *)

Section NvpPluginV2.

Context {NVP : Type} {nvplib : NvpLib NVP} {gen : Generators}.
Variable self : Plugin.

#[local] Abbreviation M := (M NVP).

Definition provider_network_view := "extension:provider_network:view".
Definition provider_network_set := "extension:provider_network:set".
Definition port_security_enabled_create := "create_port:port_security_enabled".
Definition port_security_enabled_update := "update_port:port_security_enabled".

(** What [for x in self.clusters] binds [x] to.  [self.clusters] is a
    dictionary, so the loop yields its keys, which are strings; a cluster
    object is what the loop body expects. *)
Inductive cluster_ref : Type :=
| ClusterName (name : string)
| ClusterObject (c : NVPCluster).

(** [x.zone]: a property of [NVPCluster]; a [str] has no such attribute. *)
Definition getattr_zone (x : cluster_ref) : result (option string) :=
  match x with
  | ClusterName _ =>
      Raise (AttributeError "'str' object has no attribute 'zone'")
  | ClusterObject c => NVPCluster.zone c
  end.

(** [str(x)] for the log, when [x] prints as a scalar. *)
Definition cluster_ref_str (x : cluster_ref) : list string :=
  match x with
  | ClusterName name => [name]
  | ClusterObject _ => []
  end.

(** [self.novazone_cluster_map]: the read of the attribute, which raises
    [AttributeError] on a plugin that does not have it. *)
Definition getattr_novazone_cluster_map : M (gmap string NVPCluster) :=
  fun s =>
    match novazone_cluster_map s with
    | Some m => (Ok m, s)
    | None =>
        (Raise (AttributeError
                  ("'NvpPluginV2' object has no attribute "
                     +:+ "'novazone_cluster_map'")), s)
    end.

(** The loop of [_novazone_to_cluster] over the values [xs] that iterating
    [self.clusters] yields, with what follows it. *)
Fixpoint novazone_scan (xs : list cluster_ref) (novazone_id : string)
  : M NVPCluster :=
  match xs with
  | [] =>
      LOG_ ERROR "Unable to find cluster config entry for nova zone: %s"
           [novazone_id];;;
      raise (NvpInvalidNovaZone novazone_id)
  | x :: rest =>
      LOG_ DEBUG "Looking for nova zone %(novazone_id)s in cluster: %(x)s"
           (novazone_id :: cluster_ref_str x);;;
      zone <- lift (getattr_zone x);;
      match x, zone with
      | ClusterObject c, Some z =>
          if String.eqb z novazone_id
          then
            m <- getattr_novazone_cluster_map;;
            fun s => (Ok c, set_novazone_cluster_map (<[z := c]> m) s)
          else novazone_scan rest novazone_id
      | _, _ => novazone_scan rest novazone_id
      end
  end.

Definition _novazone_to_cluster (novazone_id : string) : M NVPCluster :=
  m <- getattr_novazone_cluster_map;;
  match m !! novazone_id with
  | Some c => ret c
  | None =>
      LOG_ DEBUG "Looking for nova zone: %s" [novazone_id];;;
      novazone_scan (ClusterName <$> iterkeys self) novazone_id
  end.

(** [_find_target_cluster(resource)], on the [nova_id] entry of the
    resource when it has one. *)
Definition _find_target_cluster (nova_id : option string) : M NVPCluster :=
  match nova_id with
  | Some novazone_id => _novazone_to_cluster novazone_id
  | None => ret (default_cluster self)
  end.

Definition _check_view_auth (ctx : Context) (action : string) : bool :=
  policy_check ctx action.

(** Modelled from the spec: [policy.enforce], which fails when the caller is
    not authorised for the action. *)
Definition _enforce_set_auth (ctx : Context) (action : string) : M unit :=
  if policy_check ctx action then ret tt
  else raise (PolicyNotAuthorized action).

Definition _handle_provider_create (ctx : Context) (attrs : NetworkBody)
  : M unit :=
  let network_type := nb_network_type attrs in
  let physical_network := nb_physical_network attrs in
  let segmentation_id := nb_segmentation_id attrs in
  let network_type_set := is_attr_set network_type in
  let physical_network_set := is_attr_set physical_network in
  let segmentation_id_set := is_attr_set segmentation_id in
  if negb (network_type_set || physical_network_set || segmentation_id_set)
  then ret tt
  else
    _enforce_set_auth ctx provider_network_set;;;
    err_msg <-
      match network_type with
      | Attr nt =>
          if bool_decide
               (nt ∈ [NetworkTypes.GRE; NetworkTypes.STT; NetworkTypes.FLAT])
          then
            if segmentation_id_set
            then ret (Some ("Segmentation ID cannot be specified with "
                              +:+ "flat network type"))
            else ret None
          else if String.eqb nt NetworkTypes.VLAN
          then
            match segmentation_id with
            | Attr seg =>
                if (seg <? 1) || (seg >? 4094)
                then ret (Some (pretty seg +:+ " out of range (1 to 4094)"))
                else
                  binding <-
                    db_query
                      (fun d => Ok (Store.get_network_binding_by_vlanid seg d));;
                  match binding with
                  | Some _ =>
                      raise (VlanIdInUse seg (attr_value physical_network))
                  | None => ret None
                  end
            | _ =>
                ret (Some ("Segmentation ID must be specified with "
                             +:+ "vlan network type"))
            end
          else
            ret (Some (pnet.NETWORK_TYPE +:+ " " +:+ nt +:+ " not supported"))
      | _ => ret (Some (pnet.NETWORK_TYPE +:+ " required"))
      end;;
    match err_msg with
    | Some msg => raise (InvalidInput msg)
    | None => ret tt
    end.

Definition set_provider (p : option ProviderAttrs) (net : NetDict) : NetDict :=
  {| nd_id := nd_id net; nd_name := nd_name net;
     nd_tenant_id := nd_tenant_id net;
     nd_admin_state_up := nd_admin_state_up net;
     nd_status := nd_status net; nd_shared := nd_shared net;
     nd_subnets := nd_subnets net;
     nd_provider := p; nd_port_security := nd_port_security net |}.

Definition _extend_network_dict_provider (ctx : Context) (network : NetDict)
  (binding : option NetworkBinding) : M NetDict :=
  if _check_view_auth ctx provider_network_view
  then
    binding <-
      match binding with
      | Some b => ret (Some b)
      | None =>
          db_query (fun d => Ok (Store.get_network_binding (nd_id network) d))
      end;;
    match binding with
    | Some b =>
        ret (set_provider
               (Some {| pa_network_type := binding_type b;
                        pa_physical_network := tz_uuid b;
                        pa_segmentation_id := vlan_id b |})
               network)
    | None => ret network
    end
  else ret network.

Definition _extend_network_port_security_dict (network : NetDict) : M NetDict :=
  db_query (fun d => Ok (Store._extend_network_port_security_dict network d)).

Definition _extend_port_port_security_dict (port : PortDict) : M PortDict :=
  db_query (fun d => Ok (Store._extend_port_port_security_dict port d)).

(** [[ls for ls in lswitches if ls[...]['lport_count'] < max_ports]] *)
Definition with_free_ports (max_ports : Z) (lswitches : list LSwitch)
  : list LSwitch :=
  List.filter (fun ls => ls_lport_count ls <? max_ports) lswitches.

(** [dict((x['scope'], x['tag']) for x in tags)] *)
Definition tag_dict (tags : list Tag) : gmap string string :=
  list_to_map (reverse ((fun x => (scope x, tag x)) <$> tags)).

Definition _handle_lswitch_selection (cluster : NVPCluster) (network : Network)
  (network_binding : option NetworkBinding) (max_ports : Z)
  (allow_extra_lswitches : bool) : M LSwitch :=
  lswitches <- nvp_query (get_lswitches cluster (net_id network));;
  match with_free_ports max_ports lswitches with
  | ls :: _ => ret ls
  | [] =>
      LOG_ DEBUG "No switch has available ports (%d checked)"
           [pretty (length lswitches)];;;
      if allow_extra_lswitches
      then
        let main_ls :=
          List.filter (fun ls => String.eqb (ls_uuid ls) (net_id network))
                      lswitches in
        match main_ls with
        | [] => raise (IndexError "list index out of range")
        | main :: _ =>
            (if bool_decide (tag_dict (ls_tags main) !! "multi_lswitch" = None)
             then
               nvp_call
                 (update_lswitch cluster (ls_uuid main) (ls_display_name main)
                    (net_tenant_id network)
                    [{| scope := "multi_lswitch"; tag := "True" |}])
             else ret tt);;;
            match network_binding with
            | None =>
                raise (AttributeError
                         "'NoneType' object has no attribute 'binding_type'")
            | Some b =>
                nvp_call
                  (create_lswitch cluster (net_tenant_id network)
                     (Some (default "None" (net_name network) +:+ "-ext-"
                              +:+ pretty (length lswitches)))
                     (Some (binding_type b)) (tz_uuid b) (vlan_id b)
                     (Some (net_id network)))
            end
        end
      else
        LOG_ ERROR
          "Maximum number of logical ports reached for logical network %s"
          [net_id network];;;
        raise (NvpNoMorePortsException (net_id network))
  end.

(** [for x in l: body(x)] and the same loop collecting what the body
    returns. *)
Fixpoint for_each {A} (l : list A) (body : A -> M unit) : M unit :=
  match l with
  | [] => ret tt
  | x :: rest => body x;;; for_each rest body
  end.

Fixpoint map_each {A B} (l : list A) (body : A -> M B) : M (list B) :=
  match l with
  | [] => ret []
  | x :: rest => y <- body x;; ys <- map_each rest body;; ret (y :: ys)
  end.

(** The loop of [create_network] that replaces [ATTR_NOT_SPECIFIED] with
    [None] in [net_data]. *)
Definition not_specified_to_none {A} (a : attr A) : attr A :=
  match a with
  | ATTR_NOT_SPECIFIED => AttrNone
  | _ => a
  end.

Definition replace_not_specified (b : NetworkBody) : NetworkBody :=
  {| nb_id := not_specified_to_none (nb_id b);
     nb_name := not_specified_to_none (nb_name b);
     nb_tenant_id := not_specified_to_none (nb_tenant_id b);
     nb_admin_state_up := not_specified_to_none (nb_admin_state_up b);
     nb_shared := not_specified_to_none (nb_shared b);
     nb_network_type := not_specified_to_none (nb_network_type b);
     nb_physical_network := not_specified_to_none (nb_physical_network b);
     nb_segmentation_id := not_specified_to_none (nb_segmentation_id b);
     nb_port_security := not_specified_to_none (nb_port_security b);
     nb_nova_id := nb_nova_id b |}.

(** [network['network']['id'] = uuid] *)
Definition set_id (uuid : string) (b : NetworkBody) : NetworkBody :=
  {| nb_id := Attr uuid;
     nb_name := nb_name b; nb_tenant_id := nb_tenant_id b;
     nb_admin_state_up := nb_admin_state_up b; nb_shared := nb_shared b;
     nb_network_type := nb_network_type b;
     nb_physical_network := nb_physical_network b;
     nb_segmentation_id := nb_segmentation_id b;
     nb_port_security := nb_port_security b;
     nb_nova_id := nb_nova_id b |}.

(** The local transaction of [create_network], once
    [network['network']['id']] is the uuid of the backend switch. *)
Definition create_network_transaction (ctx : Context) (uuid : string)
  (network : NetworkBody) (net_data : NetworkBody) : M NetDict :=
  let network := set_id uuid network in
  session_begin
    (new_net <- db_call (Store.create_network ctx network);;
     db_call
       (Store._process_network_create_port_security uuid
          (nb_port_security network));;;
     new_net <-
       match attr_value (nb_network_type net_data) with
       | Some nt =>
           if negb (String.eqb nt "")
           then
             net_binding <-
               db_call
                 (Store.add_network_binding (nd_id new_net) nt
                    (attr_value (nb_physical_network net_data))
                    (attr_value (nb_segmentation_id net_data)));;
             _extend_network_dict_provider ctx new_net (Some net_binding)
           else ret new_net
       | None => ret new_net
       end;;
     _extend_network_port_security_dict new_net).

(** The beginning of [create_network], up to the choice of the cluster on
    which the switch is created. *)
Definition create_network_target (ctx : Context) (network : NetworkBody)
  : M NVPCluster :=
  _handle_provider_create ctx network;;;
  let net_data := replace_not_specified network in
  match nb_admin_state_up net_data with
  | Absent => raise (KeyError "admin_state_up")
  | Attr v =>
      if is_False v
      then
        LOG_ WARNING
          ("Network with admin_state_up=False are not yet "
             +:+ "supported by this plugin. Ignoring setting for "
             +:+ "network %s")
          [match nb_name net_data with
           | Absent => "<unknown>"
           | Attr nm => nm
           | _ => "None"
           end]
      else ret tt
  | _ => ret tt
  end;;;
  _find_target_cluster (nb_nova_id net_data).

(** [nvplib.create_lswitch(target_cluster, tenant_id, net_data.get('name'),
    ...)], the call of [create_network] to the backend. *)
Definition create_network_lswitch (ctx : Context) (net_data : NetworkBody)
  (target_cluster : NVPCluster) : NVP -> result LSwitch * NVP :=
  create_lswitch target_cluster
    (Store._get_tenant_id_for_create ctx (nb_tenant_id net_data))
    (attr_value (nb_name net_data))
    (attr_value (nb_network_type net_data))
    (attr_value (nb_physical_network net_data))
    (attr_value (nb_segmentation_id net_data))
    None.

Definition create_network (ctx : Context) (network : NetworkBody) : M NetDict :=
  target_cluster <- create_network_target ctx network;;
  let net_data := replace_not_specified network in
  lswitch <- nvp_call (create_network_lswitch ctx net_data target_cluster);;
  create_network_transaction ctx (ls_uuid lswitch) network net_data.

(** One turn of the loop of [_get_lswitch_cluster_pairs]: the pair of the
    cluster, or nothing when the cluster answers [NetworkNotFound]. *)
Definition lswitch_cluster_pair (netw_id : string) (c : NVPCluster)
  : M (option (NVPCluster * list string)) :=
  try_except
    (results <- nvp_query (get_lswitches c netw_id);;
     ret (Some (c, ls_uuid <$> results)))
    (fun e =>
       match e with
       | NetworkNotFound _ => ret None
       | _ => raise e
       end).

Fixpoint lswitch_cluster_pairs (netw_id : string) (cs : list NVPCluster)
  : M (list (NVPCluster * list string)) :=
  match cs with
  | [] => ret []
  | c :: rest =>
      pair <- lswitch_cluster_pair netw_id c;;
      pairs <- lswitch_cluster_pairs netw_id rest;;
      ret (match pair with Some p => p :: pairs | None => pairs end)
  end.

Definition _get_lswitch_cluster_pairs (netw_id tenant_id : string)
  : M (list (NVPCluster * list string)) :=
  pairs <- lswitch_cluster_pairs netw_id (itervalues self);;
  if (length pairs =? 0)%nat
  then raise (NetworkNotFound netw_id)
  else
    LOG_ DEBUG "Returning pairs for network: %s" [];;;
    ret pairs.

Definition delete_network (ctx : Context) (id : string) : M unit :=
  db_call (Store.delete_network ctx id);;;
  pairs <- _get_lswitch_cluster_pairs id (ctx_tenant_id ctx);;
  for_each pairs
    (fun '(cluster, switches) =>
       nvp_call (delete_networks cluster id switches));;;
  LOG_ DEBUG "delete_network completed for tenant: %s" [ctx_tenant_id ctx].

(** What a bulk read returns: the records, or, when [fields] are asked for,
    one dictionary per record with those fields only. *)
Inductive listing (A : Type) : Type :=
| Records (l : list A)
| Rows (l : list (gmap string pyval)).
Arguments Records {A} l.
Arguments Rows {A} l.

Definition opt_str (o : option string) : pyval :=
  match o with Some s => PyStr s | None => PyNone end.

(** The keys of a network dictionary and of a port dictionary. *)
Definition netdict_items (d : NetDict) : gmap string pyval :=
  let base : gmap string pyval :=
    <["id" := PyStr (nd_id d)]>
      (<["name" := opt_str (nd_name d)]>
         (<["tenant_id" := PyStr (nd_tenant_id d)]>
            (<["admin_state_up" := PyBool (nd_admin_state_up d)]>
               (<["status" := PyStr (nd_status d)]>
                  (<["shared" := PyBool (nd_shared d)]>
                     (<["subnets" := PyStrList (nd_subnets d)]> ∅)))))) in
  let with_provider :=
    match nd_provider d with
    | Some p =>
        <[pnet.NETWORK_TYPE := PyStr (pa_network_type p)]>
          (<[pnet.PHYSICAL_NETWORK := opt_str (pa_physical_network p)]>
             (<[pnet.SEGMENTATION_ID :=
                  match pa_segmentation_id p with
                  | Some z => PyInt z
                  | None => PyNone
                  end]> base))
    | None => base
    end in
  match nd_port_security d with
  | Some b => <[psec.PORTSECURITY := PyBool b]> with_provider
  | None => with_provider
  end.

Definition portdict_items (d : PortDict) : gmap string pyval :=
  let base : gmap string pyval :=
    <["id" := PyStr (pd_id d)]>
      (<["network_id" := PyStr (pd_network_id d)]>
         (<["tenant_id" := PyStr (pd_tenant_id d)]>
            (<["name" := PyStr (pd_name d)]>
               (<["device_id" := PyStr (pd_device_id d)]>
                  (<["admin_state_up" := PyBool (pd_admin_state_up d)]>
                     (<["mac_address" := PyStr (pd_mac_address d)]>
                        (<["fixed_ips" := PyPairs (pd_fixed_ips d)]> ∅))))))) in
  let with_status :=
    match pd_status d with
    | Some st => <["status" := PyStr st]> base
    | None => base
    end in
  match pd_port_security d with
  | Some b => <[psec.PORTSECURITY := PyBool b]> with_status
  | None => with_status
  end.

(** [row = {}; for field in fields: row[field] = record[field]] *)
Fixpoint select_fields (record : gmap string pyval) (fields : list string)
  (row : gmap string pyval) : result (gmap string pyval) :=
  match fields with
  | [] => Ok row
  | field :: rest =>
      match record !! field with
      | Some v => select_fields record rest (<[field := v]> row)
      | None => Raise (KeyError field)
      end
  end.

Fixpoint select_rows (records : list (gmap string pyval)) (fields : list string)
  : result (list (gmap string pyval)) :=
  match records with
  | [] => Ok []
  | r :: rest =>
      match select_fields r fields ∅ with
      | Ok row =>
          match select_rows rest fields with
          | Ok rows => Ok (row :: rows)
          | Raise e => Raise e
          end
      | Raise e => Raise e
      end
  end.

(** The end of [get_networks] and [get_ports]: [if fields: ... return
    ret_fields] and else the records. *)
Definition with_fields {A} (items : A -> gmap string pyval)
  (fields : option (list string)) (records : list A) : M (listing A) :=
  match default [] fields with
  | [] => ret (Records records)
  | fs =>
      rows <- lift (select_rows (items <$> records) fs);;
      ret (Rows rows)
  end.

(** [filters.get(key)] on the [filters] argument, whose default is [None]. *)
Definition get (filters : option Filters) (key : string) : M (list string) :=
  match filters with
  | Some f => ret (filters_get f key)
  | None => raise (AttributeError "'NoneType' object has no attribute 'get'")
  end.

Definition set_status_name (status : string) (name : string) (net : NetDict)
  : NetDict :=
  {| nd_id := nd_id net; nd_name := Some name;
     nd_tenant_id := nd_tenant_id net;
     nd_admin_state_up := nd_admin_state_up net;
     nd_status := status; nd_shared := nd_shared net;
     nd_subnets := nd_subnets net;
     nd_provider := nd_provider net;
     nd_port_security := nd_port_security net |}.

(** The inner loop of the cross-reference of [get_networks]: the first
    backend switch whose uuid is [id], and the list once it is removed. *)
Fixpoint take_lswitch (id : string) (nvp_lswitches : list LSwitch)
  : option (LSwitch * list LSwitch) :=
  match nvp_lswitches with
  | [] => None
  | ls :: rest =>
      if String.eqb (ls_uuid ls) id then Some (ls, rest)
      else
        match take_lswitch id rest with
        | Some (found, rest') => Some (found, ls :: rest')
        | None => None
        end
  end.

(** The cross-reference loop of [get_networks]: the local records with the
    status and name of their backend switch, and the backend switches that
    no local record claimed. *)
Fixpoint cross_reference (quantum_lswitches : list NetDict)
  (nvp_lswitches : list LSwitch) : result (list NetDict * list LSwitch) :=
  match quantum_lswitches with
  | [] => Ok ([], nvp_lswitches)
  | quantum_lswitch :: rest =>
      match take_lswitch (nd_id quantum_lswitch) nvp_lswitches with
      | Some (nvp_lswitch, nvp_lswitches') =>
          let status :=
            if ls_fabric_status nvp_lswitch
            then constants.NET_STATUS_ACTIVE
            else constants.NET_STATUS_DOWN in
          match cross_reference rest nvp_lswitches' with
          | Ok (nets, unbound) =>
              Ok (set_status_name status (ls_display_name nvp_lswitch)
                                  quantum_lswitch :: nets, unbound)
          | Raise e => Raise e
          end
      | None => Raise NvpOutOfSyncException
      end
  end.

(** The first block of [get_networks]: the local records, extended, read in
    one transaction. *)
Definition quantum_lswitches_of (ctx : Context) (filters : option Filters)
  : M (list NetDict) :=
  session_begin
    (nets <- db_query (fun d => Ok (Store.get_networks ctx filters d));;
     map_each nets
       (fun net =>
          net <- _extend_network_dict_provider ctx net None;;
          _extend_network_port_security_dict net)).

(** [filtered_lswitches]: a backend switch once per id of the filter that
    is its uuid. *)
Definition filter_by_ids (ids : list string) (nvp_lswitches : list LSwitch)
  : list LSwitch :=
  List.flat_map
    (fun nvp_lswitch =>
       List.flat_map
         (fun id =>
            if String.eqb id (ls_uuid nvp_lswitch) then [nvp_lswitch] else [])
         ids)
    nvp_lswitches.

(** The second block of [get_networks]: the tenant filter, the query of
    every cluster, and the filter on ids. *)
Definition nvp_lswitches_of (ctx : Context) (filters : option Filters)
  : M (list LSwitch) :=
  admin_all <-
    (if is_admin ctx
     then (tenants <- get filters "tenant_id";; ret (negb (nonempty tenants)))
     else ret false);;
  tenant_filter <-
    (if admin_all then ret ""
     else
       tenants <- get filters "tenant_id";;
       if nonempty tenants
       then
         ret (foldl
                (fun acc tenant =>
                   acc +:+ "&tag=" +:+ tenant +:+ "&tag_scope=os_tid")
                "" tenants)
       else ret ("&tag=" +:+ ctx_tenant_id ctx +:+ "&tag_scope=os_tid"));;
  let lswitch_filters := "uuid,display_name,fabric_status,tags" in
  let lswitch_url_path :=
    "/ws.v1/lswitch?fields=" +:+ lswitch_filters
      +:+ "&relations=LogicalSwitchStatus" +:+ tenant_filter in
  nvp_lswitches <-
    try_except
      (pages <-
         map_each (itervalues self)
           (fun c => nvp_query (get_all_query_pages_lswitch lswitch_url_path c));;
       ret (concat pages))
      (fun _ =>
         let err_msg := "Unable to get logical switches" in
         LOG_ EXCEPTION err_msg [];;;
         raise (NvpPluginException err_msg));;
  ids <- get filters "id";;
  ret (if nonempty ids then filter_by_ids ids nvp_lswitches
       else nvp_lswitches).

(** The warning of [get_networks] on the backend switches that no local
    record claimed. *)
Definition unbound_lswitches_warning (nvp_lswitches : list LSwitch)
  : list LogRecord :=
  if nonempty nvp_lswitches
  then [LOG WARNING
          ("Found %s logical switches not bound "
             +:+ "to Quantum networks. Quantum and NVP are "
             +:+ "potentially out of sync")
          [pretty (length nvp_lswitches)]]
  else [].

Definition get_networks (ctx : Context) (filters : option Filters)
  (fields : option (list string)) : M (listing NetDict) :=
  quantum_lswitches <- quantum_lswitches_of ctx filters;;
  nvp_lswitches <- nvp_lswitches_of ctx filters;;
  crossed <- lift (cross_reference quantum_lswitches nvp_lswitches);;
  let '(quantum_lswitches, nvp_lswitches) := crossed in
  for_each (unbound_lswitches_warning nvp_lswitches)
    (fun r => LOG_ (log_level_of r) (log_msg r) (log_args r));;;
  LOG_ DEBUG "get_networks() completed for tenant %s" [ctx_tenant_id ctx];;;
  with_fields netdict_items fields quantum_lswitches.

(** [d.get("admin_state_up")] and, when the key is there,
    [d["admin_state_up"]]. *)
Definition attr_get (a : attr pyval) : pyval :=
  match a with
  | Absent => PyNone
  | AttrNone => PyNone
  | ATTR_NOT_SPECIFIED => PyObject "ATTR_NOT_SPECIFIED"
  | Attr v => v
  end.

(** The local transaction of [update_network]. *)
Definition update_network_transaction (ctx : Context) (id : string)
  (network : NetworkBody) : M NetDict :=
  session_begin
    (quantum_db <- db_call (Store.update_network ctx id network);;
     match nb_port_security network with
     | Absent => ret tt
     | value =>
         db_call (Store._update_network_security_binding id (attr_value value))
     end;;;
     _extend_network_port_security_dict quantum_db).

Definition update_network (ctx : Context) (id : string) (network : NetworkBody)
  : M NetDict :=
  (if truthy (attr_get (nb_admin_state_up network))
   then
     if is_False (attr_get (nb_admin_state_up network))
     then
       raise (NotImplementedError
                ("admin_state_up=False " +:+ "networks are not "
                   +:+ "supported."))
     else ret tt
   else ret tt);;;
  update_network_transaction ctx id network.

(** The local dictionary of backend ports of [get_ports], keyed by the tag
    of scope [q_port_id]: [nvp_lports[tag["tag"]] = port]. *)
Definition index_port (nvp_lports : gmap string LPort) (port : LPort)
  : gmap string LPort :=
  foldl
    (fun m t => if String.eqb (scope t) "q_port_id" then <[tag t := port]> m
                else m)
    nvp_lports (lp_tags port).

Definition index_ports (nvp_lports : gmap string LPort) (ports : list LPort)
  : gmap string LPort :=
  foldl index_port nvp_lports ports.

(** The assignments of [get_ports] to a local port found on the backend. *)
Definition project_port (nvp_lport : LPort) (quantum_lport : PortDict)
  : PortDict :=
  {| pd_id := pd_id quantum_lport;
     pd_network_id := pd_network_id quantum_lport;
     pd_tenant_id := pd_tenant_id quantum_lport;
     pd_name := lp_display_name nvp_lport;
     pd_device_id := pd_device_id quantum_lport;
     pd_admin_state_up := lp_admin_status_enabled nvp_lport;
     pd_mac_address := pd_mac_address quantum_lport;
     pd_fixed_ips := pd_fixed_ips quantum_lport;
     pd_status :=
       Some (if lp_fabric_status_up nvp_lport
             then constants.PORT_STATUS_ACTIVE
             else constants.PORT_STATUS_DOWN);
     pd_port_security := pd_port_security quantum_lport |}.

(** The loop of [get_ports] over the local ports: the ports found on the
    backend, projected, and the backend ports that are left. *)
Fixpoint project_ports (quantum_lports : list PortDict)
  (nvp_lports : gmap string LPort) : M (list PortDict * gmap string LPort) :=
  match quantum_lports with
  | [] => ret ([], nvp_lports)
  | quantum_lport :: rest =>
      match nvp_lports !! pd_id quantum_lport with
      | Some nvp_lport =>
          r <- project_ports rest (delete (pd_id quantum_lport) nvp_lports);;
          ret (project_port nvp_lport quantum_lport :: r.1, r.2)
      | None =>
          LOG_ DEBUG "Quantum logical port %s was not found on NVP"
               [pd_id quantum_lport];;;
          project_ports rest nvp_lports
      end
  end.

(** The first block of [get_ports]: the local records, extended, read in
    one transaction. *)
Definition quantum_lports_of (ctx : Context) (filters : option Filters)
  : M (list PortDict) :=
  session_begin
    (ports <- db_query (fun d => Ok (Store.get_ports ctx filters d));;
     map_each ports _extend_port_port_security_dict).

(** The second block of [get_ports]: the query path from the filters, the
    query of every cluster, and the dictionary of the backend ports. *)
Definition nvp_lports_of (filters : option Filters) : M (gmap string LPort) :=
  network_ids <- get filters "network_id";;
  let lswitch :=
    match network_ids with
    | id :: _ => id
    | [] => "*"
    end in
  device_ids <- get filters "device_id";;
  let vm_filter :=
    foldl
      (fun vm_filter vm_id =>
         vm_filter +:+ "tag_scope=vm_id&tag=" +:+ sha1_hexdigest vm_id +:+ "&")
      "" device_ids in
  tenants <- get filters "tenant_id";;
  let tenant_filter :=
    foldl
      (fun tenant_filter tenant =>
         tenant_filter +:+ "tag_scope=os_tid&tag=" +:+ tenant +:+ "&")
      "" tenants in
  let lport_fields_str :=
    "tags,admin_status_enabled,display_name," +:+ "fabric_status_up" in
  let lport_query_path :=
    "/ws.v1/lswitch/" +:+ lswitch +:+ "/lport?fields=" +:+ lport_fields_str
      +:+ "&" +:+ vm_filter +:+ tenant_filter +:+ "tag_scope=q_port_id"
      +:+ "&relations=LogicalPortStatus" in
  try_except
    (pages <-
       map_each (itervalues self)
         (fun c => nvp_query (get_all_query_pages_lport lport_query_path c));;
     ret (foldl index_ports ∅ pages))
    (fun _ =>
       let err_msg := "Unable to get ports" in
       LOG_ EXCEPTION err_msg [];;;
       raise (NvpPluginException err_msg)).

Definition get_ports (ctx : Context) (filters : option Filters)
  (fields : option (list string)) : M (listing PortDict) :=
  quantum_lports <- quantum_lports_of ctx filters;;
  nvp_lports <- nvp_lports_of filters;;
  projected <- project_ports quantum_lports nvp_lports;;
  let '(lports, nvp_lports) := projected in
  (if (size nvp_lports =? 0)%nat then ret tt
   else
     LOG_ WARNING
       ("Found %s logical ports not bound "
          +:+ "to Quantum ports. Quantum and NVP are "
          +:+ "potentially out of sync")
       [pretty (size nvp_lports)]);;;
  with_fields portdict_items fields lports.

Definition set_port_security (v : option bool) (p : PortDict) : PortDict :=
  {| pd_id := pd_id p; pd_network_id := pd_network_id p;
     pd_tenant_id := pd_tenant_id p; pd_name := pd_name p;
     pd_device_id := pd_device_id p;
     pd_admin_state_up := pd_admin_state_up p;
     pd_mac_address := pd_mac_address p; pd_fixed_ips := pd_fixed_ips p;
     pd_status := pd_status p; pd_port_security := v |}.

(** What [create_port] holds when it turns to the backend: the port
    dictionary, the owning network and its provider binding, the ceiling on
    the ports of a switch and whether extra switches may be created. *)
Record Placement : Type := {
  pl_port_data : PortDict;
  pl_port_security : bool;
  pl_network : Network;
  pl_network_binding : option NetworkBinding;
  pl_max_ports : Z;
  pl_allow_extra_lswitches : bool
}.

(** The first part of the transaction of [create_port]: the port in the
    local store, and the choice of the ceiling. *)
Definition create_port_in_db (ctx : Context) (port : PortBody) : M Placement :=
  quantum_db <- db_call (Store.create_port ctx port);;
  let port_data := quantum_db in
  determined <-
    db_query
      (fun d =>
         Ok (Store._determine_port_security_and_has_ip
               (pd_network_id port_data) (pb_port_security port)
               (pd_fixed_ips port_data) d));;
  let port_security := determined.1 in
  let port_data := set_port_security (Some port_security) port_data in
  db_call
    (Store._process_port_security_create (pd_id port_data) port_security);;;
  network <- db_query (Store._get_network (pd_network_id port_data));;
  network_binding <-
    db_query
      (fun d => Ok (Store.get_network_binding (pd_network_id port_data) d));;
  let bridged :=
    match network_binding with
    | Some b =>
        bool_decide (binding_type b ∈ [NetworkTypes.FLAT; NetworkTypes.VLAN])
    | None => false
    end in
  ret {| pl_port_data := port_data;
         pl_port_security := port_security;
         pl_network := network;
         pl_network_binding := network_binding;
         pl_max_ports :=
           if bridged then max_lp_per_bridged_ls (nvp_opts self)
           else max_lp_per_overlay_ls (nvp_opts self);
         pl_allow_extra_lswitches := bridged |}.

(** The switch of the port: [_find_target_cluster] and
    [_handle_lswitch_selection], the first two statements of the [try]
    block of [create_port]. *)
Definition select_lswitch (port : PortBody) (pl : Placement)
  : M (NVPCluster * LSwitch) :=
  cluster <- _find_target_cluster (pb_nova_id port);;
  selected_lswitch <-
    _handle_lswitch_selection cluster (pl_network pl) (pl_network_binding pl)
      (pl_max_ports pl) (pl_allow_extra_lswitches pl);;
  ret (cluster, selected_lswitch).

(** The [try] block of [create_port] with its two handlers: the port on the
    backend, on a switch with room for it. *)
Definition create_port_on_nvp (port : PortBody) (pl : Placement) : M unit :=
  let port_data := pl_port_data pl in
  try_except
    (selected <- select_lswitch port pl;;
     let '(cluster, selected_lswitch) := selected in
     let lswitch_uuid := ls_uuid selected_lswitch in
     lport <-
       nvp_call
         (create_lport cluster lswitch_uuid (pd_tenant_id port_data)
            (pd_id port_data) (pd_name port_data) (pd_device_id port_data)
            (pd_admin_state_up port_data) (pd_mac_address port_data)
            (pd_fixed_ips port_data) (Some (pl_port_security pl)));;
     nvp_call
       (plug_interface cluster (ls_uuid selected_lswitch) (lp_uuid lport)
          "VifAttachment" (pd_id port_data)))
    (fun e =>
       match e with
       | NvpNoMorePortsException _ =>
           LOG_ ERROR "Number of available ports for network %s exhausted"
                [pd_network_id port_data];;;
           raise e
       | _ =>
           let err_msg :=
             "An exception occured while plugging the interface"
               +:+ " in NVP for port " +:+ pd_id port_data in
           LOG_ EXCEPTION err_msg [];;;
           raise (NvpPluginException err_msg)
       end).

Definition create_port (ctx : Context) (port : PortBody) : M PortDict :=
  (if is_attr_set (pb_port_security port)
   then _enforce_set_auth ctx port_security_enabled_create
   else ret tt);;;
  session_begin
    (pl <- create_port_in_db ctx port;;
     create_port_on_nvp port pl;;;
     LOG_ DEBUG "create_port completed on NVP for tenant %(tenant_id)s: (%(id)s)"
          [pd_tenant_id (pl_port_data pl); pd_id (pl_port_data pl)];;;
     _extend_port_port_security_dict (pl_port_data pl)).

End NvpPluginV2.

Arguments Records {A} l.
Arguments Rows {A} l.

(** ** A small deployment to run the plugin on *)

Module Demo.

(** A backend that holds, per cluster name, logical switches and logical
    ports; the clusters named in [be_unreachable] do not answer. *)
Record Backend : Type := {
  be_lswitches : list (string * LSwitch);
  be_lports : list (string * LPort);
  be_unreachable : list string
}.

Definition reachable (c : NVPCluster) (be : Backend) : bool :=
  negb (bool_decide (NVPCluster.name c ∈ be_unreachable be)).

Definition on_cluster {A} (c : NVPCluster) (l : list (string * A)) : list A :=
  snd <$> List.filter (fun kv => String.eqb (fst kv) (NVPCluster.name c)) l.

Definition has_tag (sc tg : string) (tags : list Tag) : bool :=
  existsb (fun t => String.eqb (scope t) sc && String.eqb (tag t) tg) tags.

Definition unreachable_error : exn :=
  NvpApiException "cluster unreachable".

Definition demo_get_lswitches (c : NVPCluster) (id : string) (be : Backend)
  : result (list LSwitch) :=
  if reachable c be
  then
    match
      List.filter
        (fun ls => String.eqb (ls_uuid ls) id
                   || has_tag "quantum_net_id" id (ls_tags ls))
        (on_cluster c (be_lswitches be))
    with
    | [] => Raise (NetworkNotFound id)
    | l => Ok l
    end
  else Raise unreachable_error.

Definition demo_create_lswitch (c : NVPCluster) (tenant_id : string)
  (display_name transport_type tz : option string) (vlan : option Z)
  (quantum_net_id : option string) (be : Backend) : result LSwitch * Backend :=
  if reachable c be
  then
    let ls :=
      {| ls_uuid := "lswitch-" +:+ pretty (length (be_lswitches be));
         ls_display_name := default "" display_name;
         ls_tags :=
           {| scope := "os_tid"; tag := tenant_id |}
             :: match quantum_net_id with
                | Some id => [{| scope := "quantum_net_id"; tag := id |}]
                | None => []
                end;
         ls_fabric_status := true;
         ls_lport_count := 0 |} in
    (Ok ls,
     {| be_lswitches := be_lswitches be ++ [(NVPCluster.name c, ls)];
        be_lports := be_lports be;
        be_unreachable := be_unreachable be |})
  else (Raise unreachable_error, be).

Definition demo_update_lswitch (c : NVPCluster) (lswitch_id : string)
  (display_name tenant_id : string) (tags : list Tag) (be : Backend)
  : result unit * Backend :=
  if reachable c be
  then
    (Ok tt,
     {| be_lswitches :=
          (fun kv =>
             if String.eqb (ls_uuid kv.2) lswitch_id
             then (kv.1,
                   {| ls_uuid := ls_uuid kv.2;
                      ls_display_name := display_name;
                      ls_tags := ls_tags kv.2 ++ tags;
                      ls_fabric_status := ls_fabric_status kv.2;
                      ls_lport_count := ls_lport_count kv.2 |})
             else kv) <$> be_lswitches be;
        be_lports := be_lports be;
        be_unreachable := be_unreachable be |})
  else (Raise unreachable_error, be).

Definition demo_delete_networks (c : NVPCluster) (net_id : string)
  (lswitch_ids : list string) (be : Backend) : result unit * Backend :=
  if reachable c be
  then
    (Ok tt,
     {| be_lswitches :=
          List.filter
            (fun kv => negb (bool_decide (ls_uuid kv.2 ∈ lswitch_ids)))
            (be_lswitches be);
        be_lports := be_lports be;
        be_unreachable := be_unreachable be |})
  else (Raise unreachable_error, be).

Definition demo_query_lswitch (path : string) (c : NVPCluster) (be : Backend)
  : result (list LSwitch) :=
  if reachable c be then Ok (on_cluster c (be_lswitches be))
  else Raise unreachable_error.

Definition demo_query_lport (path : string) (c : NVPCluster) (be : Backend)
  : result (list LPort) :=
  if reachable c be then Ok (on_cluster c (be_lports be))
  else Raise unreachable_error.

Definition demo_create_lport (c : NVPCluster) (lswitch_uuid tenant_id
  quantum_port_id display_name device_id : string) (admin : bool)
  (mac : string) (fixed_ips : list (string * string))
  (port_security : option bool) (be : Backend) : result LPort * Backend :=
  if reachable c be
  then
    let lp :=
      {| lp_uuid := "lport-" +:+ pretty (length (be_lports be));
         lp_tags := [{| scope := "os_tid"; tag := tenant_id |};
                     {| scope := "q_port_id"; tag := quantum_port_id |}];
         lp_admin_status_enabled := admin;
         lp_display_name := display_name;
         lp_fabric_status_up := false |} in
    (Ok lp,
     {| be_lswitches := be_lswitches be;
        be_lports := be_lports be ++ [(NVPCluster.name c, lp)];
        be_unreachable := be_unreachable be |})
  else (Raise unreachable_error, be).

Definition demo_plug_interface (c : NVPCluster) (lswitch_id port type
  attachment : string) (be : Backend) : result unit * Backend :=
  if reachable c be then (Ok tt, be) else (Raise unreachable_error, be).

#[export] Instance demo_nvplib : NvpLib Backend := {|
  get_lswitches := demo_get_lswitches;
  create_lswitch := demo_create_lswitch;
  update_lswitch := demo_update_lswitch;
  delete_networks := demo_delete_networks;
  get_all_query_pages_lswitch := demo_query_lswitch;
  get_all_query_pages_lport := demo_query_lport;
  create_lport := demo_create_lport;
  plug_interface := demo_plug_interface
|}.

#[export] Instance demo_generators : Generators := {|
  sha1_hexdigest := fun s => "sha1(" +:+ s +:+ ")";
  str_uuid := fun d => "uuid-" +:+ pretty (length (networks d) + length (ports d))%nat;
  generate_mac := fun d => "fa:16:3e:00:00:" +:+ pretty (length (ports d))
|}.

Definition controller (zone : string) : Controller :=
  {| ctl_ip := "10.0.0.1"; ctl_port := 443; ctl_user := "admin";
     ctl_password := "secret"; ctl_request_timeout := 30;
     ctl_http_timeout := 10; ctl_retries := 2; ctl_redirects := 2;
     ctl_default_tz_uuid := "tz-1"; ctl_uuid := None;
     ctl_zone := Some zone |}.

Definition c1 : NVPCluster :=
  {| _name := "c1"; controllers := [controller "z1"] |}.
Definition c2 : NVPCluster :=
  {| _name := "c2"; controllers := [controller "z2"] |}.

Definition opts : NvpOpts :=
  {| max_lp_per_overlay_ls := 256; max_lp_per_bridged_ls := 2;
     default_cluster_name := Some "c1" |}.

(** A plugin with one cluster, and one with two. *)
Definition plugin : Plugin :=
  {| clusters := [("c1", c1)]; default_cluster := c1; nvp_opts := opts |}.
Definition plugin2 : Plugin :=
  {| clusters := [("c1", c1); ("c2", c2)]; default_cluster := c1;
     nvp_opts := opts |}.

Definition admin : Context :=
  {| ctx_tenant_id := "t1"; is_admin := true; policy_check := fun _ => true |}.
(** A tenant that the policy lets do nothing beyond the defaults. *)
Definition tenant : Context :=
  {| ctx_tenant_id := "t1"; is_admin := false;
     policy_check := fun _ => false |}.

Definition empty_backend : Backend :=
  {| be_lswitches := []; be_lports := []; be_unreachable := [] |}.
Definition down_backend : Backend :=
  {| be_lswitches := []; be_lports := []; be_unreachable := ["c1"] |}.

Definition state (d : DB) (be : Backend) : State Backend :=
  {| db := d; nvp := be; log := []; novazone_cluster_map := None |}.

Definition lswitch (uuid name : string) (count : Z) : LSwitch :=
  {| ls_uuid := uuid; ls_display_name := name; ls_tags := [];
     ls_fabric_status := true; ls_lport_count := count |}.

Definition network_row (id name : string) : Network :=
  {| net_id := id; net_tenant_id := "t1"; net_name := Some name;
     net_admin_state_up := true;
     net_status := constants.NET_STATUS_ACTIVE; net_shared := false;
     net_subnets := [] |}.

(** A request to create a network, with the defaults the API layer fills
    in. *)
Definition network_body (name : string) : NetworkBody :=
  {| nb_id := Absent; nb_name := Attr name; nb_tenant_id := Attr "t1";
     nb_admin_state_up := Attr (PyBool true); nb_shared := Attr false;
     nb_network_type := ATTR_NOT_SPECIFIED;
     nb_physical_network := ATTR_NOT_SPECIFIED;
     nb_segmentation_id := ATTR_NOT_SPECIFIED;
     nb_port_security := ATTR_NOT_SPECIFIED;
     nb_nova_id := None |}.

Definition vlan_body (name physnet : string) (seg : Z) : NetworkBody :=
  {| nb_id := Absent; nb_name := Attr name; nb_tenant_id := Attr "t1";
     nb_admin_state_up := Attr (PyBool true); nb_shared := Attr false;
     nb_network_type := Attr NetworkTypes.VLAN;
     nb_physical_network := Attr physnet;
     nb_segmentation_id := Attr seg;
     nb_port_security := ATTR_NOT_SPECIFIED;
     nb_nova_id := None |}.

Definition port_body (network_id : string) : PortBody :=
  {| pb_id := Absent; pb_network_id := network_id;
     pb_tenant_id := Attr "t1"; pb_name := Attr "p1";
     pb_device_id := Attr "vm1"; pb_admin_state_up := Attr true;
     pb_mac_address := ATTR_NOT_SPECIFIED;
     pb_fixed_ips := ATTR_NOT_SPECIFIED;
     pb_port_security := ATTR_NOT_SPECIFIED;
     pb_nova_id := None |}.

(** The local store holds the network [n1]; no cluster has a switch for
    it. *)
Definition n1_store : DB :=
  Store.set_networks [network_row "n1" "N1"] Store.empty.
Definition local_only : State Backend := state n1_store empty_backend.

(** The network [n1] is on both sides, and the backend has two more
    switches that the local store does not know. *)
Definition drifted : State Backend :=
  state n1_store
    {| be_lswitches := [("c1", lswitch "n1" "N1" 0);
                        ("c1", lswitch "x1" "X1" 0);
                        ("c1", lswitch "x2" "X2" 0)];
       be_lports := []; be_unreachable := [] |}.

(** The overlay network [n1], whose only switch is at the ceiling of
    overlay switches. *)
Definition overlay_full : State Backend :=
  state n1_store
    {| be_lswitches := [("c1", lswitch "n1" "N1" 256)];
       be_lports := []; be_unreachable := [] |}.

(** The network [n1] bound to vlan 100 of [phys1]. *)
Definition n1_binding : NetworkBinding :=
  {| network_id := "n1"; binding_type := NetworkTypes.VLAN;
     tz_uuid := Some "phys1"; vlan_id := Some 100 |}.
Definition n1_vlan_store : DB :=
  Store.set_network_bindings [n1_binding] n1_store.

(** The bridged network [n1] with its only switch at the ceiling of
    bridged switches, and with room for one more port. *)
Definition bridged_full : State Backend :=
  state n1_vlan_store
    {| be_lswitches := [("c1", lswitch "n1" "N1" 2)];
       be_lports := []; be_unreachable := [] |}.
Definition bridged_free : State Backend :=
  state n1_vlan_store
    {| be_lswitches := [("c1", lswitch "n1" "N1" 1)];
       be_lports := []; be_unreachable := [] |}.

(** The extra switch that the backend creates for [n1] in
    [bridged_full]. *)
Definition n1_ext : LSwitch :=
  {| ls_uuid := "lswitch-1"; ls_display_name := "N1-ext-1";
     ls_tags := [{| scope := "os_tid"; tag := "t1" |};
                 {| scope := "quantum_net_id"; tag := "n1" |}];
     ls_fabric_status := true; ls_lport_count := 0 |}.

(** The bridged network [n1] once its primary switch is gone from the
    backend: the cluster lists one extra switch of the network, which is
    at the ceiling of bridged switches. *)
Definition primary_gone : State Backend :=
  state n1_vlan_store
    {| be_lswitches :=
         [("c1",
           {| ls_uuid := "lswitch-1"; ls_display_name := "N1-ext-1";
              ls_tags := [{| scope := "os_tid"; tag := "t1" |};
                          {| scope := "quantum_net_id"; tag := "n1" |}];
              ls_fabric_status := true; ls_lport_count := 2 |})];
       be_lports := []; be_unreachable := [] |}.


End Demo.

(** ** Predicates on states and computations *)

Section Predicates.

Context {NVP : Type} {nvplib : NvpLib NVP}.

(** No cluster has a (cluster, switches) pair for the network: each answers
    [NetworkNotFound] to [get_lswitches]. *)
Definition no_pairs (self : Plugin) (netw_id : string) (s : State NVP) : Prop :=
  Forall
    (fun c => exists id, get_lswitches c netw_id (nvp s) = Raise (NetworkNotFound id))
    (itervalues self).

(** The cluster's zone is [novazone_id]. *)
Definition has_zone (novazone_id : string) (c : NVPCluster) : bool :=
  match NVPCluster.zone c with
  | Ok (Some z) => String.eqb z novazone_id
  | _ => false
  end.

(** [x] is the first element of [l] that passes the test [p]. *)
Definition first_such {A} (p : A -> bool) (l : list A) (x : A) : Prop :=
  exists l1 l2, l = l1 ++ x :: l2 /\ Forall (fun y => p y = false) l1 /\ p x = true.

(** The switch has no room for one more port under the ceiling. *)
Definition full (max_ports : Z) (ls : LSwitch) : Prop :=
  max_ports <= ls_lport_count ls.

(** The tags hold one of the scope. *)
Definition has_scope (sc : string) (tags : list Tag) : bool :=
  existsb (fun t => String.eqb (scope t) sc) tags.

(** The name of the extra switch that [_handle_lswitch_selection] creates:
    ["%s-ext-%s" % (network.name, len(lswitches))]. *)
Definition extra_lswitch_name (network : Network) (lswitches : list LSwitch)
  : string :=
  default "None" (net_name network) +:+ "-ext-" +:+ pretty (length lswitches).

(** The local store [d'] is the store [d] with the records of one more
    network, of id [uuid], as [create_network] makes them from the request:
    the network record, its port-security row, and its provider binding
    when the request names a network type. *)
Definition created_network_store (uuid : string) (network : NetworkBody)
  (d d' : DB) : Prop :=
  (exists n, networks d' = networks d ++ [n] /\ net_id n = uuid) /\
  network_security_bindings d'
  = network_security_bindings d
      ++ [(uuid, default true (attr_value (nb_port_security network)))] /\
  network_bindings d'
  = network_bindings d
      ++ match attr_value (nb_network_type network) with
         | Some nt =>
             if String.eqb nt "" then []
             else [{| network_id := uuid; binding_type := nt;
                      tz_uuid := attr_value (nb_physical_network network);
                      vlan_id := attr_value (nb_segmentation_id network) |}]
         | None => []
         end /\
  ports d' = ports d /\
  port_security_bindings d' = port_security_bindings d.

(** Two states with the same local records and the same backend: they may
    differ in the log and in the zone cache. *)
Definition same_stores (s1 s2 : State NVP) : Prop :=
  db s1 = db s2 /\ nvp s1 = nvp s2.

(** A computation whose result is a function of the local records and of
    the backend alone. *)
Definition stable {A} (m : M NVP A) : Prop :=
  forall s1 s2, same_stores s1 s2 ->
    fst (m s1) = fst (m s2) /\ same_stores (snd (m s1)) (snd (m s2)).

(** A computation that leaves the local records and the backend as they
    are. *)
Definition readonly {A} (m : M NVP A) : Prop :=
  forall s, same_stores (snd (m s)) s.

(** A computation that never changes the state. *)
Definition query_only {A} (m : M NVP A) : Prop := forall s, snd (m s) = s.

End Predicates.

(** ** The rest of the two files *)

(** *** Errors of Python itself *)

(** [int(x)] and the subscription of [None] fail with [ValueError] and
    [TypeError], which are not exceptions of Quantum: the methods that can
    fail with them end in an [outcome]. *)
Inductive py_error : Type :=
| Exn (e : exn)
| TypeError
| ValueError.

Inductive outcome (A : Type) : Type :=
| Returns (a : A)
| Fails (e : py_error).
Arguments Returns {A} a.
Arguments Fails {A} e.

Definition and_then {A B} (o : outcome A) (k : A -> outcome B) : outcome B :=
  match o with
  | Returns a => k a
  | Fails e => Fails e
  end.

(** [int(s)] on a string: the integer that [s] is the literal of, if it is
    one.  The function is Python's and is taken as a parameter. *)
Class Builtins : Type := { int_of_str : string -> option Z }.

(** *** nvp_cluster.NVPCluster: construction *)

Module nvp_cluster.

Definition __init__ (name : string) : NVPCluster :=
  {| _name := name; controllers := [] |}.

Section WithBuiltins.
Context {builtins : Builtins}.

(** [int(v)]: a number is converted, a string is read as a literal
    ([ValueError] when it is none), anything else is a [TypeError]. *)
Definition int (v : pyval) : outcome Z :=
  match v with
  | PyInt z => Returns z
  | PyBool b => Returns (if b then 1 else 0)
  | PyStr s =>
      match int_of_str s with
      | Some z => Returns z
      | None => Fails ValueError
      end
  | _ => Fails TypeError
  end.

(** [add_controller], called with strings for the keys that are stored as
    they are, and with any value for the keys that go through [int]: the
    loop over [int_keys] converts them in the order of the list, and the
    dictionary is appended to [self.controllers] once all are converted. *)
Definition add_controller (self : NVPCluster) (ip : string) (port : pyval)
  (user password : string)
  (request_timeout http_timeout retries redirects : pyval)
  (default_tz_uuid : string) (uuid zone : option string)
  : outcome NVPCluster :=
  and_then (int port) (fun port =>
  and_then (int request_timeout) (fun request_timeout =>
  and_then (int http_timeout) (fun http_timeout =>
  and_then (int retries) (fun retries =>
  and_then (int redirects) (fun redirects =>
    let controller_dict :=
      {| ctl_ip := ip; ctl_port := port; ctl_user := user;
         ctl_password := password;
         ctl_request_timeout := request_timeout;
         ctl_http_timeout := http_timeout;
         ctl_retries := retries; ctl_redirects := redirects;
         ctl_default_tz_uuid := default_tz_uuid;
         ctl_uuid := uuid; ctl_zone := zone |} in
    Returns {| _name := _name self;
               controllers := controllers self ++ [controller_dict] |}))))).

End WithBuiltins.

(** The setter of [name]. *)
Definition set_name (val : string) (self : NVPCluster) : NVPCluster :=
  {| _name := val; controllers := controllers self |}.

End nvp_cluster.

(** *** NvpPluginV2.__init__: the default cluster *)

(** The end of [__init__], which designates [self.default_cluster] among
    the clusters that the loop before it has put in [self.clusters] (here
    in the iteration order of the dictionary): the cluster of the
    configured name when the name is set and is a key, else the cluster of
    the first key.  The log records are returned with the result. *)
Definition init_default_cluster (clusters : list (string * NVPCluster))
  (def_cluster_name : option string) : result NVPCluster * list LogRecord :=
  let name := default "" def_cluster_name in
  let set := negb (String.eqb name "") in
  match (if set then Store.assoc name clusters else None) with
  | Some c => (Ok c, [])
  | None =>
      match clusters.*1 with
      | [] => (Raise (IndexError "list index out of range"), [])
      | first_cluster_name :: _ =>
          let records :=
            if negb set
            then [LOG INFO
                    ("Default cluster name not specified. "
                       +:+ "Using first cluster:%s")
                    [first_cluster_name]]
            else [LOG WARNING
                    ("Default cluster name %(def_cluster_name)s. "
                       +:+ "Using first cluster:%(first_cluster_name)s")
                    [name; first_cluster_name]] in
          match Store.assoc first_cluster_name clusters with
          | Some c => (Ok c, records)
          | None => (Raise (KeyError first_cluster_name), records)
          end
      end
  end.

(** *** The local record store: single ports *)

(** [port['port']] of an update request: each key that a port lets a
    request update is missing or holds a value of the attribute's type. *)
Record PortUpdate : Type := {
  pu_name : option string;
  pu_device_id : option string;
  pu_admin_state_up : option bool;
  pu_fixed_ips : option (list (string * string));
  pu_port_security : option bool
}.

Module QuantumDbPluginV2.

(** Modelled from the spec: [QuantumDbPluginV2._fields], the dictionary
    with the fields asked for, and the whole of it when none is. *)
Definition _fields (resource : gmap string pyval)
  (fields : option (list string)) : gmap string pyval :=
  match default [] fields with
  | [] => resource
  | fs => filter (fun kv => kv.1 ∈ fs) resource
  end.

(** Modelled from the spec: [QuantumDbPluginV2.get_port], the dictionary of
    the local record of a port, [PortNotFound] when there is none. *)
Definition get_port (ctx : Context) (id : string)
  (fields : option (list string)) (d : DB) : result (gmap string pyval) :=
  match Store.find_port id d with
  | Some p => Ok (_fields (portdict_items (Store._make_port_dict p)) fields)
  | None => Raise (PortNotFound id)
  end.

(** Modelled from the spec: [QuantumDbPluginV2.delete_port], which deletes
    the local record of a port, with its port-security row. *)
Definition delete_port (ctx : Context) (id : string) (d : DB)
  : result unit * DB :=
  match Store.find_port id d with
  | None => (Raise (PortNotFound id), d)
  | Some _ =>
      (Ok tt,
       {| networks := networks d;
          ports :=
            List.filter (fun p => negb (String.eqb (port_id p) id)) (ports d);
          network_bindings := network_bindings d;
          network_security_bindings := network_security_bindings d;
          port_security_bindings :=
            List.filter (fun kv => negb (String.eqb (fst kv) id))
                        (port_security_bindings d) |})
  end.

(** Modelled from the spec: [QuantumDbPluginV2.update_port], which updates
    the fields of the local record that the request carries. *)
Definition update_port (ctx : Context) (id : string) (body : PortUpdate)
  (d : DB) : result PortDict * DB :=
  match Store.find_port id d with
  | None => (Raise (PortNotFound id), d)
  | Some p =>
      let p' := {| port_id := port_id p;
                   port_network_id := port_network_id p;
                   port_tenant_id := port_tenant_id p;
                   port_name := default (port_name p) (pu_name body);
                   port_device_id :=
                     default (port_device_id p) (pu_device_id body);
                   port_admin_state_up :=
                     default (port_admin_state_up p) (pu_admin_state_up body);
                   port_mac_address := port_mac_address p;
                   port_fixed_ips :=
                     default (port_fixed_ips p) (pu_fixed_ips body);
                   port_status := port_status p |} in
      (Ok (Store._make_port_dict p'),
       Store.set_ports
         ((fun q => if String.eqb (port_id q) id then p' else q) <$> ports d)
         d)
  end.

End QuantumDbPluginV2.

Module PortSecurityDbMixin.

(** Modelled from the spec:
    [PortSecurityDbMixin._update_port_security_binding], which sets the
    flag of the port. *)
Definition _update_port_security_binding (id : string) (value : bool)
  (d : DB) : result unit * DB :=
  (Ok tt,
   Store.set_port_security_bindings
     ((fun kv => if String.eqb (fst kv) id then (id, value) else kv)
        <$> port_security_bindings d) d).

End PortSecurityDbMixin.

(** *** nvplib: single ports *)

Module nvplib.

(** The functions of [nvplib] on one logical port, taken as they are
    called, like those of [NvpLib]. *)
Class Ports (NVP : Type) : Type := {
  (** [get_port_by_quantum_tag(clusters, lswitch, quantum_tag)], whose
      result the callers unpack as [port, cluster]: the port and its
      cluster, or nothing, for a [port] that is [None] *)
  get_port_by_quantum_tag :
    list NVPCluster -> string -> string -> NVP ->
    result (option (LPort * NVPCluster));
  (** [update_port(cluster, network, port_id, quantum_id, tenant_id,
      display_name, device_id, admin_status_enabled, mac_address,
      fixed_ips, port_security_enabled)] *)
  update_port :
    NVPCluster -> string -> string -> string -> string -> string -> string ->
    bool -> string -> list (string * string) -> option bool -> NVP ->
    result unit * NVP;
  (** [delete_port(cluster, port)] *)
  delete_port : NVPCluster -> LPort -> NVP -> result unit * NVP;
  (** [get_port_status(cluster, lswitch_id, port_id)] *)
  get_port_status : NVPCluster -> string -> string -> NVP -> result string
}.

End nvplib.

(** *** Computations that may fail with an error of Python itself *)

Section WithPythonErrors.

Context {NVP : Type}.

Definition PyM (A : Type) : Type := State NVP -> outcome A * State NVP.

Definition py_ret {A} (a : A) : PyM A := fun s => (Returns a, s).
Definition py_fail {A} (e : py_error) : PyM A := fun s => (Fails e, s).
Definition py_bind {A B} (m : PyM A) (k : A -> PyM B) : PyM B :=
  fun s =>
    match m s with
    | (Returns a, s') => k a s'
    | (Fails e, s') => (Fails e, s')
    end.

(** A computation that raises exceptions of Quantum only. *)
Definition run {A} (m : M NVP A) : PyM A :=
  fun s =>
    match m s with
    | (Ok a, s') => (Returns a, s')
    | (Raise e, s') => (Fails (Exn e), s')
    end.

(** [try: m except: h], which catches every error. *)
Definition py_try_except {A} (m : PyM A) (h : PyM A) : PyM A :=
  fun s =>
    match m s with
    | (Returns a, s') => (Returns a, s')
    | (Fails _, s') => h s'
    end.

(** Modelled from the spec: the transaction scope of the local store, as
    [session_begin], for a body that may fail with an error of Python. *)
Definition py_session_begin {A} (body : PyM A) : PyM A :=
  fun s =>
    match body s with
    | (Returns a, s') => (Returns a, s')
    | (Fails e, s') => (Fails e, set_db (db s) s')
    end.

End WithPythonErrors.

Arguments PyM NVP A : clear implicits.

Notation "x <~ m ;; k" := (py_bind m (fun x => k))
  (at level 100, m at next level, right associativity) : plugin_scope.
Notation "m ;;~ k" := (py_bind m (fun _ => k))
  (at level 100, right associativity) : plugin_scope.

(** *** NvpPluginV2: one network, one port *)

Section NvpPluginV2_single.

Context {NVP : Type} {lib : NvpLib NVP} {ports_lib : nvplib.Ports NVP}.
Variable self : Plugin.

Definition set_status (status : string) (net : NetDict) : NetDict :=
  {| nd_id := nd_id net; nd_name := nd_name net;
     nd_tenant_id := nd_tenant_id net;
     nd_admin_state_up := nd_admin_state_up net;
     nd_status := status; nd_shared := nd_shared net;
     nd_subnets := nd_subnets net;
     nd_provider := nd_provider net;
     nd_port_security := nd_port_security net |}.

(** The loop of [get_network] over the switches of the network, with its
    [else]: [DOWN] at the first switch whose fabric status is false, and
    [ACTIVE] when the loop ends without one. *)
Fixpoint fabric_status_of (lswitches : list LSwitch) : string :=
  match lswitches with
  | [] => constants.NET_STATUS_ACTIVE
  | lswitch :: rest =>
      if negb (ls_fabric_status lswitch) then constants.NET_STATUS_DOWN
      else fabric_status_of rest
  end.

(** The first block of [get_network]: the local record, read and extended
    in one transaction. *)
Definition get_network_record (ctx : Context) (id : string) : M NVP NetDict :=
  session_begin
    (network <- db_query (Store._get_network id);;
     let net_result := Store._make_network_dict network in
     net_result <- _extend_network_dict_provider ctx net_result None;;
     _extend_network_port_security_dict net_result).

(** [get_network].  The record of a network has no [nova_id] among its
    columns (the comment in the method says so), so that
    [_find_target_cluster(network)] takes the branch of a resource without
    one. *)
Definition get_network (ctx : Context) (id : string)
  (fields : option (list string)) : M NVP (gmap string pyval) :=
  net_result <- get_network_record ctx id;;
  net_result <-
    try_except
      (cluster <- _find_target_cluster self None;;
       lswitches <- nvp_query (get_lswitches cluster id);;
       ret (set_status (fabric_status_of lswitches) net_result))
      (fun _ =>
         let err_msg := "Unable to get lswitches" in
         LOG_ EXCEPTION err_msg [];;;
         raise (NvpPluginException err_msg));;
  ret (QuantumDbPluginV2._fields (netdict_items net_result) fields).

Definition delete_port (ctx : Context) (id : string) : M NVP unit :=
  found <-
    nvp_query (nvplib.get_port_by_quantum_tag (itervalues self) "*" id);;
  match found with
  | None => raise (PortNotFound id)
  | Some (port, cluster) =>
      nvp_call (nvplib.delete_port cluster port);;;
      LOG_ DEBUG "delete_port() completed for tenant: %s" [ctx_tenant_id ctx];;;
      db_call (QuantumDbPluginV2.delete_port ctx id)
  end.

(** [get_port].  When the backend has no port of the tag, [port] is [None]
    and [port["admin_status_enabled"]] is a [TypeError]. *)
Definition get_port (ctx : Context) (id : string)
  (fields : option (list string)) : PyM NVP (gmap string pyval) :=
  quantum_db <~ run (db_query (QuantumDbPluginV2.get_port ctx id fields));;
  found <~
    run (nvp_query
           (nvplib.get_port_by_quantum_tag (itervalues self) "*" id));;
  match found with
  | None => py_fail TypeError
  | Some (port, cluster) =>
      let quantum_db :=
        <["admin_state_up" := PyBool (lp_admin_status_enabled port)]>
          quantum_db in
      let quantum_db :=
        <["status" :=
            PyStr (if lp_fabric_status_up port
                   then constants.PORT_STATUS_ACTIVE
                   else constants.PORT_STATUS_DOWN)]> quantum_db in
      run (LOG_ DEBUG "Port details for tenant %(tenant_id)s: %(quantum_db)s"
                [ctx_tenant_id ctx]);;~
      py_ret quantum_db
  end.

(** [ret_port.update(port['port'])] *)
Definition dict_update (body : PortUpdate) (p : PortDict) : PortDict :=
  {| pd_id := pd_id p; pd_network_id := pd_network_id p;
     pd_tenant_id := pd_tenant_id p;
     pd_name := default (pd_name p) (pu_name body);
     pd_device_id := default (pd_device_id p) (pu_device_id body);
     pd_admin_state_up :=
       default (pd_admin_state_up p) (pu_admin_state_up body);
     pd_mac_address := pd_mac_address p;
     pd_fixed_ips := default (pd_fixed_ips p) (pu_fixed_ips body);
     pd_status := pd_status p;
     pd_port_security :=
       match pu_port_security body with
       | Some b => Some b
       | None => pd_port_security p
       end |}.

Definition set_port_status (status : option string) (p : PortDict)
  : PortDict :=
  {| pd_id := pd_id p; pd_network_id := pd_network_id p;
     pd_tenant_id := pd_tenant_id p; pd_name := pd_name p;
     pd_device_id := pd_device_id p;
     pd_admin_state_up := pd_admin_state_up p;
     pd_mac_address := pd_mac_address p; pd_fixed_ips := pd_fixed_ips p;
     pd_status := status; pd_port_security := pd_port_security p |}.

(** The transaction of [update_port]: the local record, its port-security
    row, and the port on the backend.  [port_nvp['uuid']] is a [TypeError]
    when the backend has no port of the tag. *)
Definition update_port_transaction (ctx : Context) (id : string)
  (port : PortUpdate) (tenant_id : string)
  : PyM NVP (PortDict * LPort * NVPCluster) :=
  py_session_begin
    (ret_port <~ run (db_call (QuantumDbPluginV2.update_port ctx id port));;
     let ret_port := dict_update port ret_port in
     ret_port <~
       match pu_port_security port with
       | Some value =>
           run (db_call
                  (PortSecurityDbMixin._update_port_security_binding id value));;~
           py_ret ret_port
       | None =>
           binding <~
             run (db_query
                    (fun d => Ok (Store._get_port_security_binding id d)));;
           py_ret (set_port_security binding ret_port)
       end;;
     found <~
       run (nvp_query
              (nvplib.get_port_by_quantum_tag (itervalues self)
                 (pd_network_id ret_port) id));;
     run (LOG_ DEBUG "Update port request: %s" []);;~
     match found with
     | None => py_fail TypeError
     | Some (port_nvp, cluster) =>
         run (nvp_call
                (nvplib.update_port cluster (pd_network_id ret_port)
                   (lp_uuid port_nvp) id tenant_id (pd_name ret_port)
                   (pd_device_id ret_port) (pd_admin_state_up ret_port)
                   (pd_mac_address ret_port) (pd_fixed_ips ret_port)
                   (pd_port_security ret_port)));;~
         py_ret (ret_port, port_nvp, cluster)
     end).

(** [update_port].  [_get_tenant_id_for_create] is given the request and
    not its [port] entry, which has no [tenant_id] key of its own. *)
Definition update_port (ctx : Context) (id : string) (port : PortUpdate)
  : PyM NVP PortDict :=
  run (_enforce_set_auth ctx port_security_enabled_update);;~
  let tenant_id := Store._get_tenant_id_for_create ctx Absent in
  updated <~ update_port_transaction ctx id port tenant_id;;
  let '(ret_port, port_nvp, cluster) := updated in
  py_try_except
    (status <~
       run (nvp_query
              (nvplib.get_port_status cluster (pd_network_id ret_port)
                 (lp_uuid port_nvp)));;
     py_ret (set_port_status (Some status) ret_port))
    (run (LOG_ WARNING "Unable to retrieve port status for: %s."
               [lp_uuid port_nvp]);;~
     py_ret ret_port).

End NvpPluginV2_single.

(** *** The small deployment, with single ports *)

Module DemoPorts.

Import Demo.

(** Decimal literals without sign, for [int]. *)
Fixpoint digits (s : string) (acc : Z) : option Z :=
  match s with
  | EmptyString => Some acc
  | String c rest =>
      let n := Ascii.nat_of_ascii c in
      if (48 <=? n)%nat && (n <=? 57)%nat
      then digits rest (10 * acc + Z.of_nat (n - 48))
      else None
  end.

#[export] Instance demo_builtins : Builtins := {|
  int_of_str := fun s => if String.eqb s "" then None else digits s 0
|}.

Fixpoint demo_get_port_by_quantum_tag (clusters : list NVPCluster)
  (lswitch quantum_tag : string) (be : Backend)
  : result (option (LPort * NVPCluster)) :=
  match clusters with
  | [] => Ok None
  | c :: rest =>
      if reachable c be
      then
        match
          List.filter (fun p => has_tag "q_port_id" quantum_tag (lp_tags p))
                      (on_cluster c (be_lports be))
        with
        | p :: _ => Ok (Some (p, c))
        | [] => demo_get_port_by_quantum_tag rest lswitch quantum_tag be
        end
      else Raise unreachable_error
  end.

Definition demo_update_port (c : NVPCluster) (network port_id quantum_id
  tenant_id display_name device_id : string) (admin : bool) (mac : string)
  (fixed_ips : list (string * string)) (port_security : option bool)
  (be : Backend) : result unit * Backend :=
  if reachable c be
  then
    (Ok tt,
     {| be_lswitches := be_lswitches be;
        be_lports :=
          (fun kv =>
             if String.eqb (lp_uuid kv.2) port_id
             then (kv.1,
                   {| lp_uuid := lp_uuid kv.2; lp_tags := lp_tags kv.2;
                      lp_admin_status_enabled := admin;
                      lp_display_name := display_name;
                      lp_fabric_status_up := lp_fabric_status_up kv.2 |})
             else kv) <$> be_lports be;
        be_unreachable := be_unreachable be |})
  else (Raise unreachable_error, be).

Definition demo_delete_port (c : NVPCluster) (port : LPort) (be : Backend)
  : result unit * Backend :=
  if reachable c be
  then
    (Ok tt,
     {| be_lswitches := be_lswitches be;
        be_lports :=
          List.filter (fun kv => negb (String.eqb (lp_uuid kv.2) (lp_uuid port)))
                      (be_lports be);
        be_unreachable := be_unreachable be |})
  else (Raise unreachable_error, be).

Definition demo_get_port_status (c : NVPCluster) (lswitch_id port_id : string)
  (be : Backend) : result string :=
  if reachable c be
  then
    match
      List.filter (fun p => String.eqb (lp_uuid p) port_id)
                  (on_cluster c (be_lports be))
    with
    | p :: _ =>
        Ok (if lp_fabric_status_up p then constants.PORT_STATUS_ACTIVE
            else constants.PORT_STATUS_DOWN)
    | [] => Raise (PortNotFound port_id)
    end
  else Raise unreachable_error.

#[export] Instance demo_ports : nvplib.Ports Backend := {|
  nvplib.get_port_by_quantum_tag := demo_get_port_by_quantum_tag;
  nvplib.update_port := demo_update_port;
  nvplib.delete_port := demo_delete_port;
  nvplib.get_port_status := demo_get_port_status
|}.

(** The same backend when its status query times out. *)
Definition no_status_ports : nvplib.Ports Backend := {|
  nvplib.get_port_by_quantum_tag := demo_get_port_by_quantum_tag;
  nvplib.update_port := demo_update_port;
  nvplib.delete_port := demo_delete_port;
  nvplib.get_port_status :=
    fun _ _ _ _ => Raise (NvpApiException "request timed out")
|}.

(** The same backend when it refuses to delete and to update a port. *)
Definition readonly_ports : nvplib.Ports Backend := {|
  nvplib.get_port_by_quantum_tag := demo_get_port_by_quantum_tag;
  nvplib.update_port :=
    fun _ _ _ _ _ _ _ _ _ _ _ be => (Raise (NvpApiException "forbidden"), be);
  nvplib.delete_port :=
    fun _ _ be => (Raise (NvpApiException "forbidden"), be);
  nvplib.get_port_status := demo_get_port_status
|}.

Definition port_row (id network_id : string) : Port :=
  {| port_id := id; port_network_id := network_id; port_tenant_id := "t1";
     port_name := "p1"; port_device_id := "vm1";
     port_admin_state_up := true; port_mac_address := "fa:16:3e:00:00:01";
     port_fixed_ips := []; port_status := constants.PORT_STATUS_ACTIVE |}.

Definition lport (uuid quantum_id : string) (up : bool) : LPort :=
  {| lp_uuid := uuid;
     lp_tags := [{| scope := "os_tid"; tag := "t1" |};
                 {| scope := "q_port_id"; tag := quantum_id |}];
     lp_admin_status_enabled := true; lp_display_name := "p1";
     lp_fabric_status_up := up |}.

(** The network [n1] with the port [p1], known locally and to the backend. *)
Definition p1_store : DB :=
  Store.set_port_security_bindings [("p1", true)]
    (Store.set_ports [port_row "p1" "n1"] n1_store).
Definition p1_backend : Backend :=
  {| be_lswitches := [("c1", lswitch "n1" "N1" 1)];
     be_lports := [("c1", lport "lp1" "p1" false)];
     be_unreachable := [] |}.
Definition with_port : State Backend := state p1_store p1_backend.

(** The port [p1] is known locally, and the backend has no port for it. *)
Definition port_local_only : State Backend :=
  state p1_store
    {| be_lswitches := [("c1", lswitch "n1" "N1" 0)]; be_lports := [];
       be_unreachable := [] |}.

(** The network [n1] with a second switch whose fabric status is down. *)
Definition n1_degraded : State Backend :=
  state n1_store
    {| be_lswitches :=
         [("c1", lswitch "n1" "N1" 2);
          ("c1", {| ls_uuid := "n1-ext"; ls_display_name := "N1-ext-1";
                    ls_tags := [{| scope := "quantum_net_id"; tag := "n1" |}];
                    ls_fabric_status := false; ls_lport_count := 0 |})];
       be_lports := []; be_unreachable := [] |}.

Definition rename (name : string) : PortUpdate :=
  {| pu_name := Some name; pu_device_id := None; pu_admin_state_up := None;
     pu_fixed_ips := None; pu_port_security := None |}.

(** A request for a network of type gre, with a segmentation id or
    without. *)
Definition gre_body (name : string) (seg : attr Z) : NetworkBody :=
  {| nb_id := Absent; nb_name := Attr name; nb_tenant_id := Attr "t1";
     nb_admin_state_up := Attr (PyBool true); nb_shared := Attr false;
     nb_network_type := Attr NetworkTypes.GRE;
     nb_physical_network := ATTR_NOT_SPECIFIED;
     nb_segmentation_id := seg;
     nb_port_security := ATTR_NOT_SPECIFIED;
     nb_nova_id := None |}.

(** A request that names a physical network and no network type. *)
Definition physnet_body (name physnet : string) : NetworkBody :=
  {| nb_id := Absent; nb_name := Attr name; nb_tenant_id := Attr "t1";
     nb_admin_state_up := Attr (PyBool true); nb_shared := Attr false;
     nb_network_type := ATTR_NOT_SPECIFIED;
     nb_physical_network := Attr physnet;
     nb_segmentation_id := ATTR_NOT_SPECIFIED;
     nb_port_security := ATTR_NOT_SPECIFIED;
     nb_nova_id := None |}.

(** The network [n1] is on the cluster [c1]; the cluster [c2] does not
    answer. *)
Definition c2_down : State Backend :=
  state n1_store
    {| be_lswitches := [("c1", lswitch "n1" "N1" 0)]; be_lports := [];
       be_unreachable := ["c2"] |}.

(** The switch of [n1] has another name on the backend than in the local
    store, and its fabric status is down. *)
Definition renamed : State Backend :=
  state n1_store
    {| be_lswitches :=
         [("c1", {| ls_uuid := "n1"; ls_display_name := "renamed";
                    ls_tags := []; ls_fabric_status := false;
                    ls_lport_count := 0 |})];
       be_lports := []; be_unreachable := [] |}.

(** The same backend when it refuses to delete switches. *)
Definition keep_switches : NvpLib Backend := {|
  get_lswitches := demo_get_lswitches;
  create_lswitch := demo_create_lswitch;
  update_lswitch := demo_update_lswitch;
  delete_networks :=
    fun _ _ _ be => (Raise (NvpApiException "forbidden"), be);
  get_all_query_pages_lswitch := demo_query_lswitch;
  get_all_query_pages_lport := demo_query_lport;
  create_lport := demo_create_lport;
  plug_interface := demo_plug_interface
|}.

(** The same backend when it refuses to plug an attachment. *)
Definition no_plug : NvpLib Backend := {|
  get_lswitches := demo_get_lswitches;
  create_lswitch := demo_create_lswitch;
  update_lswitch := demo_update_lswitch;
  delete_networks := demo_delete_networks;
  get_all_query_pages_lswitch := demo_query_lswitch;
  get_all_query_pages_lport := demo_query_lport;
  create_lport := demo_create_lport;
  plug_interface :=
    fun _ _ _ _ _ be => (Raise (NvpApiException "forbidden"), be)
|}.

End DemoPorts.

(** *** More predicates *)

(** No two provider bindings of the local store hold the same segmentation
    id. *)
Definition vlan_ids_unique (d : DB) : Prop :=
  NoDup (omap vlan_id (network_bindings d)).

(** * Properties *)

Section Properties.

Context {NVP : Type} {nvplib : NvpLib NVP} {gen : Generators}.
Implicit Types (s : State NVP) (self : Plugin) (ctx : Context).

(** *** The monad *)

Lemma bind_Ok {A B} (m : M NVP A) (k : A -> M NVP B) s a s' :
  m s = (Ok a, s') -> bind m k s = k a s'.
Proof. intros H. unfold bind. by rewrite H. Qed.

Lemma bind_Raise {A B} (m : M NVP A) (k : A -> M NVP B) s e s' :
  m s = (Raise e, s') -> bind m k s = (Raise e, s').
Proof. intros H. unfold bind. by rewrite H. Qed.

Lemma bind_inv_Ok {A B} (m : M NVP A) (k : A -> M NVP B) s b s' :
  bind m k s = (Ok b, s') ->
  exists a s1, m s = (Ok a, s1) /\ k a s1 = (Ok b, s').
Proof.
  unfold bind. destruct (m s) as [[a|e] s1]; intros H; [eauto | discriminate].
Qed.

Lemma session_begin_Ok {A} (body : M NVP A) s a s' :
  body s = (Ok a, s') -> session_begin body s = (Ok a, s').
Proof. intros H. unfold session_begin. by rewrite H. Qed.

Lemma session_begin_Raise {A} (body : M NVP A) s e s' :
  body s = (Raise e, s') -> session_begin body s = (Raise e, set_db (db s) s').
Proof. intros H. unfold session_begin. by rewrite H. Qed.

(** A transaction that raises leaves the local store as it found it. *)
Lemma session_begin_rollback {A} (body : M NVP A) s e s' :
  session_begin body s = (Raise e, s') -> db s' = db s.
Proof.
  unfold session_begin. destruct (body s) as [[a|e'] s1]; intros H;
    inversion H; subst; reflexivity.
Qed.

(** *** delete_network *)

Lemma lswitch_cluster_pair_not_found netw_id c s id :
  get_lswitches c netw_id (nvp s) = Raise (NetworkNotFound id) ->
  lswitch_cluster_pair netw_id c s = (Ok None, s).
Proof.
  intros H. unfold lswitch_cluster_pair, try_except, bind, nvp_query.
  by rewrite H.
Qed.

Lemma lswitch_cluster_pairs_none netw_id cs s :
  Forall
    (fun c => exists id, get_lswitches c netw_id (nvp s) = Raise (NetworkNotFound id))
    cs ->
  lswitch_cluster_pairs netw_id cs s = (Ok [], s).
Proof.
  induction 1 as [|c cs [id Hc] _ IH]; [reflexivity|].
  simpl. erewrite bind_Ok by (eapply lswitch_cluster_pair_not_found; eauto).
  erewrite bind_Ok by exact IH. reflexivity.
Qed.

Lemma _get_lswitch_cluster_pairs_none self netw_id tenant_id s :
  no_pairs self netw_id s ->
  _get_lswitch_cluster_pairs self netw_id tenant_id s
  = (Raise (NetworkNotFound netw_id), s).
Proof.
  intros H. unfold _get_lswitch_cluster_pairs.
  erewrite bind_Ok by (apply lswitch_cluster_pairs_none; exact H).
  reflexivity.
Qed.

Lemma find_network_filtered id (l : list Network) :
  List.find (fun n => String.eqb (net_id n) id)
    (List.filter (fun n => negb (String.eqb (net_id n) id)) l) = None.
Proof.
  induction l as [|n l IH]; simpl; [done|].
  destruct (String.eqb (net_id n) id) eqn:Hn; simpl; [done|].
  by rewrite Hn.
Qed.

(** The local deletion of a network removes its record. *)
Lemma delete_network_removes ctx id d d' :
  Store.delete_network ctx id d = (Ok tt, d') -> Store.find_network id d' = None.
Proof.
  unfold Store.delete_network.
  destruct (Store.find_network id d); [|done].
  destruct (nonempty _); [done|]. intros [= <-].
  apply find_network_filtered.
Qed.

(** C1: when no cluster has a (cluster, switches) pair for the network,
    [delete_network] fails and never reaches a backend deletion: the
    backend is as before.  The local store is not left untouched, though:
    the local record is deleted first, and when that deletion succeeds the
    failure is [NetworkNotFound] and the local store is the store after the
    deletion, without the record of the network.  Only when the local
    store itself refuses the deletion is the store as before, and the
    failure is then the error of the store. *)
Theorem delete_network_no_pairs self ctx id s :
  no_pairs self id s ->
  nvp (snd (delete_network self ctx id s)) = nvp s /\
  match Store.delete_network ctx id (db s) with
  | (Ok _, d) =>
      fst (delete_network self ctx id s) = Raise (NetworkNotFound id) /\
      db (snd (delete_network self ctx id s)) = d /\
      Store.find_network id d = None
  | (Raise e, _) =>
      fst (delete_network self ctx id s) = Raise e /\
      db (snd (delete_network self ctx id s)) = db s
  end.
Proof.
  intros Hno. unfold delete_network.
  destruct (Store.delete_network ctx id (db s)) as [[[]|e] d] eqn:Hdel.
  - assert (H1 : db_call (Store.delete_network ctx id) s = (Ok tt, set_db d s))
      by (unfold db_call; by rewrite Hdel).
    assert (Hno' : no_pairs self id (set_db d s)) by exact Hno.
    rewrite (bind_Ok _ _ _ _ _ H1).
    rewrite (bind_Raise _ _ _ _ _
               (_get_lswitch_cluster_pairs_none self id _ _ Hno')).
    simpl. split; [done|]. split; [done|]. split; [done|].
    by eapply delete_network_removes.
  - assert (H1 : db_call (Store.delete_network ctx id) s = (Raise e, set_db d s))
      by (unfold db_call; by rewrite Hdel).
    rewrite (bind_Raise _ _ _ _ _ H1). simpl.
    split; [reflexivity|]. split; [reflexivity|].
    unfold Store.delete_network in Hdel.
    destruct (Store.find_network id (db s)); [|by inversion Hdel].
    destruct (nonempty _); inversion Hdel; reflexivity.
Qed.

(** *** Computations that only query *)

Lemma query_only_ret {A} (a : A) : query_only (@ret NVP A a).
Proof. done. Qed.

Lemma query_only_raise {A} e : query_only (@raise NVP A e).
Proof. done. Qed.

Lemma query_only_lift {A} (r : result A) : query_only (@lift NVP A r).
Proof. done. Qed.

Lemma query_only_db_query {A} (q : DB -> result A) :
  query_only (@db_query NVP A q).
Proof. done. Qed.

Lemma query_only_nvp_query {A} (q : NVP -> result A) : query_only (nvp_query q).
Proof. done. Qed.

Lemma query_only_bind {A B} (m : M NVP A) (k : A -> M NVP B) :
  query_only m -> (forall a, query_only (k a)) -> query_only (bind m k).
Proof.
  intros Hm Hk s. unfold bind. specialize (Hm s).
  destruct (m s) as [[a|e] s1]; simpl in *; subst; [apply Hk | done].
Qed.

Lemma query_only_map_each {A B} (l : list A) (body : A -> M NVP B) :
  (forall x, query_only (body x)) -> query_only (map_each l body).
Proof.
  intros Hb. induction l as [|x l IH]; simpl; [done|].
  apply query_only_bind; [apply Hb|]. intros y.
  apply query_only_bind; [apply IH|]. intros ys. done.
Qed.

Lemma set_db_same s : set_db (db s) s = s.
Proof. by destruct s. Qed.

Lemma query_only_session_begin {A} (body : M NVP A) :
  query_only body -> query_only (session_begin body).
Proof.
  intros Hb s. unfold session_begin. specialize (Hb s).
  destruct (body s) as [[a|e] s1]; simpl in *; subst;
    [done | apply set_db_same].
Qed.

Lemma query_only_get filters key : query_only (@get NVP filters key).
Proof. by destruct filters. Qed.

Lemma query_only__extend_network_dict_provider ctx net binding :
  query_only (@_extend_network_dict_provider NVP ctx net binding).
Proof.
  unfold _extend_network_dict_provider.
  destruct (_check_view_auth _ _); [|done].
  apply query_only_bind; [by destruct binding|].
  by intros [b|].
Qed.

Lemma query_only_quantum_lswitches_of ctx filters :
  query_only (@quantum_lswitches_of NVP ctx filters).
Proof.
  apply query_only_session_begin, query_only_bind; [done|]. intros nets.
  apply query_only_map_each. intros net.
  apply query_only_bind;
    [apply query_only__extend_network_dict_provider | done].
Qed.

Lemma query_only_quantum_lports_of ctx filters :
  query_only (@quantum_lports_of NVP ctx filters).
Proof.
  apply query_only_session_begin, query_only_bind; [done|]. intros ports.
  by apply query_only_map_each.
Qed.

Create HintDb queries.
#[local] Hint Resolve query_only_ret query_only_raise query_only_lift
  query_only_db_query query_only_nvp_query query_only_get : queries.

Lemma try_except_query_cases {A} (m : M NVP A) msg e s :
  query_only m ->
  (exists a, try_except m (fun _ => LOG_ EXCEPTION msg [];;; raise e) s
             = (Ok a, s)) \/
  try_except m (fun _ => LOG_ EXCEPTION msg [];;; raise e) s
  = (Raise e, add_log (LOG EXCEPTION msg []) s).
Proof.
  intros Hm. unfold try_except. specialize (Hm s).
  destruct (m s) as [[a|e'] s1]; simpl in *; subst; eauto.
Qed.

(** A query that returns: the state is the one it started from. *)
Lemma query_only_run {A} (m : M NVP A) s r s' :
  query_only m -> m s = (r, s') -> s' = s.
Proof. intros Hm H. specialize (Hm s). by rewrite H in Hm. Qed.

(** [try: m except Exception: LOG.exception(msg); raise E] over a query:
    the state is the one before, with the record of the exception if there
    was one. *)
Lemma try_except_query {A} (m : M NVP A) msg e s :
  query_only m ->
  try_except m (fun _ => LOG_ EXCEPTION msg [];;; raise e) s
  = match fst (m s) with
    | Ok a => (Ok a, s)
    | Raise _ => (Raise e, add_log (LOG EXCEPTION msg []) s)
    end.
Proof.
  intros Hm. unfold try_except. specialize (Hm s).
  destruct (m s) as [[a|e'] s1]; simpl in *; subst; reflexivity.
Qed.

(** *** Computations that leave the local store and the backend alone *)

Lemma same_stores_refl s : same_stores s s.
Proof. done. Qed.

Lemma same_stores_trans s1 s2 s3 :
  same_stores s1 s2 -> same_stores s2 s3 -> same_stores s1 s3.
Proof. intros [? ?] [? ?]. split; congruence. Qed.

Lemma readonly_query_only {A} (m : M NVP A) : query_only m -> readonly m.
Proof. intros H s. by rewrite H. Qed.

Lemma readonly_LOG_ lvl msg args : readonly (@LOG_ NVP lvl msg args).
Proof. done. Qed.

Lemma readonly_bind {A B} (m : M NVP A) (k : A -> M NVP B) :
  readonly m -> (forall a, readonly (k a)) -> readonly (bind m k).
Proof.
  intros Hm Hk s. unfold bind. specialize (Hm s).
  destruct (m s) as [[a|e] s1]; simpl in *; [|done].
  eapply same_stores_trans; [apply Hk | done].
Qed.

Lemma readonly_try_except {A} (m : M NVP A) (h : exn -> M NVP A) :
  readonly m -> (forall e, readonly (h e)) -> readonly (try_except m h).
Proof.
  intros Hm Hh s. unfold try_except. specialize (Hm s).
  destruct (m s) as [[a|e] s1]; simpl in *; [done|].
  eapply same_stores_trans; [apply Hh | done].
Qed.


(** *** get_networks *)

Lemma nvp_lswitches_of_state self ctx filters s n s' :
  nvp_lswitches_of self ctx filters s = (Ok n, s') -> s' = s.
Proof.
  unfold nvp_lswitches_of. intros H.
  apply bind_inv_Ok in H as (admin_all & s1 & H1 & H).
  assert (s1 = s) as ->.
  { eapply query_only_run; [|exact H1].
    destruct (is_admin ctx); [|done].
    apply query_only_bind; auto with queries. }
  apply bind_inv_Ok in H as (tenant_filter & s2 & H2 & H).
  assert (s2 = s) as ->.
  { eapply query_only_run; [|exact H2].
    destruct admin_all; [done|].
    apply query_only_bind; [auto with queries|].
    intros tenants. by destruct (nonempty tenants). }
  apply bind_inv_Ok in H as (nvp_lswitches & s3 & H3 & H).
  assert (s3 = s) as ->.
  { rewrite try_except_query in H3.
    - destruct (fst _); by inversion H3.
    - apply query_only_bind; [|done].
      apply query_only_map_each. auto with queries. }
  apply bind_inv_Ok in H as (ids & s4 & H4 & H).
  apply query_only_run in H4 as ->; [|auto with queries].
  by inversion H.
Qed.


Lemma take_lswitch_Some id l found rest :
  take_lswitch id l = Some (found, rest) ->
  ls_uuid found = id /\ l ≡ₚ found :: rest.
Proof.
  revert found rest. induction l as [|ls l IH]; simpl; [done|].
  intros found rest.
  destruct (String.eqb_spec (ls_uuid ls) id) as [Heq|Hne].
  - intros [= <- <-]. done.
  - destruct (take_lswitch id l) as [[found' rest']|]; [|done].
    intros [= <- <-]. destruct (IH _ _ eq_refl) as [Hid Hp].
    split; [done|]. rewrite Hp. apply Permutation_swap.
Qed.

(** The only way the cross-reference fails is [NvpOutOfSyncException]. *)
Lemma cross_reference_Raise q n e :
  cross_reference q n = Raise e -> e = NvpOutOfSyncException.
Proof.
  revert n. induction q as [|net q IH]; simpl; [done|]. intros n.
  destruct (take_lswitch _ n) as [[found rest]|]; [|by intros [= <-]].
  destruct (cross_reference q rest) as [[nets unbound]|e'] eqn:Hq; [done|].
  intros [= <-]. eauto.
Qed.




Lemma with_fields_None {A} (items : A -> gmap string pyval) (l : list A) s :
  with_fields items None l s = (Ok (Records l), s).
Proof. reflexivity. Qed.

Lemma with_fields_state {A} (items : A -> gmap string pyval) fields
    (l : list A) s :
  snd (with_fields items fields l s) = s.
Proof.
  unfold with_fields. destruct (default [] fields); [done|].
  unfold bind, lift. by destruct (select_rows _ _).
Qed.

Lemma for_each_log (l : list LogRecord) s :
  for_each l (fun r => LOG_ (log_level_of r) (log_msg r) (log_args r)) s
  = (Ok tt,
     {| db := db s; nvp := nvp s; log := log s ++ l;
        novazone_cluster_map := novazone_cluster_map s |}).
Proof.
  revert s. induction l as [|[lvl msg args] l IH]; intros s; simpl.
  - rewrite app_nil_r. by destruct s.
  - unfold bind at 1. simpl. rewrite IH. simpl. by rewrite <- app_assoc.
Qed.

Lemma quantum_lswitches_of_run ctx filters s q :
  fst (quantum_lswitches_of ctx filters s) = Ok q ->
  quantum_lswitches_of ctx filters s = (Ok q, s).
Proof.
  intros H. pose proof (query_only_quantum_lswitches_of ctx filters s) as Hs.
  destruct (quantum_lswitches_of ctx filters s); simpl in *. by subst.
Qed.

Lemma nvp_lswitches_of_run self ctx filters s n :
  fst (nvp_lswitches_of self ctx filters s) = Ok n ->
  nvp_lswitches_of self ctx filters s = (Ok n, s).
Proof.
  intros H. destruct (nvp_lswitches_of self ctx filters s) as [r s'] eqn:Hr.
  simpl in H. subst r. by apply nvp_lswitches_of_state in Hr as ->.
Qed.

(** [get_networks] once both reads have answered. *)
Lemma get_networks_run self ctx filters fields s q n :
  fst (quantum_lswitches_of ctx filters s) = Ok q ->
  fst (nvp_lswitches_of self ctx filters s) = Ok n ->
  get_networks self ctx filters fields s
  = match cross_reference q n with
    | Ok (nets, unbound) =>
        with_fields netdict_items fields nets
          {| db := db s; nvp := nvp s;
             log := (log s ++ unbound_lswitches_warning unbound)
                      ++ [LOG DEBUG "get_networks() completed for tenant %s"
                              [ctx_tenant_id ctx]];
             novazone_cluster_map := novazone_cluster_map s |}
    | Raise e => (Raise e, s)
    end.
Proof.
  intros Hq Hn. unfold get_networks.
  rewrite (bind_Ok _ _ _ _ _ (quantum_lswitches_of_run _ _ _ _ Hq)).
  rewrite (bind_Ok _ _ _ _ _ (nvp_lswitches_of_run _ _ _ _ _ Hn)).
  unfold bind at 1, lift.
  destruct (cross_reference q n) as [[nets unbound]|e]; [|done].
  unfold bind at 1. rewrite for_each_log.
  unfold bind at 1. reflexivity.
Qed.



Lemma unbound_lswitches_warning_length l :
  (length (unbound_lswitches_warning l) <= 1)%nat.
Proof. unfold unbound_lswitches_warning. destruct (nonempty l); simpl; lia. Qed.


Lemma map_each_total {A B} (l : list A) (body : A -> M NVP B) s :
  (forall x, exists y, body x s = (Ok y, s)) ->
  exists ys, map_each l body s = (Ok ys, s).
Proof.
  intros Hb. induction l as [|x l [ys IH]]; simpl; [by exists []|].
  destruct (Hb x) as [y Hy].
  exists (y :: ys). rewrite (bind_Ok _ _ _ _ _ Hy).
  by rewrite (bind_Ok _ _ _ _ _ IH).
Qed.

(** The read of the local network records always answers in the model of
    the store. *)
Lemma quantum_lswitches_of_total ctx filters s :
  exists q, @quantum_lswitches_of NVP ctx filters s = (Ok q, s).
Proof.
  unfold quantum_lswitches_of.
  destruct (map_each_total (Store.get_networks ctx filters (db s))
              (fun net =>
                 net <- _extend_network_dict_provider ctx net None;;
                 _extend_network_port_security_dict net) s) as [q Hq].
  - intros net. unfold _extend_network_dict_provider, bind, db_query, ret,
      _extend_network_port_security_dict.
    destruct (_check_view_auth _ _); [|eauto].
    destruct (Store.get_network_binding _ _); eauto.
  - exists q. apply session_begin_Ok.
    unfold bind at 1, db_query. exact Hq.
Qed.

Lemma nvp_lswitches_of_None self ctx s :
  nvp_lswitches_of self ctx None s
  = (Raise (AttributeError "'NoneType' object has no attribute 'get'"), s).
Proof. unfold nvp_lswitches_of. by destruct (is_admin ctx). Qed.

(** With a mapping for [filters], the second block of [get_networks] answers
    or fails with the plugin's own exception. *)
Lemma nvp_lswitches_of_Some self ctx f s :
  (exists n, fst (nvp_lswitches_of self ctx (Some f) s) = Ok n) \/
  (exists msg, fst (nvp_lswitches_of self ctx (Some f) s)
               = Raise (NvpPluginException msg)).
Proof.
  unfold nvp_lswitches_of.
  set (admin_all := if is_admin ctx then _ else _).
  assert (exists b, admin_all s = (Ok b, s)) as [b Hb]
    by (subst admin_all; destruct (is_admin ctx); eauto).
  rewrite (bind_Ok _ _ _ _ _ Hb).
  set (tenant_filter := if b then _ else _).
  assert (exists t, tenant_filter s = (Ok t, s)) as [t Ht].
  { subst tenant_filter. destruct b; [by eexists|].
    unfold bind, get, ret. simpl.
    destruct (nonempty (filters_get f "tenant_id")); eauto. }
  rewrite (bind_Ok _ _ _ _ _ Ht).
  match goal with
  | |- context [bind (try_except ?m (fun _ => LOG_ EXCEPTION ?msg [];;; raise ?e))] =>
      destruct (try_except_query_cases m msg e s) as [[pages Hp]|Hp];
      [apply query_only_bind; [|done];
       apply query_only_map_each; auto with queries | |]
  end.
  - rewrite (bind_Ok _ _ _ _ _ Hp). left. unfold bind, get, ret. simpl. eauto.
  - rewrite (bind_Raise _ _ _ _ _ Hp). right. simpl. eauto.
Qed.

Lemma with_fields_result {A} (items : A -> gmap string pyval) fields
    (l : list A) s :
  (exists r, fst (with_fields items fields l s) = Ok r) \/
  (exists key, fst (with_fields items fields l s) = Raise (KeyError key)).
Proof.
  unfold with_fields. destruct (default [] fields) as [|f fs]; [left; by eexists|].
  unfold bind, lift.
  assert (Hsel : forall r fs' row e,
             select_fields r fs' row = Raise e -> exists key, e = KeyError key).
  { intros r fs'. induction fs' as [|f' fs' IH]; intros row e; simpl; [done|].
    destruct (r !! f'); [apply IH | intros [= <-]; eauto]. }
  assert (Hrows : forall e, select_rows (items <$> l) (f :: fs) = Raise e ->
                            exists key, e = KeyError key).
  { generalize (f :: fs). intros fs'.
    induction l as [|x l IH]; intros e; [done|].
    rewrite fmap_cons. cbn [select_rows].
    destruct (select_fields (items x) fs' ∅) eqn:Hx;
      [|intros [= <-]; eauto].
    destruct (select_rows (items <$> l) fs'); [done|].
    intros [= <-]. eauto. }
  destruct (select_rows _ _) as [rows|e]; [left; by eexists|].
  destruct (Hrows e eq_refl) as [key ->]. right. simpl. eauto.
Qed.

(** C10: [get_networks] called with [filters] left to its default [None]
    fails with the attribute error of [None.get] and returns no result, for
    every context; when [filters] is a mapping the accesses
    [filters.get(key)] are defined and the call never fails that way. *)
Theorem get_networks_requires_filters self ctx fields s :
  get_networks self ctx None fields s
  = (Raise (AttributeError "'NoneType' object has no attribute 'get'"), s)
  /\ (forall f key, @get NVP (Some f) key s = (Ok (filters_get f key), s))
  /\ (forall f msg,
        fst (get_networks self ctx (Some f) fields s)
        <> Raise (AttributeError msg)).
Proof.
  split; [|split].
  - unfold get_networks.
    destruct (quantum_lswitches_of_total ctx None s) as [q Hq].
    rewrite (bind_Ok _ _ _ _ _ Hq).
    by rewrite (bind_Raise _ _ _ _ _ (nvp_lswitches_of_None self ctx s)).
  - reflexivity.
  - intros f msg.
    destruct (quantum_lswitches_of_total ctx (Some f) s) as [q Hq].
    destruct (nvp_lswitches_of_Some self ctx f s) as [[n Hn]|[m Hm]].
    + rewrite (get_networks_run self ctx (Some f) fields s q n);
        [|by rewrite Hq|done].
      destruct (cross_reference q n) as [[nets unbound]|e] eqn:Hc.
      * match goal with
        | |- fst (with_fields ?i ?fl ?l ?st) <> _ =>
            destruct (with_fields_result i fl l st) as [[r ->]|[k ->]]
        end; done.
      * by apply cross_reference_Raise in Hc as ->.
    + unfold get_networks. rewrite (bind_Ok _ _ _ _ _ Hq).
      unfold bind.
      destruct (nvp_lswitches_of self ctx (Some f) s) as [[n|e] s1];
        simpl in *; [done|]. by inversion Hm.
Qed.

(** *** Cluster resolution *)

(** On a plugin without the attribute [novazone_cluster_map],
    [_novazone_to_cluster] fails on its first line, on the read of the
    attribute, and does nothing else. *)
Lemma _novazone_to_cluster_no_attribute self novazone_id s :
  novazone_cluster_map s = None ->
  @_novazone_to_cluster NVP self novazone_id s
  = (Raise (AttributeError
              "'NvpPluginV2' object has no attribute 'novazone_cluster_map'"),
     s).
Proof.
  intros Hnone. unfold _novazone_to_cluster, bind, getattr_novazone_cluster_map.
  by rewrite Hnone.
Qed.

(** The loop of [_novazone_to_cluster] on the keys of a non-empty
    [self.clusters] stops at the first key, on [x.zone]. *)
Lemma novazone_scan_keys (names : list string) novazone_id s :
  names <> [] ->
  fst (@novazone_scan NVP (ClusterName <$> names) novazone_id s)
  = Raise (AttributeError "'str' object has no attribute 'zone'") /\
  novazone_cluster_map
    (snd (@novazone_scan NVP (ClusterName <$> names) novazone_id s))
  = novazone_cluster_map s.
Proof. destruct names as [|name names]; [done|]. split; reflexivity. Qed.

(** On a plugin that has the attribute, on a miss of the cache and with at
    least one configured cluster, [_novazone_to_cluster] raises
    [AttributeError]: it returns no cluster and does not raise
    [NvpInvalidNovaZone], whatever the zones of the clusters. *)
Lemma _novazone_to_cluster_miss self novazone_id s m :
  novazone_cluster_map s = Some m ->
  m !! novazone_id = None ->
  clusters self <> [] ->
  fst (_novazone_to_cluster self novazone_id s)
  = Raise (AttributeError "'str' object has no attribute 'zone'")
  /\ novazone_cluster_map (snd (_novazone_to_cluster self novazone_id s))
     = Some m.
Proof.
  intros Hattr Hmiss Hne.
  assert (Hrun : _novazone_to_cluster self novazone_id s
                 = (LOG_ DEBUG "Looking for nova zone: %s" [novazone_id];;;
                    novazone_scan (ClusterName <$> iterkeys self) novazone_id)
                     s).
  { unfold _novazone_to_cluster, bind at 1, getattr_novazone_cluster_map.
    by rewrite Hattr, Hmiss. }
  rewrite Hrun. unfold iterkeys.
  destruct (clusters self) as [|[name c] cs]; [done|].
  split; [reflexivity|]. simpl. exact Hattr.
Qed.

Lemma novazone_scan_object c (rest : list cluster_ref) novazone_id s m :
  novazone_cluster_map s = Some m ->
  controllers c <> [] ->
  novazone_scan (ClusterObject c :: rest) novazone_id s
  = let s1 :=
      add_log
        (LOG DEBUG "Looking for nova zone %(novazone_id)s in cluster: %(x)s"
             [novazone_id]) s in
    if has_zone novazone_id c
    then (Ok c, set_novazone_cluster_map (<[novazone_id := c]> m) s1)
    else novazone_scan rest novazone_id s1.
Proof.
  intros Hattr Hc. cbn [novazone_scan]. unfold bind at 1. cbn [LOG_].
  unfold bind at 1, lift. cbn [getattr_zone]. unfold has_zone.
  unfold NVPCluster.zone, NVPCluster.property, NVPCluster.first_controller.
  destruct (controllers c) as [|ctl ctls]; [done|].
  destruct (ctl_zone ctl) as [z|]; [|done].
  destruct (String.eqb_spec z novazone_id) as [->|Hne]; [|done].
  unfold bind, getattr_novazone_cluster_map. cbn [add_log novazone_cluster_map].
  by rewrite Hattr.
Qed.

(** The same loop on the cluster objects (the values of [self.clusters],
    as [itervalues] yields them in the sibling methods), on a plugin that
    has the attribute, does what the resolution is meant to do: the first
    cluster whose zone is the attribute is returned and cached, and
    [NvpInvalidNovaZone] is raised when there is none. *)
Lemma novazone_scan_values (cs : list NVPCluster) novazone_id s m :
  novazone_cluster_map s = Some m ->
  Forall (fun c => controllers c <> []) cs ->
  match List.find (has_zone novazone_id) cs with
  | Some c =>
      fst (novazone_scan (ClusterObject <$> cs) novazone_id s) = Ok c /\
      novazone_cluster_map
        (snd (novazone_scan (ClusterObject <$> cs) novazone_id s))
      = Some (<[novazone_id := c]> m)
  | None =>
      fst (novazone_scan (ClusterObject <$> cs) novazone_id s)
      = Raise (NvpInvalidNovaZone novazone_id) /\
      novazone_cluster_map
        (snd (novazone_scan (ClusterObject <$> cs) novazone_id s))
      = Some m
  end.
Proof.
  intros Hattr Hctl. revert s Hattr.
  induction Hctl as [|c cs Hc _ IH]; intros s Hattr.
  - simpl. done.
  - rewrite fmap_cons, (novazone_scan_object _ _ _ _ _ Hattr Hc).
    cbn [List.find]. cbv zeta.
    destruct (has_zone novazone_id c); [done|].
    exact (IH (add_log _ s) Hattr).
Qed.

(** C3: for a resource with a zone attribute, [_find_target_cluster] does
    not resolve the cluster.  On the plugin as [__init__] leaves it, which
    has no attribute [novazone_cluster_map], the call fails with
    [AttributeError] on the first line of [_novazone_to_cluster], the test
    of the cache, whatever the zone and the configured clusters, and
    changes nothing: no cluster is scanned, none is returned, and
    [NvpInvalidNovaZone] is not raised.  Were the attribute set to a
    dictionary that does not hold the zone, the call would not scan the
    configured clusters either: its loop runs on the names under which
    [self.clusters] holds them, and with at least one cluster configured it
    raises [AttributeError] on the first name, without touching the cache.
    The resolution that the specification describes is what the loop does
    on the clusters themselves, with the attribute set: the first cluster
    of that zone is returned and cached, and [NvpInvalidNovaZone] is raised
    when no cluster has it. *)
Theorem _find_target_cluster_cache_miss self novazone_id s :
  (novazone_cluster_map s = None ->
   _find_target_cluster self (Some novazone_id) s
   = (Raise (AttributeError
               "'NvpPluginV2' object has no attribute 'novazone_cluster_map'"),
      s))
  /\
  (forall m,
     novazone_cluster_map s = Some m ->
     m !! novazone_id = None ->
     (clusters self <> [] ->
      fst (_find_target_cluster self (Some novazone_id) s)
      = Raise (AttributeError "'str' object has no attribute 'zone'") /\
      novazone_cluster_map
        (snd (_find_target_cluster self (Some novazone_id) s))
      = Some m)
     /\
     (Forall (fun c => controllers c <> []) (itervalues self) ->
      match List.find (has_zone novazone_id) (itervalues self) with
      | Some c =>
          fst (novazone_scan (ClusterObject <$> itervalues self) novazone_id s)
          = Ok c /\
          novazone_cluster_map
            (snd (novazone_scan (ClusterObject <$> itervalues self)
                    novazone_id s))
          = Some (<[novazone_id := c]> m)
      | None =>
          fst (novazone_scan (ClusterObject <$> itervalues self) novazone_id s)
          = Raise (NvpInvalidNovaZone novazone_id) /\
          novazone_cluster_map
            (snd (novazone_scan (ClusterObject <$> itervalues self)
                    novazone_id s))
          = Some m
      end)).
Proof.
  split.
  - intros Hnone. exact (_novazone_to_cluster_no_attribute self _ s Hnone).
  - intros m Hattr Hmiss. split.
    + intros Hne. exact (_novazone_to_cluster_miss self _ s m Hattr Hmiss Hne).
    + intros Hctl. exact (novazone_scan_values _ novazone_id s m Hattr Hctl).
Qed.

(** *** Validation of the provider attributes *)

Lemma get_network_binding_by_vlanid_bound seg d b :
  b ∈ network_bindings d -> vlan_id b = Some seg ->
  exists b', Store.get_network_binding_by_vlanid seg d = Some b'.
Proof.
  intros Hin Hv. unfold Store.get_network_binding_by_vlanid.
  destruct (List.find _ _) as [b'|] eqn:Hf; [eauto|].
  apply list_elem_of_In in Hin.
  apply (List.find_none _ _ Hf) in Hin.
  by rewrite bool_decide_eq_true_2 in Hin.
Qed.

(** What [_handle_provider_create] does with a request of type vlan. *)
Lemma _handle_provider_create_vlan ctx attrs s :
  nb_network_type attrs = Attr NetworkTypes.VLAN ->
  _handle_provider_create ctx attrs s
  = if policy_check ctx provider_network_set
    then
      match nb_segmentation_id attrs with
      | Attr seg =>
          if (seg <? 1) || (seg >? 4094)
          then (Raise (InvalidInput (pretty seg +:+ " out of range (1 to 4094)")),
                s)
          else
            match Store.get_network_binding_by_vlanid seg (db s) with
            | Some _ =>
                (Raise (VlanIdInUse seg (attr_value (nb_physical_network attrs))),
                 s)
            | None => (Ok tt, s)
            end
      | _ =>
          (Raise (InvalidInput ("Segmentation ID must be specified with "
                                  +:+ "vlan network type")), s)
      end
    else (Raise (PolicyNotAuthorized provider_network_set), s).
Proof.
  intros Hvlan. unfold _handle_provider_create. rewrite Hvlan. cbn [is_attr_set orb negb].
  unfold bind at 1, _enforce_set_auth.
  destruct (policy_check ctx provider_network_set); [|done].
  cbn [ret].
  assert (bool_decide
            (NetworkTypes.VLAN
               ∈ [NetworkTypes.GRE; NetworkTypes.STT; NetworkTypes.FLAT])
          = false) as -> by (vm_compute; reflexivity).
  cbn [String.eqb NetworkTypes.VLAN Ascii.eqb Bool.eqb].
  destruct (nb_segmentation_id attrs) as [| | |seg]; try done.
  unfold bind at 1.
  destruct ((seg <? 1) || (seg >? 4094)); [done|].
  unfold bind at 1, db_query.
  by destruct (Store.get_network_binding_by_vlanid seg (db s)).
Qed.

Lemma create_network_rejected self ctx network s e :
  _handle_provider_create ctx network s = (Raise e, s) ->
  create_network self ctx network s = (Raise e, s).
Proof.
  intros H. unfold create_network, create_network_target.
  by rewrite (bind_Raise _ _ _ _ _ (bind_Raise _ _ _ _ _ H)).
Qed.

(** C4 (amended): a request to create a network of type vlan, from a caller
    that the policy lets set the provider attributes, fails with
    [InvalidInput] when its segmentation id is missing or outside of
    [1, 4094], and with [VlanIdInUse] when the id is in range and the pair
    of its physical network and segmentation id is already bound; the same
    request from a caller without that authorisation fails with the error
    of the policy.  In each case nothing is created: the local store and
    the backend are as before. *)
Theorem create_network_vlan_rejected self ctx network s :
  nb_network_type network = Attr NetworkTypes.VLAN ->
  (policy_check ctx provider_network_set = true ->
   match nb_segmentation_id network with
   | Attr seg => seg < 1 \/ 4094 < seg
   | _ => True
   end ->
   exists msg,
     create_network self ctx network s = (Raise (InvalidInput msg), s))
  /\
  (policy_check ctx provider_network_set = true ->
   forall seg b,
     nb_segmentation_id network = Attr seg -> 1 <= seg <= 4094 ->
     b ∈ network_bindings (db s) ->
     tz_uuid b = attr_value (nb_physical_network network) ->
     vlan_id b = Some seg ->
     create_network self ctx network s
     = (Raise (VlanIdInUse seg (attr_value (nb_physical_network network))), s))
  /\
  (policy_check ctx provider_network_set = false ->
   create_network self ctx network s
   = (Raise (PolicyNotAuthorized provider_network_set), s)).
Proof.
  intros Hvlan.
  pose proof (_handle_provider_create_vlan ctx network s Hvlan) as Hh.
  split; [|split].
  - intros Hauth Hrange. rewrite Hauth in Hh.
    destruct (nb_segmentation_id network) as [| | |seg];
      try (eexists; apply create_network_rejected; exact Hh).
    assert ((seg <? 1) || (seg >? 4094) = true) as Hb.
    { destruct Hrange; [apply orb_true_intro; left; lia
                       |apply orb_true_intro; right; lia]. }
    rewrite Hb in Hh. eexists; apply create_network_rejected; exact Hh.
  - intros Hauth seg b Hseg Hrange Hin _ Hv. rewrite Hauth, Hseg in Hh.
    assert ((seg <? 1) || (seg >? 4094) = false) as Hb
      by (apply orb_false_intro; lia).
    rewrite Hb in Hh.
    destruct (get_network_binding_by_vlanid_bound seg (db s) b Hin Hv)
      as [b' Hb'].
    rewrite Hb' in Hh. by apply create_network_rejected.
  - intros Hauth. rewrite Hauth in Hh. by apply create_network_rejected.
Qed.

(** *** Switch selection *)

Lemma filter_cons_first {A} (p : A -> bool) (l : list A) x rest :
  List.filter p l = x :: rest -> first_such p l x.
Proof.
  induction l as [|y l IH]; simpl; [done|].
  destruct (p y) eqn:Hy.
  - intros [= -> _]. exists [], l. auto.
  - intros H. destruct (IH H) as (l1 & l2 & -> & Hl1 & Hx).
    exists (y :: l1), l2. auto.
Qed.

Lemma first_such_filter {A} (p : A -> bool) (l : list A) x :
  first_such p l x -> exists rest, List.filter p l = x :: rest.
Proof.
  intros (l1 & l2 & -> & Hl1 & Hx).
  induction Hl1 as [|y l1 Hy _ IH]; simpl.
  - rewrite Hx. eauto.
  - by rewrite Hy.
Qed.

Lemma with_free_ports_nil max_ports lswitches :
  with_free_ports max_ports lswitches = [] <-> Forall (full max_ports) lswitches.
Proof.
  unfold with_free_ports, full. induction lswitches as [|ls l IH]; simpl.
  - split; auto.
  - destruct (Z.ltb_spec (ls_lport_count ls) max_ports).
    + split; [done|]. inversion 1; subst. lia.
    + rewrite IH. split; [by constructor | by inversion 1].
Qed.

Lemma tag_dict_lookup_None tags sc :
  tag_dict tags !! sc = None <-> has_scope sc tags = false.
Proof.
  unfold tag_dict, has_scope. rewrite <- not_elem_of_list_to_map.
  rewrite <- not_true_iff_false, existsb_exists.
  split; intros H Hin; apply H.
  - destruct Hin as (t & Ht & Hsc). apply String.eqb_eq in Hsc.
    apply list_elem_of_fmap. exists (scope t, tag t). split; [done|].
    apply elem_of_reverse, list_elem_of_fmap. exists t. split; [done|].
    by apply list_elem_of_In.
  - apply list_elem_of_fmap in Hin as ([sc' tg] & -> & Hin).
    apply elem_of_reverse, list_elem_of_fmap in Hin as (t & Heq & Ht).
    inversion Heq; subst.
    exists t. split; [by apply list_elem_of_In | by apply String.eqb_eq].
Qed.

(** [_handle_lswitch_selection] once the backend has listed the switches of
    the network. *)
Lemma _handle_lswitch_selection_run cluster network network_binding max_ports
    allow_extra_lswitches s lswitches :
  get_lswitches cluster (net_id network) (nvp s) = Ok lswitches ->
  _handle_lswitch_selection cluster network network_binding max_ports
    allow_extra_lswitches s
  = match with_free_ports max_ports lswitches with
    | ls :: _ => (Ok ls, s)
    | [] =>
        let s1 :=
          add_log (LOG DEBUG "No switch has available ports (%d checked)"
                       [pretty (length lswitches)]) s in
        if allow_extra_lswitches
        then
          match List.filter
                  (fun ls => String.eqb (ls_uuid ls) (net_id network))
                  lswitches
          with
          | [] => (Raise (IndexError "list index out of range"), s1)
          | main :: _ =>
              let '(r, n1) :=
                if has_scope "multi_lswitch" (ls_tags main)
                then (Ok tt, nvp s)
                else update_lswitch cluster (ls_uuid main)
                       (ls_display_name main) (net_tenant_id network)
                       [{| scope := "multi_lswitch"; tag := "True" |}] (nvp s)
              in
              match r with
              | Raise e => (Raise e, set_nvp n1 s1)
              | Ok _ =>
                  match network_binding with
                  | None =>
                      (Raise (AttributeError
                                "'NoneType' object has no attribute 'binding_type'"),
                       set_nvp n1 s1)
                  | Some b =>
                      let '(r', n2) :=
                        create_lswitch cluster (net_tenant_id network)
                          (Some (extra_lswitch_name network lswitches))
                          (Some (binding_type b)) (tz_uuid b) (vlan_id b)
                          (Some (net_id network)) n1 in
                      (r', set_nvp n2 (set_nvp n1 s1))
                  end
              end
          end
        else
          (Raise (NvpNoMorePortsException (net_id network)),
           add_log
             (LOG ERROR
                "Maximum number of logical ports reached for logical network %s"
                [net_id network]) s1)
    end.
Proof.
  intros Hget. unfold _handle_lswitch_selection.
  unfold bind at 1, nvp_query. rewrite Hget.
  destruct (with_free_ports max_ports lswitches) as [|ls rest]; [|done].
  unfold bind at 1. cbn [LOG_]. cbv zeta.
  destruct allow_extra_lswitches; [|done].
  destruct (List.filter _ lswitches) as [|main mains]; [done|].
  unfold bind at 1.
  destruct (has_scope "multi_lswitch" (ls_tags main)) eqn:Htag.
  - rewrite bool_decide_eq_false_2
      by (rewrite tag_dict_lookup_None; congruence).
    cbn [ret]. destruct network_binding as [b|]; [|by destruct s].
    unfold nvp_call, extra_lswitch_name. simpl.
    destruct (create_lswitch _ _ _ _ _ _ _ _); by destruct s.
  - rewrite bool_decide_eq_true_2 by (by rewrite tag_dict_lookup_None).
    unfold nvp_call at 1. cbn [nvp add_log].
    destruct (update_lswitch _ _ _ _ _ _) as [[[]|e] n1]; [|done].
    destruct network_binding as [b|]; [|done].
    unfold nvp_call, extra_lswitch_name. simpl.
    by destruct (create_lswitch _ _ _ _ _ _ _ _).
Qed.

Lemma first_such_free_ports max_ports lswitches ls :
  first_such (fun ls => ls_lport_count ls <? max_ports) lswitches ls ->
  ls ∈ lswitches /\ ls_lport_count ls < max_ports.
Proof.
  intros (l1 & l2 & -> & _ & Hls). split; [set_solver | lia].
Qed.

(** C5 (amended): once the backend has listed the switches of the network,
    [_handle_lswitch_selection] returns the first listed switch whose port
    count is strictly below [max_ports] when there is one; a listed switch
    is never returned otherwise, so that every switch it returns either is
    a listed switch with a port count below [max_ports] or has just been
    created.  When every listed switch is full and extra switches are not
    allowed it fails with [NvpNoMorePortsException] and the backend is
    untouched.  When every listed switch is full and extra switches are
    allowed, a new switch is not created in every case.  With the primary
    switch of the network among the listed ones, a provider binding, and a
    backend that carries out the calls, the primary switch is tagged
    [multi_lswitch] if it was not, and a new switch, named from the network
    name and the number of listed switches, is created and returned.  With
    no listed switch that has the id of the network as uuid the selection
    fails with [IndexError] and the backend is untouched; with the primary
    switch listed and no provider binding it fails with [AttributeError]
    once the primary switch is tagged, and no switch is created. *)
Theorem _handle_lswitch_selection_spec cluster network network_binding max_ports
    allow_extra_lswitches s lswitches :
  get_lswitches cluster (net_id network) (nvp s) = Ok lswitches ->
  let run :=
    _handle_lswitch_selection cluster network network_binding max_ports
      allow_extra_lswitches s in
  (forall ls,
     first_such (fun ls => ls_lport_count ls <? max_ports) lswitches ls ->
     run = (Ok ls, s) /\ ls ∈ lswitches /\ ls_lport_count ls < max_ports)
  /\
  (forall ls, fst run = Ok ls ->
     (ls ∈ lswitches /\ ls_lport_count ls < max_ports) \/
     (Forall (full max_ports) lswitches /\ allow_extra_lswitches = true /\
      exists b n1 n2,
        network_binding = Some b /\
        create_lswitch cluster (net_tenant_id network)
          (Some (extra_lswitch_name network lswitches))
          (Some (binding_type b)) (tz_uuid b) (vlan_id b)
          (Some (net_id network)) n1 = (Ok ls, n2)))
  /\
  (Forall (full max_ports) lswitches -> allow_extra_lswitches = false ->
   fst run = Raise (NvpNoMorePortsException (net_id network)) /\
   nvp (snd run) = nvp s)
  /\
  (Forall (full max_ports) lswitches -> allow_extra_lswitches = true ->
   forall main b n1 new n2,
     first_such (fun ls => String.eqb (ls_uuid ls) (net_id network))
       lswitches main ->
     network_binding = Some b ->
     (if has_scope "multi_lswitch" (ls_tags main) then (Ok tt, nvp s)
      else update_lswitch cluster (ls_uuid main) (ls_display_name main)
             (net_tenant_id network)
             [{| scope := "multi_lswitch"; tag := "True" |}] (nvp s))
     = (Ok tt, n1) ->
     create_lswitch cluster (net_tenant_id network)
       (Some (extra_lswitch_name network lswitches))
       (Some (binding_type b)) (tz_uuid b) (vlan_id b)
       (Some (net_id network)) n1 = (Ok new, n2) ->
     fst run = Ok new /\ nvp (snd run) = n2)
  /\
  (Forall (full max_ports) lswitches -> allow_extra_lswitches = true ->
   (Forall (fun ls => ls_uuid ls <> net_id network) lswitches ->
    fst run = Raise (IndexError "list index out of range") /\
    nvp (snd run) = nvp s)
   /\
   (forall main n1,
      first_such (fun ls => String.eqb (ls_uuid ls) (net_id network))
        lswitches main ->
      network_binding = None ->
      (if has_scope "multi_lswitch" (ls_tags main) then (Ok tt, nvp s)
       else update_lswitch cluster (ls_uuid main) (ls_display_name main)
              (net_tenant_id network)
              [{| scope := "multi_lswitch"; tag := "True" |}] (nvp s))
      = (Ok tt, n1) ->
      fst run
      = Raise (AttributeError
                 "'NoneType' object has no attribute 'binding_type'") /\
      nvp (snd run) = n1)).
Proof.
  intros Hget run. subst run.
  rewrite (_handle_lswitch_selection_run _ _ _ _ _ _ _ Hget).
  split; [|split; [|split; [|split]]].
  - intros ls Hfirst.
    destruct (first_such_filter _ _ _ Hfirst) as [rest Hrest].
    unfold with_free_ports. rewrite Hrest.
    split; [done|]. by apply first_such_free_ports.
  - intros ls.
    destruct (with_free_ports max_ports lswitches) as [|ls' rest] eqn:Hfree.
    + apply with_free_ports_nil in Hfree. cbv zeta.
      destruct allow_extra_lswitches; [|done].
      destruct (List.filter _ lswitches) as [|main mains]; [done|].
      destruct (if has_scope _ _ then _ else _) as [[[]|e] n1]; [|done].
      destruct network_binding as [b|]; [|done].
      destruct (create_lswitch _ _ _ _ _ _ _ _) as [r' n2] eqn:Hcreate.
      simpl. intros ->. right. split; [done|]. split; [done|].
      by exists b, n1, n2.
    + simpl. intros [= ->]. left.
      by apply first_such_free_ports, filter_cons_first with rest.
  - intros Hfull ->. apply with_free_ports_nil in Hfull. by rewrite Hfull.
  - intros Hfull -> main b n1 new n2 Hmain -> Htag Hcreate.
    apply with_free_ports_nil in Hfull. rewrite Hfull. cbv zeta.
    destruct (first_such_filter _ _ _ Hmain) as [mains ->].
    rewrite Htag, Hcreate. done.
  - intros Hfull ->.
    apply with_free_ports_nil in Hfull. rewrite Hfull. cbv zeta. split.
    + intros Hnone.
      assert (List.filter (fun ls => String.eqb (ls_uuid ls) (net_id network))
                          lswitches = []) as ->; [|done].
      clear Hget Hfull. induction Hnone as [|ls l Hls _ IH]; [done|].
      cbn [List.filter]. apply String.eqb_neq in Hls. by rewrite Hls.
    + intros main n1 Hmain -> Htag.
      destruct (first_such_filter _ _ _ Hmain) as [mains ->].
      by rewrite Htag.
Qed.

Lemma readonly_novazone_scan xs novazone_id :
  readonly (@novazone_scan NVP xs novazone_id).
Proof.
  induction xs as [|x xs IH]; simpl.
  - apply readonly_bind; [apply readonly_LOG_ | done].
  - apply readonly_bind; [apply readonly_LOG_|]. intros _.
    apply readonly_bind; [done|]. intros zone.
    destruct x as [name|c]; [done|]. destruct zone as [z|]; [|done].
    destruct (String.eqb z novazone_id); [|done].
    intros s. unfold bind, getattr_novazone_cluster_map.
    by destruct (novazone_cluster_map s).
Qed.

Lemma readonly__find_target_cluster self nova_id :
  readonly (@_find_target_cluster NVP self nova_id).
Proof.
  destruct nova_id as [novazone_id|]; [|done].
  unfold _find_target_cluster, _novazone_to_cluster.
  apply readonly_bind.
  { intros s. unfold getattr_novazone_cluster_map.
    by destruct (novazone_cluster_map s). }
  intros m. destruct (m !! novazone_id); [done|].
  apply (readonly_bind _ _ (readonly_LOG_ _ _ _)). intros _.
  apply readonly_novazone_scan.
Qed.

Lemma query_only__handle_provider_create ctx attrs :
  query_only (@_handle_provider_create NVP ctx attrs).
Proof.
  unfold _handle_provider_create. destruct (negb _); [done|].
  apply query_only_bind.
  { unfold _enforce_set_auth. by destruct (policy_check _ _). }
  intros _. apply query_only_bind; [|by intros [msg|]].
  destruct (nb_network_type attrs) as [| | |nt]; try done.
  destruct (bool_decide _); [by destruct (is_attr_set _)|].
  destruct (String.eqb nt NetworkTypes.VLAN); [|done].
  destruct (nb_segmentation_id attrs) as [| | |seg]; try done.
  destruct (_ || _); [done|].
  apply query_only_bind; [done|]. by intros [b|].
Qed.

Lemma readonly_create_network_target self ctx network :
  readonly (@create_network_target NVP self ctx network).
Proof.
  unfold create_network_target.
  apply readonly_bind;
    [apply readonly_query_only, query_only__handle_provider_create|].
  intros _. apply readonly_bind; [|intros _; apply readonly__find_target_cluster].
  destruct (nb_admin_state_up _) as [| | |v]; try done.
  destruct (is_False v); [apply readonly_LOG_ | done].
Qed.

(** *** create_network *)

Lemma attr_value_not_specified_to_none {A} (a : attr A) :
  attr_value (not_specified_to_none a) = attr_value a.
Proof. by destruct a. Qed.

(** The transaction of [create_network] records the network under [uuid]
    with its side rows, or fails and leaves the local store as it was; it
    does not touch the backend. *)
Lemma create_network_transaction_spec ctx uuid network s r s' :
  create_network_transaction ctx uuid network (replace_not_specified network) s
  = (r, s') ->
  nvp s' = nvp s /\
  match r with
  | Ok new_net =>
      nd_id new_net = uuid /\ created_network_store uuid network (db s) (db s')
  | Raise _ => db s' = db s
  end.
Proof.
  unfold create_network_transaction, session_begin, created_network_store.
  unfold bind, db_call, Store.create_network,
    Store._process_network_create_port_security,
    Store._get_network_security_binding, Store.add_network_binding,
    Store.get_network_binding, _extend_network_dict_provider,
    _extend_network_port_security_dict, db_query, ret.
  cbn [nb_id set_id attr_value default db nb_port_security nb_network_type
         replace_not_specified nb_physical_network nb_segmentation_id].
  rewrite !attr_value_not_specified_to_none.
  intros H.
  repeat (case_match; simplify_eq; cbn in *; simplify_eq);
    rewrite ?app_nil_r; eauto 10.
Qed.



(** [create_network] once the cluster of the switch is chosen. *)
Lemma create_network_run self ctx network s target_cluster s1 :
  create_network_target self ctx network s = (Ok target_cluster, s1) ->
  db s1 = db s /\ nvp s1 = nvp s /\
  create_network self ctx network s
  = match create_network_lswitch ctx (replace_not_specified network)
            target_cluster (nvp s) with
    | (Ok lswitch, n1) =>
        create_network_transaction ctx (ls_uuid lswitch) network
          (replace_not_specified network) (set_nvp n1 s1)
    | (Raise e, n1) => (Raise e, set_nvp n1 s1)
    end.
Proof.
  intros Ht.
  pose proof (readonly_create_network_target self ctx network s) as [Hdb Hnvp].
  rewrite Ht in Hdb, Hnvp. simpl in Hdb, Hnvp.
  split; [done|]. split; [done|].
  unfold create_network. rewrite (bind_Ok _ _ _ _ _ Ht).
  unfold bind at 1, nvp_call. rewrite Hnvp.
  by destruct (create_network_lswitch _ _ _ _) as [[lswitch|e] n1].
Qed.


(** *** create_port *)

(** The handlers of the [try] block of [create_port]:
    [NvpNoMorePortsException] is raised again as it is, and every other
    exception becomes [NvpPluginException]. *)
Lemma create_port_on_nvp_select_raises self port pl s e s' :
  select_lswitch self port pl s = (Raise e, s') ->
  fst (create_port_on_nvp self port pl s)
  = match e with
    | NvpNoMorePortsException _ => Raise e
    | _ =>
        Raise (NvpPluginException
                 ("An exception occured while plugging the interface"
                    +:+ " in NVP for port " +:+ pd_id (pl_port_data pl)))
    end
  /\ same_stores (snd (create_port_on_nvp self port pl s)) s'.
Proof.
  intros Hsel. unfold create_port_on_nvp, try_except.
  rewrite (bind_Raise _ _ _ _ _ Hsel).
  by destruct e.
Qed.

Lemma create_port_in_db_fresh self ctx port s pl s1 :
  create_port_in_db self ctx port s = (Ok pl, s1) ->
  Store.find_port (pd_id (pl_port_data pl)) (db s) = None.
Proof.
  unfold create_port_in_db, bind, db_call, db_query, ret, Store.create_port,
    Store._process_port_security_create, Store._get_network.
  intros H.
  repeat (case_match; simplify_eq; cbn in *; simplify_eq). assumption.
Qed.

(** C7: when the allocation of a switch for the port fails with
    [NvpNoMorePortsException], [create_port] fails with that same
    exception, not with the [NvpPluginException] that wraps the other
    failures of the backend, and the local store is as before the call: the
    port record that the transaction had created is not there. *)
Theorem create_port_no_more_ports self ctx port s pl s1 network s2 :
  (if is_attr_set (pb_port_security port)
   then policy_check ctx port_security_enabled_create else true) = true ->
  create_port_in_db self ctx port s = (Ok pl, s1) ->
  select_lswitch self port pl s1
  = (Raise (NvpNoMorePortsException network), s2) ->
  fst (create_port self ctx port s) = Raise (NvpNoMorePortsException network)
  /\ db (snd (create_port self ctx port s)) = db s
  /\ Store.find_port (pd_id (pl_port_data pl))
       (db (snd (create_port self ctx port s))) = None.
Proof.
  intros Hauth Hdb Hsel.
  assert (Hrun : create_port self ctx port s
                 = (Raise (NvpNoMorePortsException network),
                    set_db (db s) (snd (create_port_on_nvp self port pl s1)))).
  { unfold create_port.
    assert ((if is_attr_set (pb_port_security port)
             then _enforce_set_auth ctx port_security_enabled_create
             else ret tt) s = (Ok tt, s)) as Ha.
    { unfold _enforce_set_auth. destruct (is_attr_set _); [|done].
      by rewrite Hauth. }
    rewrite (bind_Ok _ _ _ _ _ Ha).
    apply session_begin_Raise.
    rewrite (bind_Ok _ _ _ _ _ Hdb).
    destruct (create_port_on_nvp_select_raises _ _ _ _ _ _ Hsel) as [Hr _].
    destruct (create_port_on_nvp self port pl s1) as [r s3] eqn:Hnvp.
    simpl in Hr. subst r. by rewrite (bind_Raise _ _ _ _ _ Hnvp). }
  rewrite Hrun. cbn [fst snd set_db db].
  split; [done|]. split; [done|].
  by eapply create_port_in_db_fresh.
Qed.

(** *** update_network *)

Lemma truthy_not_False v : truthy v = true -> is_False v = false.
Proof. by destruct v as [|[]| | | | |]. Qed.

Lemma update_network_transaction_errors ctx id network s e :
  fst (@update_network_transaction NVP ctx id network s) = Raise e ->
  e = NetworkNotFound id \/ exists msg, e = DBError msg.
Proof.
  unfold update_network_transaction, session_begin, bind, db_call,
    Store.update_network, Store._update_network_security_binding,
    _extend_network_port_security_dict, db_query, ret.
  intros H.
  repeat (case_match; simplify_eq; cbn in *; simplify_eq); eauto.
Qed.

(** C9: in [update_network] the branch that raises [NotImplementedError] is
    never taken: the outer guard is the truth value of [admin_state_up],
    and a value that passes it is not [False] (for a Boolean, the guard
    fails exactly on [False]).  Every update, the one that sets
    [admin_state_up] to [False] among them, is the local transaction and
    nothing else, and never fails with [NotImplementedError]. *)
Theorem update_network_never_rejects ctx id network s :
  (forall v, truthy v = true -> is_False v = false)
  /\ (forall b, truthy (PyBool b) = false <-> PyBool b = PyBool false)
  /\ @update_network NVP ctx id network s
     = update_network_transaction ctx id network s
  /\ (forall msg,
        fst (@update_network NVP ctx id network s)
        <> Raise (NotImplementedError msg)).
Proof.
  split; [exact truthy_not_False|].
  split; [intros []; simpl; split; congruence|].
  assert (Heq : @update_network NVP ctx id network s
                = update_network_transaction ctx id network s).
  { unfold update_network.
    destruct (truthy (attr_get (nb_admin_state_up network))) eqn:Ht; [|done].
    by rewrite (truthy_not_False _ Ht). }
  split; [exact Heq|].
  intros msg Hr. rewrite Heq in Hr.
  apply update_network_transaction_errors in Hr as [Hr|[m Hr]]; discriminate.
Qed.

(** *** get_ports *)

Lemma stable_ret {A} (a : A) : stable (@ret NVP A a).
Proof. by intros s1 s2 H. Qed.

Lemma stable_raise {A} e : stable (@raise NVP A e).
Proof. by intros s1 s2 H. Qed.

Lemma stable_lift {A} (r : result A) : stable (@lift NVP A r).
Proof. by intros s1 s2 H. Qed.

Lemma stable_LOG_ lvl msg args : stable (@LOG_ NVP lvl msg args).
Proof. by intros s1 s2 H. Qed.

Lemma stable_db_query {A} (q : DB -> result A) : stable (@db_query NVP A q).
Proof. intros s1 s2 [Hdb Hnvp]. unfold db_query. simpl. by rewrite Hdb. Qed.

Lemma stable_nvp_query {A} (q : NVP -> result A) : stable (nvp_query q).
Proof. intros s1 s2 [Hdb Hnvp]. unfold nvp_query. simpl. by rewrite Hnvp. Qed.

Lemma stable_get filters key : stable (@get NVP filters key).
Proof. intros s1 s2 H. by destruct filters. Qed.

Lemma stable_bind {A B} (m : M NVP A) (k : A -> M NVP B) :
  stable m -> (forall a, stable (k a)) -> stable (bind m k).
Proof.
  intros Hm Hk s1 s2 H. unfold bind. destruct (Hm s1 s2 H) as [Hr Hs].
  destruct (m s1) as [[a1|e1] s1'], (m s2) as [[a2|e2] s2'];
    simpl in *; simplify_eq; [by apply Hk | done].
Qed.

Lemma stable_try_except {A} (m : M NVP A) (h : exn -> M NVP A) :
  stable m -> (forall e, stable (h e)) -> stable (try_except m h).
Proof.
  intros Hm Hh s1 s2 H. unfold try_except. destruct (Hm s1 s2 H) as [Hr Hs].
  destruct (m s1) as [[a1|e1] s1'], (m s2) as [[a2|e2] s2'];
    simpl in *; simplify_eq; [done | by apply Hh].
Qed.

Lemma stable_session_begin {A} (body : M NVP A) :
  stable body -> stable (session_begin body).
Proof.
  intros Hb s1 s2 H. unfold session_begin. destruct (Hb s1 s2 H) as [Hr Hs].
  destruct (body s1) as [[a1|e1] s1'], (body s2) as [[a2|e2] s2'];
    simpl in *; simplify_eq; [done|].
  split; [done|]. destruct H as [Hdb _], Hs as [_ Hnvp]. by split.
Qed.

Lemma stable_map_each {A B} (l : list A) (body : A -> M NVP B) :
  (forall x, stable (body x)) -> stable (map_each l body).
Proof.
  intros Hb. induction l as [|x l IH]; simpl; [apply stable_ret|].
  apply stable_bind; [apply Hb|]. intros y.
  apply stable_bind; [apply IH|]. intros ys. apply stable_ret.
Qed.

Lemma stable_with_fields {A} (items : A -> gmap string pyval) fields
    (l : list A) :
  stable (@with_fields NVP A items fields l).
Proof.
  unfold with_fields. destruct (default [] fields); [apply stable_ret|].
  apply stable_bind; [apply stable_lift|]. intros rows. apply stable_ret.
Qed.

Lemma stable_project_ports quantum_lports nvp_lports :
  stable (@project_ports NVP quantum_lports nvp_lports).
Proof.
  revert nvp_lports. induction quantum_lports as [|p l IH]; intros m; simpl.
  - apply stable_ret.
  - destruct (m !! pd_id p).
    + apply stable_bind; [apply IH|]. intros r. apply stable_ret.
    + apply stable_bind; [apply stable_LOG_|]. intros _. apply IH.
Qed.

Lemma readonly_project_ports quantum_lports nvp_lports :
  readonly (@project_ports NVP quantum_lports nvp_lports).
Proof.
  revert nvp_lports. induction quantum_lports as [|p l IH]; intros m; simpl.
  - done.
  - destruct (m !! pd_id p).
    + apply readonly_bind; [apply IH | done].
    + apply readonly_bind; [apply readonly_LOG_ | intros _; apply IH].
Qed.

Lemma stable_quantum_lports_of ctx filters :
  stable (@quantum_lports_of NVP ctx filters).
Proof.
  apply stable_session_begin, stable_bind; [apply stable_db_query|].
  intros ports. apply stable_map_each. intros p. apply stable_db_query.
Qed.

Lemma stable_nvp_lports_of self filters : stable (nvp_lports_of self filters).
Proof.
  unfold nvp_lports_of.
  apply stable_bind; [apply stable_get|]. intros network_ids.
  apply stable_bind; [apply stable_get|]. intros device_ids.
  apply stable_bind; [apply stable_get|]. intros tenants.
  apply stable_try_except.
  - apply stable_bind; [|intros pages; apply stable_ret].
    apply stable_map_each. intros c. apply stable_nvp_query.
  - intros _. apply stable_bind; [apply stable_LOG_|].
    intros _. apply stable_raise.
Qed.

Lemma readonly_nvp_lports_of self filters :
  readonly (nvp_lports_of self filters).
Proof.
  unfold nvp_lports_of.
  apply readonly_bind; [apply readonly_query_only, query_only_get|].
  intros network_ids.
  apply readonly_bind; [apply readonly_query_only, query_only_get|].
  intros device_ids.
  apply readonly_bind; [apply readonly_query_only, query_only_get|].
  intros tenants.
  apply readonly_try_except.
  - apply readonly_query_only, query_only_bind; [|done].
    apply query_only_map_each. auto with queries.
  - intros _. apply readonly_bind; [apply readonly_LOG_ | done].
Qed.

Lemma stable_get_ports self ctx filters fields :
  stable (get_ports self ctx filters fields).
Proof.
  unfold get_ports.
  apply stable_bind; [apply stable_quantum_lports_of|]. intros quantum_lports.
  apply stable_bind; [apply stable_nvp_lports_of|]. intros nvp_lports.
  apply stable_bind; [apply stable_project_ports|]. intros [lports rest].
  apply stable_bind; [|intros _; apply stable_with_fields].
  destruct (size rest =? 0)%nat; [apply stable_ret | apply stable_LOG_].
Qed.

Lemma readonly_get_ports self ctx filters fields :
  readonly (get_ports self ctx filters fields).
Proof.
  unfold get_ports.
  apply readonly_bind;
    [apply readonly_query_only, query_only_quantum_lports_of|].
  intros quantum_lports.
  apply readonly_bind; [apply readonly_nvp_lports_of|]. intros nvp_lports.
  apply readonly_bind; [apply readonly_project_ports|]. intros [lports rest].
  apply readonly_bind.
  - destruct (size rest =? 0)%nat; [done | apply readonly_LOG_].
  - intros _ s. by rewrite with_fields_state.
Qed.

Lemma project_port_idempotent nvp_lport quantum_lport :
  project_port nvp_lport (project_port nvp_lport quantum_lport)
  = project_port nvp_lport quantum_lport.
Proof. reflexivity. Qed.

(** The projection of [get_ports] applied to its own output, against the
    same backend ports, returns that output and leaves the same backend
    ports unclaimed. *)
Lemma project_ports_idempotent quantum_lports nvp_lports s s' lports rest :
  fst (@project_ports NVP quantum_lports nvp_lports s) = Ok (lports, rest) ->
  fst (@project_ports NVP lports nvp_lports s') = Ok (lports, rest).
Proof.
  revert nvp_lports s s' lports rest.
  induction quantum_lports as [|p l IH]; intros m s s' lports rest; simpl.
  - intros [= <- <-]. reflexivity.
  - destruct (m !! pd_id p) as [nvp_lport|] eqn:Hm.
    + unfold bind at 1.
      destruct (project_ports l (delete (pd_id p) m) s) as [[[out m']|e] s1]
        eqn:Hl; [|done].
      cbn [ret fst snd]. intros [= <- <-].
      cbn [project_ports project_port pd_id]. rewrite Hm.
      unfold bind at 1.
      pose proof (IH (delete (pd_id p) m) s s' out m') as IH'.
      rewrite Hl in IH'. specialize (IH' eq_refl).
      destruct (project_ports out (delete (pd_id p) m) s') as [r s2].
      simpl in IH'. subst r. reflexivity.
    + unfold bind at 1. cbn [LOG_]. apply IH.
Qed.

(** C8: the output of [get_ports] is a function of the local records, of
    the backend ports and of the arguments: two calls with the same
    filters on states with the same local store and the same backend
    return the same records; [get_ports] itself changes neither, so that a
    second call right after the first returns what the first returned.
    The projection is idempotent on the records too: applied to its own
    output, against the same backend ports, it returns that output. *)
Theorem get_ports_idempotent self ctx filters fields s :
  (forall s', same_stores s s' ->
     fst (get_ports self ctx filters fields s)
     = fst (get_ports self ctx filters fields s'))
  /\ same_stores (snd (get_ports self ctx filters fields s)) s
  /\ fst (get_ports self ctx filters fields
            (snd (get_ports self ctx filters fields s)))
     = fst (get_ports self ctx filters fields s)
  /\ (forall quantum_lports nvp_lports s' lports rest,
        fst (project_ports quantum_lports nvp_lports s) = Ok (lports, rest) ->
        fst (project_ports lports nvp_lports s') = Ok (lports, rest)).
Proof.
  split; [|split; [|split]].
  - intros s' H. by apply stable_get_ports.
  - apply readonly_get_ports.
  - apply stable_get_ports, readonly_get_ports.
  - intros quantum_lports nvp_lports s' lports rest.
    apply project_ports_idempotent.
Qed.

End Properties.

(** * The properties on the small deployment *)

Section Runs.

Import Demo.

(** The network [n1] has a local record and no cluster has a switch for
    it; [delete_network] fails with [NetworkNotFound], and the local record
    of [n1] is gone: the local store was touched. *)
Lemma delete_network_touches_local_store :
  no_pairs plugin "n1" local_only /\
  Store.find_network "n1" (db local_only) = Some (network_row "n1" "N1") /\
  fst (delete_network plugin admin "n1" local_only)
  = Raise (NetworkNotFound "n1") /\
  Store.find_network "n1" (db (snd (delete_network plugin admin "n1" local_only)))
  = None /\
  db (snd (delete_network plugin admin "n1" local_only)) <> db local_only.
Proof.
  split.
  { constructor; [by exists "n1" | constructor]. }
  split; [reflexivity|]. split; [reflexivity|]. split; [reflexivity|].
  vm_compute. discriminate.
Qed.

Lemma delete_network_no_pairs_witness :
  no_pairs plugin "n1" local_only /\
  nvp (snd (delete_network plugin admin "n1" local_only)) = nvp local_only /\
  fst (delete_network plugin admin "n1" local_only)
  = Raise (NetworkNotFound "n1") /\
  db (snd (delete_network plugin admin "n1" local_only)) = Store.empty /\
  Store.find_network "n1" Store.empty = None.
Proof.
  assert (Hno : no_pairs plugin "n1" local_only).
  { constructor; [by exists "n1" | constructor]. }
  split; [exact Hno|].
  exact (delete_network_no_pairs plugin admin "n1" local_only Hno).
Defined.



(** Two backend switches without a local record: the listing is the local
    records, and the log gets one warning, with the count 2. *)
Example get_networks_two_orphans :
  fst (get_networks plugin admin (Some ∅) None drifted)
  = Ok (Records
          [{| nd_id := "n1"; nd_name := Some "N1"; nd_tenant_id := "t1";
              nd_admin_state_up := true; nd_status := "ACTIVE";
              nd_shared := false; nd_subnets := []; nd_provider := None;
              nd_port_security := None |}]) /\
  log (snd (get_networks plugin admin (Some ∅) None drifted))
  = [LOG WARNING
         ("Found %s logical switches not bound to Quantum networks. "
            +:+ "Quantum and NVP are potentially out of sync") ["2"];
     LOG DEBUG "get_networks() completed for tenant %s" ["t1"]] /\
  nvp (snd (get_networks plugin admin (Some ∅) None drifted)) = nvp drifted.
Proof. split; [|split]; reflexivity. Qed.

(** The only cluster of the plugin is in zone [z1], and the plugin is as
    [__init__] leaves it: resolving a resource of zone [z1] raises
    [AttributeError] on the test of the cache and changes nothing.  With
    the attribute set to an empty dictionary the call raises
    [AttributeError] on the name of the cluster, where the loop of the
    method, run on the cluster objects, finds the cluster and caches it. *)
Lemma _find_target_cluster_cache_miss_witness :
  NVPCluster.zone c1 = Ok (Some "z1") /\
  novazone_cluster_map local_only = None /\
  _find_target_cluster plugin (Some "z1") local_only
  = (Raise (AttributeError
              "'NvpPluginV2' object has no attribute 'novazone_cluster_map'"),
     local_only) /\
  clusters plugin <> [] /\
  fst (_find_target_cluster plugin (Some "z1")
         (set_novazone_cluster_map ∅ local_only))
  = Raise (AttributeError "'str' object has no attribute 'zone'") /\
  fst (novazone_scan (ClusterObject <$> itervalues plugin) "z1"
         (set_novazone_cluster_map ∅ local_only))
  = Ok c1 /\
  novazone_cluster_map
    (snd (novazone_scan (ClusterObject <$> itervalues plugin) "z1"
            (set_novazone_cluster_map ∅ local_only)))
  = Some (<["z1" := c1]> ∅).
Proof.
  assert (Hne : clusters plugin <> []) by discriminate.
  split; [reflexivity|]. split; [reflexivity|].
  split.
  { apply (_find_target_cluster_cache_miss plugin "z1" local_only).
    reflexivity. }
  split; [exact Hne|].
  destruct (_find_target_cluster_cache_miss plugin "z1"
              (set_novazone_cluster_map ∅ local_only))
    as [_ Hset].
  destruct (Hset ∅ eq_refl eq_refl) as [Hkeys Hvalues].
  split; [exact (proj1 (Hkeys Hne))|].
  apply Hvalues. constructor; [discriminate | constructor].
Defined.

(** A zone that no cluster has: [AttributeError] again, not
    [NvpInvalidNovaZone], with and without the attribute. *)
Example _find_target_cluster_unknown_zone :
  fst (_find_target_cluster plugin (Some "z9") local_only)
  = Raise (AttributeError
             "'NvpPluginV2' object has no attribute 'novazone_cluster_map'") /\
  fst (_find_target_cluster plugin (Some "z9")
         (set_novazone_cluster_map ∅ local_only))
  = Raise (AttributeError "'str' object has no attribute 'zone'") /\
  fst (novazone_scan (ClusterObject <$> itervalues plugin) "z9"
         (set_novazone_cluster_map ∅ local_only))
  = Raise (NvpInvalidNovaZone "z9").
Proof. repeat split; reflexivity. Qed.

(** C4 (counterexample): a vlan request with the segmentation id 5000, out
    of range, from a caller that the policy does not let set provider
    attributes: the failure is the policy's, not [InvalidInput]. *)
Lemma create_network_vlan_unauthorised :
  nb_network_type (vlan_body "N2" "phys1" 5000) = Attr NetworkTypes.VLAN /\
  nb_segmentation_id (vlan_body "N2" "phys1" 5000) = Attr 5000 /\
  fst (create_network plugin tenant (vlan_body "N2" "phys1" 5000) local_only)
  = Raise (PolicyNotAuthorized "extension:provider_network:set") /\
  (forall msg,
     fst (create_network plugin tenant (vlan_body "N2" "phys1" 5000) local_only)
     <> Raise (InvalidInput msg)).
Proof. repeat split; try reflexivity. intros msg. vm_compute. discriminate. Qed.

Lemma create_network_vlan_rejected_witness :
  nb_network_type (vlan_body "N2" "phys1" 5000) = Attr NetworkTypes.VLAN /\
  (exists msg,
     create_network plugin admin (vlan_body "N2" "phys1" 5000) local_only
     = (Raise (InvalidInput msg), local_only)) /\
  create_network plugin admin (vlan_body "N3" "phys1" 100)
    (state n1_vlan_store empty_backend)
  = (Raise (VlanIdInUse 100 (Some "phys1")), state n1_vlan_store empty_backend) /\
  create_network plugin tenant (vlan_body "N2" "phys1" 5000) local_only
  = (Raise (PolicyNotAuthorized provider_network_set), local_only).
Proof.
  split; [reflexivity|]. split; [|split].
  - destruct (create_network_vlan_rejected plugin admin
                (vlan_body "N2" "phys1" 5000) local_only eq_refl)
      as (Hrange & _).
    apply Hrange; [reflexivity|]. simpl. lia.
  - destruct (create_network_vlan_rejected plugin admin
                (vlan_body "N3" "phys1" 100)
                (state n1_vlan_store empty_backend) eq_refl)
      as (_ & Hbound & _).
    apply (Hbound eq_refl 100 n1_binding); [reflexivity | lia | left | | ];
      reflexivity.
  - destruct (create_network_vlan_rejected plugin tenant
                (vlan_body "N2" "phys1" 5000) local_only eq_refl)
      as (_ & _ & Hauth).
    apply Hauth. reflexivity.
Defined.

Lemma _handle_lswitch_selection_spec_witness :
  get_lswitches c1 "n1" (nvp bridged_free) = Ok [lswitch "n1" "N1" 1] /\
  _handle_lswitch_selection c1 (network_row "n1" "N1") (Some n1_binding) 2 true
    bridged_free
  = (Ok (lswitch "n1" "N1" 1), bridged_free) /\
  get_lswitches c1 "n1" (nvp overlay_full) = Ok [lswitch "n1" "N1" 256] /\
  fst (_handle_lswitch_selection c1 (network_row "n1" "N1") None 256 false
         overlay_full)
  = Raise (NvpNoMorePortsException "n1") /\
  get_lswitches c1 "n1" (nvp bridged_full) = Ok [lswitch "n1" "N1" 2] /\
  fst (_handle_lswitch_selection c1 (network_row "n1" "N1") (Some n1_binding)
         2 true bridged_full)
  = Ok n1_ext /\
  fst (_handle_lswitch_selection c1 (network_row "n1" "N1") None 256 true
         overlay_full)
  = Raise (AttributeError "'NoneType' object has no attribute 'binding_type'").
Proof.
  assert (H1 : get_lswitches c1 (net_id (network_row "n1" "N1"))
                 (nvp bridged_free) = Ok [lswitch "n1" "N1" 1])
    by reflexivity.
  assert (H2 : get_lswitches c1 (net_id (network_row "n1" "N1"))
                 (nvp overlay_full) = Ok [lswitch "n1" "N1" 256])
    by reflexivity.
  assert (H3 : get_lswitches c1 (net_id (network_row "n1" "N1"))
                 (nvp bridged_full) = Ok [lswitch "n1" "N1" 2])
    by reflexivity.
  split; [exact H1|].
  split; [|split; [exact H2|split; [|split; [exact H3|split]]]].
  - pose proof (_handle_lswitch_selection_spec c1 (network_row "n1" "N1")
                  (Some n1_binding) 2 true bridged_free _ H1) as H.
    cbv zeta in H. destruct H as (Hfirst & _).
    apply (Hfirst (lswitch "n1" "N1" 1)).
    exists [], []. split; [reflexivity|]. split; [constructor | reflexivity].
  - pose proof (_handle_lswitch_selection_spec c1 (network_row "n1" "N1")
                  None 256 false overlay_full _ H2) as H.
    cbv zeta in H. destruct H as (_ & _ & Hfull & _).
    apply Hfull; [|reflexivity].
    constructor; [unfold full; simpl; lia | constructor].
  - pose proof (_handle_lswitch_selection_spec c1 (network_row "n1" "N1")
                  (Some n1_binding) 2 true bridged_full _ H3) as H.
    cbv zeta in H. destruct H as (_ & _ & _ & Hnew & _).
    eapply (Hnew _ eq_refl (lswitch "n1" "N1" 2) n1_binding).
    + exists [], []. split; [reflexivity|]. split; [constructor | reflexivity].
    + reflexivity.
    + reflexivity.
    + reflexivity.
    Unshelve. constructor; [unfold full; simpl; lia | constructor].
  - pose proof (_handle_lswitch_selection_spec c1 (network_row "n1" "N1")
                  None 256 true overlay_full _ H2) as H.
    cbv zeta in H. destruct H as (_ & _ & _ & _ & Hfail).
    assert (Hfull : Forall (full 256) [lswitch "n1" "N1" 256]).
    { constructor; [unfold full; simpl; lia | constructor]. }
    destruct (Hfail Hfull eq_refl) as [_ Hnobinding].
    refine (proj1 (Hnobinding (lswitch "n1" "N1" 256) _ _ eq_refl _)).
    + exists [], []. split; [reflexivity|]. split; [constructor | reflexivity].
    + reflexivity.
Defined.

(** C5 (counterexample): the bridged network [n1] has lost its primary
    switch on the backend, and the switch that the cluster lists for it is
    full.  Extra switches are allowed, yet no switch is created and
    returned: the selection fails with [IndexError], and the backend holds
    the switches of before. *)
Lemma _handle_lswitch_selection_primary_gone :
  (exists ext,
     get_lswitches c1 "n1" (nvp primary_gone) = Ok [ext] /\
     ls_lport_count ext = 2 /\ ls_uuid ext <> "n1") /\
  Store.get_network_binding "n1" (db primary_gone) = Some n1_binding /\
  fst (_handle_lswitch_selection c1 (network_row "n1" "N1") (Some n1_binding)
         2 true primary_gone)
  = Raise (IndexError "list index out of range") /\
  nvp (snd (_handle_lswitch_selection c1 (network_row "n1" "N1")
              (Some n1_binding) 2 true primary_gone))
  = nvp primary_gone /\
  fst (create_port plugin admin (port_body "n1") primary_gone)
  = Raise (NvpPluginException
             ("An exception occured while plugging the interface"
                +:+ " in NVP for port uuid-1")).
Proof.
  split.
  { eexists. split; [reflexivity|]. split; [reflexivity | discriminate]. }
  repeat split; reflexivity.
Qed.


(** Scenario 1: the id of the created network is the uuid that the backend
    gave to the switch, and the local store holds the record. *)
Example create_network_scenario_1 :
  nd_id <$> match fst (create_network plugin admin (network_body "N1")
                         (state Store.empty empty_backend)) with
            | Ok new_net => Some new_net
            | Raise _ => None
            end = Some "lswitch-0" /\
  net_id <$> Store.find_network "lswitch-0"
               (db (snd (create_network plugin admin (network_body "N1")
                           (state Store.empty empty_backend))))
  = Some "lswitch-0" /\
  ls_uuid <$> (on_cluster c1
                 (be_lswitches
                    (nvp (snd (create_network plugin admin (network_body "N1")
                                 (state Store.empty empty_backend))))))
  = ["lswitch-0"].
Proof. repeat split; reflexivity. Qed.

(** Scenario 4, and C7 on it: a port on the overlay network [n1], whose
    switch is at the ceiling and which may not get extra switches. *)
Lemma create_port_no_more_ports_witness :
  exists pl s1 s2,
    create_port_in_db plugin admin (port_body "n1") overlay_full = (Ok pl, s1) /\
    select_lswitch plugin (port_body "n1") pl s1
    = (Raise (NvpNoMorePortsException "n1"), s2) /\
    fst (create_port plugin admin (port_body "n1") overlay_full)
    = Raise (NvpNoMorePortsException "n1") /\
    db (snd (create_port plugin admin (port_body "n1") overlay_full))
    = db overlay_full /\
    Store.find_port (pd_id (pl_port_data pl))
      (db (snd (create_port plugin admin (port_body "n1") overlay_full)))
    = None.
Proof.
  destruct (create_port_in_db plugin admin (port_body "n1") overlay_full)
    as [[pl|e] s1] eqn:Hdb; [|vm_compute in Hdb; discriminate].
  destruct (select_lswitch plugin (port_body "n1") pl s1) as [r s2] eqn:Hsel.
  assert (r = Raise (NvpNoMorePortsException "n1")) as ->.
  { vm_compute in Hdb. injection Hdb as <- <-.
    vm_compute in Hsel. by injection Hsel as <- _. }
  exists pl, s1, s2. split; [reflexivity|]. split; [exact Hsel|].
  exact (create_port_no_more_ports plugin admin (port_body "n1") overlay_full
           pl s1 "n1" s2 eq_refl Hdb Hsel).
Defined.

Example create_port_scenario_4 :
  fst (create_port plugin admin (port_body "n1") overlay_full)
  = Raise (NvpNoMorePortsException "n1") /\
  ports (db (snd (create_port plugin admin (port_body "n1") overlay_full))) = [].
Proof. split; reflexivity. Qed.

(** A cluster that does not answer: the failure of the backend is wrapped
    in [NvpPluginException], unlike the exhaustion of the ports, and the
    port record does not persist either. *)
Example create_port_backend_down :
  fst (create_port plugin admin (port_body "n1") (state n1_store down_backend))
  = Raise (NvpPluginException
             "An exception occured while plugging the interface in NVP for port uuid-1") /\
  ports (db (snd (create_port plugin admin (port_body "n1")
                    (state n1_store down_backend)))) = [].
Proof. split; reflexivity. Qed.

(** Scenario 3: the bridged network [n1] has its switch at the ceiling; the
    port goes to a second switch, created for it and tagged with the id of
    the network. *)
Example create_port_scenario_3 :
  is_Ok (fst (create_port plugin admin (port_body "n1") bridged_full)) = true /\
  (be_lswitches (nvp (snd (create_port plugin admin (port_body "n1")
                             bridged_full)))).*2
  = [{| ls_uuid := "n1"; ls_display_name := "N1";
        ls_tags := [{| scope := "multi_lswitch"; tag := "True" |}];
        ls_fabric_status := true; ls_lport_count := 2 |};
     n1_ext].
Proof. split; reflexivity. Qed.

(** Two calls of [get_ports] in a row on a deployment with one port. *)
Example get_ports_twice :
  let s := snd (create_port plugin admin (port_body "n1") bridged_free) in
  fst (get_ports plugin admin (Some ∅) None s)
  = fst (get_ports plugin admin (Some ∅) None
           (snd (get_ports plugin admin (Some ∅) None s))) /\
  is_Ok (fst (get_ports plugin admin (Some ∅) None s)) = true.
Proof. split; reflexivity. Qed.

End Runs.

(** * More properties *)

(** ** nvp_cluster.NVPCluster *)

Section ClusterProperties.

Context {builtins : Builtins}.

(** What [add_controller] returns when it returns. *)
Lemma add_controller_Returns self ip port user password request_timeout
    http_timeout retries redirects default_tz_uuid uuid zone c' :
  nvp_cluster.add_controller self ip port user password request_timeout
    http_timeout retries redirects default_tz_uuid uuid zone = Returns c' ->
  exists p rt ht rs rd,
    nvp_cluster.int port = Returns p /\
    nvp_cluster.int request_timeout = Returns rt /\
    nvp_cluster.int http_timeout = Returns ht /\
    nvp_cluster.int retries = Returns rs /\
    nvp_cluster.int redirects = Returns rd /\
    c' = {| _name := _name self;
            controllers :=
              controllers self
                ++ [{| ctl_ip := ip; ctl_port := p; ctl_user := user;
                       ctl_password := password; ctl_request_timeout := rt;
                       ctl_http_timeout := ht; ctl_retries := rs;
                       ctl_redirects := rd;
                       ctl_default_tz_uuid := default_tz_uuid;
                       ctl_uuid := uuid; ctl_zone := zone |}] |}.
Proof.
  unfold nvp_cluster.add_controller, and_then.
  destruct (nvp_cluster.int port) as [p|]; [|done].
  destruct (nvp_cluster.int request_timeout) as [rt|]; [|done].
  destruct (nvp_cluster.int http_timeout) as [ht|]; [|done].
  destruct (nvp_cluster.int retries) as [rs|]; [|done].
  destruct (nvp_cluster.int redirects) as [rd|]; [|done].
  intros [= <-]. by exists p, rt, ht, rs, rd.
Qed.

(** X1: when [add_controller] returns, the cluster has its name and its
    controllers of before, followed by one more controller: the strings of
    the call as they are, and the five numbers as [int] converts them.
    [get_controller] finds the new controller at the index that was the
    number of controllers. *)
Theorem add_controller_appends self ip port user password request_timeout
    http_timeout retries redirects default_tz_uuid uuid zone c' :
  nvp_cluster.add_controller self ip port user password request_timeout
    http_timeout retries redirects default_tz_uuid uuid zone = Returns c' ->
  NVPCluster.name c' = NVPCluster.name self /\
  exists ctl,
    controllers c' = controllers self ++ [ctl] /\
    NVPCluster.get_controller c' (length (controllers self)) = Ok ctl /\
    ctl_ip ctl = ip /\ ctl_user ctl = user /\ ctl_password ctl = password /\
    ctl_default_tz_uuid ctl = default_tz_uuid /\
    ctl_uuid ctl = uuid /\ ctl_zone ctl = zone /\
    nvp_cluster.int port = Returns (ctl_port ctl) /\
    nvp_cluster.int request_timeout = Returns (ctl_request_timeout ctl) /\
    nvp_cluster.int http_timeout = Returns (ctl_http_timeout ctl) /\
    nvp_cluster.int retries = Returns (ctl_retries ctl) /\
    nvp_cluster.int redirects = Returns (ctl_redirects ctl).
Proof.
  intros H.
  apply add_controller_Returns
    in H as (p & rt & ht & rs & rd & Hp & Hrt & Hht & Hrs & Hrd & ->).
  split; [done|]. eexists. split; [done|]. split.
  - unfold NVPCluster.get_controller. cbn [controllers].
    by rewrite list_lookup_middle.
  - by repeat split.
Qed.

(** X2: every scalar property of a cluster reads its first controller, so
    that a controller added to a cluster that has one already changes none
    of them. *)
Theorem add_controller_keeps_properties self ip port user password
    request_timeout http_timeout retries redirects default_tz_uuid uuid zone
    c' :
  controllers self <> [] ->
  nvp_cluster.add_controller self ip port user password request_timeout
    http_timeout retries redirects default_tz_uuid uuid zone = Returns c' ->
  NVPCluster.host c' = NVPCluster.host self /\
  NVPCluster.port c' = NVPCluster.port self /\
  NVPCluster.user c' = NVPCluster.user self /\
  NVPCluster.password c' = NVPCluster.password self /\
  NVPCluster.request_timeout c' = NVPCluster.request_timeout self /\
  NVPCluster.http_timeout c' = NVPCluster.http_timeout self /\
  NVPCluster.retries c' = NVPCluster.retries self /\
  NVPCluster.redirects c' = NVPCluster.redirects self /\
  NVPCluster.default_tz_uuid c' = NVPCluster.default_tz_uuid self /\
  NVPCluster.zone c' = NVPCluster.zone self /\
  NVPCluster.uuid c' = NVPCluster.uuid self.
Proof.
  intros Hne H.
  apply add_controller_Returns in H as (p & rt & ht & rs & rd & _ & _ & _ & _ & _ & ->).
  destruct self as [name [|ctl ctls]]; [done|].
  by repeat split.
Qed.

(** X3: a cluster fresh from [NVPCluster(name)] has no controller, and each
    of its scalar properties raises [IndexError]; once [add_controller] has
    returned on it, the properties are the values of the call. *)
Theorem fresh_cluster_properties name ip port user password request_timeout
    http_timeout retries redirects default_tz_uuid uuid zone c' :
  let fresh := nvp_cluster.__init__ name in
  nvp_cluster.add_controller fresh ip port user password request_timeout
    http_timeout retries redirects default_tz_uuid uuid zone = Returns c' ->
  (NVPCluster.name fresh = name /\
   NVPCluster.host fresh = Raise (IndexError "list index out of range") /\
   NVPCluster.user fresh = Raise (IndexError "list index out of range") /\
   NVPCluster.zone fresh = Raise (IndexError "list index out of range") /\
   NVPCluster.get_controller fresh 0
   = Raise (IndexError "list index out of range")) /\
  NVPCluster.name c' = name /\
  NVPCluster.host c' = Ok ip /\
  NVPCluster.user c' = Ok user /\
  NVPCluster.password c' = Ok password /\
  NVPCluster.default_tz_uuid c' = Ok default_tz_uuid /\
  NVPCluster.uuid c' = Ok uuid /\
  NVPCluster.zone c' = Ok zone /\
  (forall z, NVPCluster.port c' = Ok z <-> nvp_cluster.int port = Returns z) /\
  (forall z, NVPCluster.request_timeout c' = Ok z
             <-> nvp_cluster.int request_timeout = Returns z) /\
  (forall z, NVPCluster.http_timeout c' = Ok z
             <-> nvp_cluster.int http_timeout = Returns z) /\
  (forall z, NVPCluster.retries c' = Ok z
             <-> nvp_cluster.int retries = Returns z) /\
  (forall z, NVPCluster.redirects c' = Ok z
             <-> nvp_cluster.int redirects = Returns z).
Proof.
  intros fresh H.
  apply add_controller_Returns
    in H as (p & rt & ht & rs & rd & Hp & Hrt & Hht & Hrs & Hrd & ->).
  rewrite Hp, Hrt, Hht, Hrs, Hrd.
  split; [done|].
  repeat split; try done; cbn; congruence.
Qed.

(** X4: [add_controller] fails exactly when [int] fails on one of port,
    request_timeout, http_timeout, retries and redirects; the error is the
    [TypeError] or [ValueError] of the first of them, in that order, that
    [int] does not convert. *)
Theorem add_controller_fails self ip port user password request_timeout
    http_timeout retries redirects default_tz_uuid uuid zone e :
  nvp_cluster.add_controller self ip port user password request_timeout
    http_timeout retries redirects default_tz_uuid uuid zone = Fails e ->
  (e = TypeError \/ e = ValueError) /\
  exists converted v rest,
    [port; request_timeout; http_timeout; retries; redirects]
    = converted ++ v :: rest /\
    Forall (fun v => exists z, nvp_cluster.int v = Returns z) converted /\
    nvp_cluster.int v = Fails e.
Proof.
  assert (Herr : forall v e', nvp_cluster.int v = Fails e' ->
                              e' = TypeError \/ e' = ValueError).
  { intros v e'. unfold nvp_cluster.int.
    destruct v; try (intros [= <-]; by auto); try done.
    destruct (int_of_str s); [done|]. intros [= <-]. by auto. }
  unfold nvp_cluster.add_controller, and_then.
  destruct (nvp_cluster.int port) as [p|e1] eqn:H1.
  2:{ intros [= <-]. split; [eauto|]. by exists [], port, [request_timeout; http_timeout; retries; redirects]. }
  destruct (nvp_cluster.int request_timeout) as [rt|e2] eqn:H2.
  2:{ intros [= <-]. split; [eauto|].
      exists [port], request_timeout, [http_timeout; retries; redirects].
      repeat split; [|done]. repeat constructor; eauto. }
  destruct (nvp_cluster.int http_timeout) as [ht|e3] eqn:H3.
  2:{ intros [= <-]. split; [eauto|].
      exists [port; request_timeout], http_timeout, [retries; redirects].
      repeat split; [|done]. repeat constructor; eauto. }
  destruct (nvp_cluster.int retries) as [rs|e4] eqn:H4.
  2:{ intros [= <-]. split; [eauto|].
      exists [port; request_timeout; http_timeout], retries, [redirects].
      repeat split; [|done]. repeat constructor; eauto. }
  destruct (nvp_cluster.int redirects) as [rd|e5] eqn:H5; [done|].
  intros [= <-]. split; [eauto|].
  exists [port; request_timeout; http_timeout; retries], redirects, [].
  repeat split; [|done]. repeat constructor; eauto.
Qed.

End ClusterProperties.

(** ** NvpPluginV2.__init__: the default cluster *)

Lemma assoc_Some_elem_of {A} id (l : list (string * A)) a :
  Store.assoc id l = Some a -> (id, a) ∈ l.
Proof.
  unfold Store.assoc. destruct (List.find _ l) as [[k v]|] eqn:Hf; [|done].
  simpl. intros [= <-]. apply List.find_some in Hf as [Hin Hk].
  apply String.eqb_eq in Hk. simpl in Hk. subst. by apply list_elem_of_In.
Qed.

Lemma assoc_head {A} id (a : A) (l : list (string * A)) :
  Store.assoc id ((id, a) :: l) = Some a.
Proof. unfold Store.assoc. simpl. by rewrite String.eqb_refl. Qed.

(** X5: the default cluster that the end of [__init__] designates.  With no
    cluster at all it fails with [IndexError].  Otherwise it designates a
    cluster of the dictionary: the one of the configured name, without a log
    record, when the name is set and is a key; and else the first of the
    dictionary, with one record, an information when no name is set and a
    warning when the name is not a key. *)
Theorem init_default_cluster_spec clusters def_cluster_name :
  let run := init_default_cluster clusters def_cluster_name in
  (clusters = [] -> run = (Raise (IndexError "list index out of range"), []))
  /\
  (clusters <> [] ->
   exists c, fst run = Ok c /\ c ∈ clusters.*2 /\
     (forall n c', def_cluster_name = Some n -> n <> "" ->
                   Store.assoc n clusters = Some c' ->
                   c = c' /\ snd run = []) /\
     (def_cluster_name = None \/ def_cluster_name = Some "" ->
      head clusters.*2 = Some c /\
      exists r, snd run = [r] /\ log_level_of r = INFO) /\
     (forall n, def_cluster_name = Some n -> n <> "" ->
                Store.assoc n clusters = None ->
                head clusters.*2 = Some c /\
                exists r, snd run = [r] /\ log_level_of r = WARNING)).
Proof.
  intros run. subst run. unfold init_default_cluster. split.
  - intros ->. cbn. by destruct (negb _).
  - intros Hne. destruct clusters as [|[first c0] rest]; [done|]. clear Hne.
    cbn [fmap list_fmap fst]. rewrite assoc_head.
    destruct def_cluster_name as [n|]; cbn [from_option id].
    + destruct (String.eqb_spec n "") as [->|Hn]; cbn [negb].
      * exists c0. split; [done|]. split; [left|].
        split; [intros n0 c' [= <-] Hn0; by destruct Hn0|].
        split; [intros _; split; [done|]; by eexists|].
        intros n0 [= <-] Hn0; by destruct Hn0.
      * destruct (Store.assoc n ((first, c0) :: rest)) as [c|] eqn:Hc.
        -- exists c. split; [done|]. split.
           { apply assoc_Some_elem_of in Hc.
             exact (list_elem_of_fmap_2 snd _ _ Hc). }
           split; [intros n0 c' [= <-] _ Hc'; rewrite Hc in Hc';
                   by injection Hc' as <-|].
           split; [intros [Hd|Hd]; [done|by injection Hd as ->]|].
           intros n0 [= <-] _ Hc'. by rewrite Hc in Hc'.
        -- exists c0. split; [done|]. split; [left|].
           split; [intros n0 c' [= <-] _ Hc'; by rewrite Hc in Hc'|].
           split; [intros [Hd|Hd]; [done|by injection Hd as ->]|].
           intros n0 _ _ _. split; [done|]. by eexists.
    + cbn. exists c0. split; [done|]. split; [left|].
      split; [done|]. split; [intros _; split; [done|]; by eexists|]. done.
Qed.

(** ** NvpPluginV2: the provider attributes of a request *)

Section ProviderProperties.

Context {NVP : Type} {nvplib : NvpLib NVP} {gen : Generators}.
Implicit Types (s : State NVP) (self : Plugin) (ctx : Context).

(** [_handle_provider_create] on a request whose network type is none of
    the four: what it answers to a caller who may set the provider
    attributes. *)
Lemma _handle_provider_create_no_type ctx attrs s :
  policy_check ctx provider_network_set = true ->
  (is_attr_set (nb_network_type attrs)
   || is_attr_set (nb_physical_network attrs)
   || is_attr_set (nb_segmentation_id attrs)) = true ->
  (forall nt, nb_network_type attrs = Attr nt ->
              nt ∉ [NetworkTypes.GRE; NetworkTypes.STT; NetworkTypes.FLAT;
                    NetworkTypes.VLAN]) ->
  _handle_provider_create ctx attrs s
  = (Raise (InvalidInput
              match nb_network_type attrs with
              | Attr nt =>
                  pnet.NETWORK_TYPE +:+ " " +:+ nt +:+ " not supported"
              | _ => pnet.NETWORK_TYPE +:+ " required"
              end), s).
Proof.
  intros Hauth Hset Hnt. unfold _handle_provider_create.
  rewrite Hset. cbn [negb]. unfold bind at 1, _enforce_set_auth.
  rewrite Hauth. cbn [ret].
  destruct (nb_network_type attrs) as [| | |nt] eqn:Htype; try done.
  specialize (Hnt nt eq_refl).
  rewrite !not_elem_of_cons in Hnt. destruct Hnt as (H1 & H2 & H3 & H4 & _).
  rewrite bool_decide_eq_false_2
    by (rewrite !not_elem_of_cons; repeat split; [done..|apply not_elem_of_nil]).
  by destruct (String.eqb_spec nt NetworkTypes.VLAN) as [->|Hne].
Qed.

(** [_handle_provider_create] on a request of type gre, stt or flat. *)
Lemma _handle_provider_create_overlay ctx attrs s nt :
  nb_network_type attrs = Attr nt ->
  nt ∈ [NetworkTypes.GRE; NetworkTypes.STT; NetworkTypes.FLAT] ->
  _handle_provider_create ctx attrs s
  = if policy_check ctx provider_network_set
    then
      if is_attr_set (nb_segmentation_id attrs)
      then (Raise (InvalidInput ("Segmentation ID cannot be specified with "
                                   +:+ "flat network type")), s)
      else (Ok tt, s)
    else (Raise (PolicyNotAuthorized provider_network_set), s).
Proof.
  intros Htype Hnt. unfold _handle_provider_create. rewrite Htype.
  cbn [is_attr_set orb negb]. unfold bind at 1, _enforce_set_auth.
  destruct (policy_check ctx provider_network_set); [|done]. cbn [ret].
  rewrite bool_decide_eq_true_2 by done.
  by destruct (is_attr_set (nb_segmentation_id attrs)).
Qed.

(** X6: a request for a network of type gre, stt or flat that carries a
    segmentation id, from a caller who may set the provider attributes, is
    refused with [InvalidInput] before anything is done: no switch is
    created, and the local store, the backend and the log are as before. *)
Theorem create_network_segmentation_id_without_vlan self ctx network s nt :
  policy_check ctx provider_network_set = true ->
  nb_network_type network = Attr nt ->
  nt ∈ [NetworkTypes.GRE; NetworkTypes.STT; NetworkTypes.FLAT] ->
  is_attr_set (nb_segmentation_id network) = true ->
  create_network self ctx network s
  = (Raise (InvalidInput
              "Segmentation ID cannot be specified with flat network type"),
     s).
Proof.
  intros Hauth Htype Hnt Hseg. apply create_network_rejected.
  rewrite (_handle_provider_create_overlay ctx network s nt Htype Hnt).
  by rewrite Hauth, Hseg.
Qed.

(** X7: the policy is consulted on the provider attributes only when the
    request sets one of them.  For a caller who may not set them,
    [_handle_provider_create] lets a request without provider attributes
    pass, and [create_network] refuses every request that sets the network
    type, the physical network or the segmentation id, whatever their
    values, with the error of the policy and before anything is done. *)
Theorem provider_attributes_gate self ctx network s :
  policy_check ctx provider_network_set = false ->
  if is_attr_set (nb_network_type network)
     || is_attr_set (nb_physical_network network)
     || is_attr_set (nb_segmentation_id network)
  then create_network self ctx network s
       = (Raise (PolicyNotAuthorized provider_network_set), s)
  else _handle_provider_create ctx network s = (Ok tt, s).
Proof.
  intros Hauth.
  destruct (_ || _) eqn:Hset.
  - apply create_network_rejected. unfold _handle_provider_create.
    rewrite Hset. cbn [negb]. unfold bind at 1, _enforce_set_auth.
    by rewrite Hauth.
  - unfold _handle_provider_create. by rewrite Hset.
Qed.

(** X8: a request that sets a provider attribute without a network type, or
    with a network type that is none of gre, stt, flat and vlan, from a
    caller who may set the provider attributes, is refused with
    [InvalidInput] before anything is done. *)
Theorem create_network_type_required self ctx network s :
  policy_check ctx provider_network_set = true ->
  (is_attr_set (nb_network_type network)
   || is_attr_set (nb_physical_network network)
   || is_attr_set (nb_segmentation_id network)) = true ->
  (forall nt, nb_network_type network = Attr nt ->
              nt ∉ [NetworkTypes.GRE; NetworkTypes.STT; NetworkTypes.FLAT;
                    NetworkTypes.VLAN]) ->
  create_network self ctx network s
  = (Raise (InvalidInput
              match nb_network_type network with
              | Attr nt => "provider:network_type " +:+ nt +:+ " not supported"
              | _ => "provider:network_type required"
              end), s).
Proof.
  intros Hauth Hset Hnt. apply create_network_rejected.
  by rewrite (_handle_provider_create_no_type ctx network s Hauth Hset Hnt).
Qed.

(** A request that passes [_handle_provider_create] with a segmentation id
    is of type vlan, and its segmentation id is in range and unbound. *)
Lemma _handle_provider_create_Ok_segmentation ctx attrs s s' seg :
  _handle_provider_create ctx attrs s = (Ok tt, s') ->
  nb_segmentation_id attrs = Attr seg ->
  nb_network_type attrs = Attr NetworkTypes.VLAN /\
  1 <= seg <= 4094 /\
  Store.get_network_binding_by_vlanid seg (db s) = None.
Proof.
  intros H Hseg.
  destruct (nb_network_type attrs) as [| | |nt] eqn:Htype.
  1-3: exfalso; revert H; unfold _handle_provider_create;
    rewrite Htype, Hseg; cbn [is_attr_set orb negb];
    rewrite orb_true_r; cbn [negb];
    unfold bind at 1, _enforce_set_auth;
    destruct (policy_check ctx provider_network_set); done.
  destruct (decide (nt ∈ [NetworkTypes.GRE; NetworkTypes.STT;
                          NetworkTypes.FLAT])) as [Hin|Hnotin].
  - rewrite (_handle_provider_create_overlay ctx attrs s nt Htype Hin) in H.
    rewrite Hseg in H. by destruct (policy_check ctx provider_network_set).
  - destruct (String.eqb_spec nt NetworkTypes.VLAN) as [->|Hne].
    + rewrite (_handle_provider_create_vlan ctx attrs s Htype), Hseg in H.
      destruct (policy_check ctx provider_network_set); [|done].
      destruct ((seg <? 1) || (seg >? 4094)) eqn:Hrange; [done|].
      apply orb_false_elim in Hrange as [H1 H2].
      destruct (Store.get_network_binding_by_vlanid seg (db s)); [done|].
      split; [done|]. split; [lia|done].
    + exfalso. revert H. unfold _handle_provider_create.
      rewrite Htype. cbn [is_attr_set orb negb].
      unfold bind at 1, _enforce_set_auth.
      destruct (policy_check ctx provider_network_set); [|done]. cbn [ret].
      rewrite bool_decide_eq_false_2 by done.
      apply String.eqb_neq in Hne. by rewrite Hne.
Qed.

Lemma get_network_binding_by_vlanid_None seg d :
  Store.get_network_binding_by_vlanid seg d = None ->
  seg ∉ omap vlan_id (network_bindings d).
Proof.
  intros Hf Hin. apply list_elem_of_omap in Hin as (b & Hb & Hv).
  destruct (get_network_binding_by_vlanid_bound seg d b Hb Hv) as [b' Hb'].
  congruence.
Qed.

(** X9: [create_network] keeps the segmentation ids of the provider
    bindings of the local store distinct: whatever the request and whether
    it succeeds or fails, no two bindings hold the same segmentation id
    afterwards if none did before. *)
Theorem create_network_keeps_vlan_ids_unique self ctx network s :
  vlan_ids_unique (db s) ->
  vlan_ids_unique (db (snd (create_network self ctx network s))).
Proof.
  intros Hu.
  destruct (create_network_target self ctx network s) as [[target|e] s1] eqn:Ht.
  2:{ pose proof (readonly_create_network_target self ctx network s) as [Hdb _].
      rewrite Ht in Hdb. simpl in Hdb.
      unfold create_network. rewrite (bind_Raise _ _ _ _ _ Ht). simpl.
      by rewrite Hdb. }
  destruct (create_network_run self ctx network s target s1 Ht)
    as (Hdb & Hnvp & ->).
  destruct (create_network_lswitch _ _ _ _) as [[lswitch|e] n1];
    [|simpl; by rewrite Hdb].
  destruct (create_network_transaction _ _ _ _ _) as [r s2] eqn:Htx.
  apply create_network_transaction_spec in Htx as [_ Htx]. simpl.
  destruct r as [new_net|e]; [|simpl in Htx; by rewrite Htx, Hdb].
  destruct Htx as (_ & _ & _ & Hb & _). simpl in Hb. rewrite Hdb in Hb.
  unfold vlan_ids_unique. rewrite Hb, omap_app.
  destruct (attr_value (nb_network_type network)) as [nt|] eqn:Hnt;
    [|simpl; by rewrite app_nil_r].
  destruct (String.eqb nt ""); [simpl; by rewrite app_nil_r|].
  destruct (nb_segmentation_id network) as [| | |seg] eqn:Hseg;
    try (simpl; by rewrite app_nil_r).
  cbn. apply NoDup_app. split; [done|]. split; [|apply NoDup_singleton].
  intros z Hz Hin. apply list_elem_of_singleton in Hin as ->.
  unfold create_network_target in Ht.
  apply bind_inv_Ok in Ht as ([] & s0 & Hh & _).
  apply (_handle_provider_create_Ok_segmentation _ _ _ _ seg) in Hh
    as (_ & _ & Hnone); [|done].
  by apply get_network_binding_by_vlanid_None in Hnone.
Qed.

End ProviderProperties.

(** ** NvpPluginV2: the switches of a network on the clusters *)

Section PairsProperties.

Context {NVP : Type} {nvplib : NvpLib NVP} {gen : Generators}.
Implicit Types (s : State NVP) (self : Plugin) (ctx : Context).

(** One turn of the loop of [_get_lswitch_cluster_pairs]. *)
Lemma lswitch_cluster_pair_run netw_id c s :
  lswitch_cluster_pair netw_id c s
  = match get_lswitches c netw_id (nvp s) with
    | Ok results => (Ok (Some (c, ls_uuid <$> results)), s)
    | Raise (NetworkNotFound _) => (Ok None, s)
    | Raise e => (Raise e, s)
    end.
Proof.
  unfold lswitch_cluster_pair, try_except, bind, nvp_query, ret.
  destruct (get_lswitches c netw_id (nvp s)) as [results|e]; [done|].
  by destruct e.
Qed.

Lemma lswitch_cluster_pairs_answered netw_id cs s :
  Forall (fun c => forall e, get_lswitches c netw_id (nvp s) = Raise e ->
                             exists id, e = NetworkNotFound id) cs ->
  lswitch_cluster_pairs netw_id cs s
  = (Ok (omap (fun c => match get_lswitches c netw_id (nvp s) with
                        | Ok results => Some (c, ls_uuid <$> results)
                        | Raise _ => None
                        end) cs), s).
Proof.
  induction 1 as [|c cs Hc _ IH]; [done|].
  cbn [lswitch_cluster_pairs omap list_omap]. unfold bind at 1.
  rewrite lswitch_cluster_pair_run.
  destruct (get_lswitches c netw_id (nvp s)) as [results|e].
  - unfold bind at 1. by rewrite IH.
  - destruct (Hc e eq_refl) as [id ->]. unfold bind at 1. by rewrite IH.
Qed.

Lemma lswitch_cluster_pairs_error netw_id answered c rest s e :
  Forall (fun c => forall e, get_lswitches c netw_id (nvp s) = Raise e ->
                             exists id, e = NetworkNotFound id) answered ->
  get_lswitches c netw_id (nvp s) = Raise e ->
  (forall id, e <> NetworkNotFound id) ->
  lswitch_cluster_pairs netw_id (answered ++ c :: rest) s = (Raise e, s).
Proof.
  intros Hans Hc He. induction Hans as [|c' cs Hc' _ IH].
  - cbn [app lswitch_cluster_pairs]. unfold bind at 1.
    rewrite lswitch_cluster_pair_run, Hc.
    destruct e; try done. by destruct (He net_id0).
  - cbn [app lswitch_cluster_pairs]. unfold bind at 1.
    rewrite lswitch_cluster_pair_run.
    destruct (get_lswitches c' netw_id (nvp s)) as [results|e'].
    + unfold bind at 1. by rewrite IH.
    + destruct (Hc' e' eq_refl) as [id ->]. unfold bind at 1. by rewrite IH.
Qed.

(** X10: when every cluster answers [get_lswitches] with switches or with
    [NetworkNotFound], [_get_lswitch_cluster_pairs] returns one pair for
    each cluster that answered with switches, in the order of the
    clusters, made of the cluster and of the uuids of its switches in the
    order of the answer; a cluster that answers with an empty list has a
    pair too.  It raises [NetworkNotFound] exactly when there is no pair,
    and changes nothing but the log. *)
Theorem _get_lswitch_cluster_pairs_spec self netw_id tenant_id s :
  Forall (fun c => forall e, get_lswitches c netw_id (nvp s) = Raise e ->
                             exists id, e = NetworkNotFound id)
         (itervalues self) ->
  let pairs :=
    omap (fun c => match get_lswitches c netw_id (nvp s) with
                   | Ok results => Some (c, ls_uuid <$> results)
                   | Raise _ => None
                   end) (itervalues self) in
  _get_lswitch_cluster_pairs self netw_id tenant_id s
  = match pairs with
    | [] => (Raise (NetworkNotFound netw_id), s)
    | _ => (Ok pairs,
            add_log (LOG DEBUG "Returning pairs for network: %s" []) s)
    end.
Proof.
  intros Hans pairs. unfold _get_lswitch_cluster_pairs.
  rewrite (bind_Ok _ _ _ _ _ (lswitch_cluster_pairs_answered _ _ _ Hans)).
  fold pairs. by destruct pairs.
Qed.

(** X11: an error of [get_lswitches] other than [NetworkNotFound] is not
    caught: [_get_lswitch_cluster_pairs] fails with the error of the first
    cluster that raises one, whatever the clusters after it would answer,
    and leaves the state as it was. *)
Theorem _get_lswitch_cluster_pairs_error self netw_id tenant_id s answered c
    rest e :
  itervalues self = answered ++ c :: rest ->
  Forall (fun c => forall e, get_lswitches c netw_id (nvp s) = Raise e ->
                             exists id, e = NetworkNotFound id) answered ->
  get_lswitches c netw_id (nvp s) = Raise e ->
  (forall id, e <> NetworkNotFound id) ->
  _get_lswitch_cluster_pairs self netw_id tenant_id s = (Raise e, s).
Proof.
  intros Hcs Hans Hc He. unfold _get_lswitch_cluster_pairs. rewrite Hcs.
  by rewrite (bind_Raise _ _ _ _ _
                (lswitch_cluster_pairs_error _ _ _ _ _ _ Hans Hc He)).
Qed.

Lemma delete_network_Raise ctx id d e d' :
  Store.delete_network ctx id d = (Raise e, d') -> d' = d.
Proof.
  unfold Store.delete_network. destruct (Store.find_network id d).
  - destruct (nonempty _); by intros [= <- <-].
  - by intros [= <- <-].
Qed.

(** X12: [delete_network] deletes the local record first.  When the local
    deletion fails, for a network that is unknown or has ports, the call
    fails with its error and nothing is asked of the backend.  When it
    succeeds and the backend then refuses to delete the switches of the
    first cluster, the call fails with the error of the backend and the
    local record stays deleted: the failure is not rolled back. *)
Theorem delete_network_local_first self ctx id s :
  (forall e d', Store.delete_network ctx id (db s) = (Raise e, d') ->
                delete_network self ctx id s = (Raise e, s))
  /\
  (forall d' c rest results e n',
     Store.delete_network ctx id (db s) = (Ok tt, d') ->
     itervalues self = c :: rest ->
     get_lswitches c id (nvp s) = Ok results ->
     Forall (fun c => forall e, get_lswitches c id (nvp s) = Raise e ->
                                exists id', e = NetworkNotFound id') rest ->
     delete_networks c id (ls_uuid <$> results) (nvp s) = (Raise e, n') ->
     fst (delete_network self ctx id s) = Raise e /\
     db (snd (delete_network self ctx id s)) = d' /\
     nvp (snd (delete_network self ctx id s)) = n' /\
     Store.find_network id d' = None).
Proof.
  split.
  - intros e d' Hdel. pose proof (delete_network_Raise _ _ _ _ _ Hdel) as ->.
    unfold delete_network.
    assert (db_call (Store.delete_network ctx id) s = (Raise e, s)) as H.
    { unfold db_call. rewrite Hdel. by destruct s. }
    by rewrite (bind_Raise _ _ _ _ _ H).
  - intros d' c rest results e n' Hdel Hcs Hc Hrest Hbe.
    unfold delete_network.
    assert (db_call (Store.delete_network ctx id) s = (Ok tt, set_db d' s))
      as H by (unfold db_call; by rewrite Hdel).
    rewrite (bind_Ok _ _ _ _ _ H).
    assert (Hans : Forall (fun c => forall e,
                             get_lswitches c id (nvp (set_db d' s)) = Raise e ->
                             exists id', e = NetworkNotFound id')
                          (itervalues self)).
    { rewrite Hcs. constructor; [|done]. simpl. intros e'. by rewrite Hc. }
    assert (exists pairs s2,
               _get_lswitch_cluster_pairs self id (ctx_tenant_id ctx)
                 (set_db d' s)
               = (Ok ((c, ls_uuid <$> results) :: pairs), s2) /\
               db s2 = d' /\ nvp s2 = nvp s) as (pairs & s2 & Hp & Hdb2 & Hnvp2).
    { unfold _get_lswitch_cluster_pairs.
      rewrite (bind_Ok _ _ _ _ _ (lswitch_cluster_pairs_answered _ _ _ Hans)).
      rewrite Hcs. cbn [omap list_omap nvp set_db]. rewrite Hc.
      cbn. by eexists _, _. }
    rewrite (bind_Ok _ _ _ _ _ Hp).
    assert (Hfor : for_each ((c, ls_uuid <$> results) :: pairs)
                     (fun '(cluster, switches) =>
                        nvp_call (delete_networks cluster id switches)) s2
                   = (Raise e, set_nvp n' s2)).
    { cbn [for_each]. apply bind_Raise. unfold nvp_call.
      by rewrite Hnvp2, Hbe. }
    rewrite (bind_Raise _ _ _ _ _ Hfor). cbn [fst snd db nvp set_nvp].
    repeat split; [done|]. by eapply delete_network_removes.
Qed.

End PairsProperties.

(** ** NvpPluginV2.get_networks: what the listing carries *)

Section ListingProperties.

Context {NVP : Type} {nvplib : NvpLib NVP} {gen : Generators}.
Implicit Types (s : State NVP) (self : Plugin) (ctx : Context).

Lemma take_lswitch_elem_of id l found rest :
  take_lswitch id l = Some (found, rest) -> found ∈ l.
Proof.
  intros H. apply take_lswitch_Some in H as [_ Hp]. rewrite Hp. left.
Qed.

(** Each record of the cross-reference is the local record with the name
    and the status of a backend switch of its id. *)
Lemma cross_reference_projects q n nets unbound :
  cross_reference q n = Ok (nets, unbound) ->
  Forall2
    (fun quantum_lswitch net =>
       exists nvp_lswitch,
         nvp_lswitch ∈ n /\ ls_uuid nvp_lswitch = nd_id quantum_lswitch /\
         net = set_status_name
                 (if ls_fabric_status nvp_lswitch
                  then constants.NET_STATUS_ACTIVE
                  else constants.NET_STATUS_DOWN)
                 (ls_display_name nvp_lswitch) quantum_lswitch)
    q nets.
Proof.
  revert n nets unbound.
  induction q as [|net q IH]; simpl; intros n nets unbound.
  - intros [= <- <-]. constructor.
  - destruct (take_lswitch _ n) as [[found rest]|] eqn:Ht; [|done].
    destruct (cross_reference q rest) as [[nets' unbound']|e'] eqn:Hq; [|done].
    intros [= <- <-].
    pose proof (take_lswitch_Some _ _ _ _ Ht) as [Hid Hperm].
    constructor.
    + exists found. split; [by eapply take_lswitch_elem_of|]. done.
    + eapply Forall2_impl; [exact (IH _ _ _ Hq)|].
      intros local net' (ls & Hin & Hls & ->). exists ls.
      split; [|done]. rewrite Hperm. by right.
Qed.

(** What a successful [get_networks] without [fields] ran through. *)
Lemma get_networks_Ok_inv self ctx filters s nets s' :
  get_networks self ctx filters None s = (Ok (Records nets), s') ->
  exists q n unbound,
    fst (quantum_lswitches_of ctx filters s) = Ok q /\
    fst (nvp_lswitches_of self ctx filters s) = Ok n /\
    cross_reference q n = Ok (nets, unbound).
Proof.
  intros H.
  destruct (quantum_lswitches_of ctx filters s) as [[q|e] s1] eqn:Hq.
  2:{ unfold get_networks in H. by rewrite (bind_Raise _ _ _ _ _ Hq) in H. }
  destruct (nvp_lswitches_of self ctx filters s) as [[n|e] s2] eqn:Hn.
  2:{ unfold get_networks in H.
      assert (Hq' : fst (quantum_lswitches_of ctx filters s) = Ok q)
        by (by rewrite Hq).
      rewrite (bind_Ok _ _ _ _ _ (quantum_lswitches_of_run _ _ _ _ Hq')) in H.
      by rewrite (bind_Raise _ _ _ _ _ Hn) in H. }
  assert (Hq' : fst (quantum_lswitches_of ctx filters s) = Ok q)
    by (by rewrite Hq).
  assert (Hn' : fst (nvp_lswitches_of self ctx filters s) = Ok n)
    by (by rewrite Hn).
  rewrite (get_networks_run _ _ _ _ _ _ _ Hq' Hn') in H.
  destruct (cross_reference q n) as [[nets' unbound]|e] eqn:Hx; [|done].
  rewrite with_fields_None in H. injection H as <- _.
  by exists q, n, unbound.
Qed.

(** X13: each network that [get_networks] returns is a local record with
    the name and the status of a backend switch: a switch that the
    clusters listed and whose uuid is the id of the record gives its
    display name as name, and [ACTIVE] or [DOWN] as status after its
    fabric status; the name and the status of the local record are not
    returned, and its other attributes are as the local store has them. *)
Theorem get_networks_names_and_status self ctx filters s nets s' :
  get_networks self ctx filters None s = (Ok (Records nets), s') ->
  exists q n,
    fst (quantum_lswitches_of ctx filters s) = Ok q /\
    fst (nvp_lswitches_of self ctx filters s) = Ok n /\
    Forall2
      (fun quantum_lswitch net =>
         exists nvp_lswitch,
           nvp_lswitch ∈ n /\ ls_uuid nvp_lswitch = nd_id quantum_lswitch /\
           nd_name net = Some (ls_display_name nvp_lswitch) /\
           nd_status net = (if ls_fabric_status nvp_lswitch
                            then constants.NET_STATUS_ACTIVE
                            else constants.NET_STATUS_DOWN) /\
           nd_id net = nd_id quantum_lswitch /\
           nd_tenant_id net = nd_tenant_id quantum_lswitch /\
           nd_admin_state_up net = nd_admin_state_up quantum_lswitch /\
           nd_shared net = nd_shared quantum_lswitch /\
           nd_subnets net = nd_subnets quantum_lswitch /\
           nd_provider net = nd_provider quantum_lswitch /\
           nd_port_security net = nd_port_security quantum_lswitch)
      q nets.
Proof.
  intros H. apply get_networks_Ok_inv in H as (q & n & unbound & Hq & Hn & Hx).
  exists q, n. split; [done|]. split; [done|].
  eapply Forall2_impl; [exact (cross_reference_projects _ _ _ _ Hx)|].
  intros local net (ls & Hin & Hid & ->). exists ls. by repeat split.
Qed.

Lemma flat_map_singleton_if {A} (x : A) (u : string) (ids : list string) :
  NoDup ids ->
  List.flat_map (fun id => if String.eqb id u then [x] else []) ids
  = if bool_decide (u ∈ ids) then [x] else [].
Proof.
  induction 1 as [|id ids Hnotin Hnd IH]; [done|].
  cbn [List.flat_map]. rewrite IH.
  destruct (String.eqb_spec id u) as [->|Hne].
  - rewrite (bool_decide_eq_false_2 (u ∈ ids)) by done.
    by rewrite (bool_decide_eq_true_2 (u ∈ u :: ids)) by left.
  - destruct (decide (u ∈ ids)) as [Hin|Hnin].
    + rewrite (bool_decide_eq_true_2 (u ∈ ids)) by done.
      by rewrite (bool_decide_eq_true_2 (u ∈ id :: ids)) by (by right).
    + rewrite (bool_decide_eq_false_2 (u ∈ ids)) by done.
      rewrite (bool_decide_eq_false_2 (u ∈ id :: ids)); [done|].
      rewrite not_elem_of_cons. split; [congruence|done].
Qed.

(** X14: the filter of [get_networks] on the ids of the request keeps the
    backend switches whose uuid is one of the ids, in the order of the
    backend, each once, when the ids are distinct. *)
Theorem filter_by_ids_filter ids nvp_lswitches :
  NoDup ids ->
  filter_by_ids ids nvp_lswitches
  = List.filter (fun ls => bool_decide (ls_uuid ls ∈ ids)) nvp_lswitches.
Proof.
  intros Hnd. unfold filter_by_ids.
  induction nvp_lswitches as [|ls l IH]; [done|].
  cbn [List.flat_map List.filter]. rewrite IH, flat_map_singleton_if by done.
  by destruct (bool_decide (ls_uuid ls ∈ ids)).
Qed.

(** A loop whose body returns a function of the element and keeps the
    state. *)
Lemma map_each_pure {A B} (l : list A) (body : A -> M NVP B) (f : A -> B) s :
  (forall x, body x s = (Ok (f x), s)) ->
  map_each l body s = (Ok (f <$> l), s).
Proof.
  intros Hbody. induction l as [|x l IH]; [done|].
  cbn [map_each]. rewrite (bind_Ok _ _ _ _ _ (Hbody x)).
  by rewrite (bind_Ok _ _ _ _ _ IH).
Qed.

Lemma quantum_lswitches_of_no_view ctx filters s q :
  policy_check ctx provider_network_view = false ->
  fst (quantum_lswitches_of ctx filters s) = Ok q ->
  Forall (fun net => nd_provider net = None) q.
Proof.
  intros Hview. unfold quantum_lswitches_of, session_begin.
  unfold bind at 1, db_query.
  rewrite (map_each_pure _ _
             (fun net => Store._extend_network_port_security_dict net (db s))).
  - simpl. intros [= <-]. apply Forall_fmap, Forall_fmap.
    by apply Forall_true.
  - intros net. unfold _extend_network_dict_provider, _check_view_auth.
    rewrite Hview. done.
Qed.

(** X15: a caller whom the policy does not let view the provider
    attributes gets none from [get_networks]: no network of the listing
    carries a network type, a physical network or a segmentation id,
    whatever the bindings of the local store. *)
Theorem get_networks_hides_provider_attributes self ctx filters s nets s' :
  policy_check ctx provider_network_view = false ->
  get_networks self ctx filters None s = (Ok (Records nets), s') ->
  Forall (fun net =>
            nd_provider net = None /\
            netdict_items net !! pnet.NETWORK_TYPE = None /\
            netdict_items net !! pnet.PHYSICAL_NETWORK = None /\
            netdict_items net !! pnet.SEGMENTATION_ID = None) nets.
Proof.
  intros Hview H.
  apply get_networks_Ok_inv in H as (q & n & unbound & Hq & Hn & Hx).
  pose proof (quantum_lswitches_of_no_view ctx filters s q Hview Hq) as Hnone.
  apply cross_reference_projects in Hx. clear Hq Hn. revert Hnone.
  induction Hx as [|local net q' nets' (ls & _ & _ & ->) _ IH];
    intros Hnone; [constructor|].
  apply Forall_cons in Hnone as [Hp Hnone].
  constructor; [|by apply IH].
  unfold netdict_items. cbn [nd_provider set_status_name nd_port_security].
  rewrite Hp. split; [done|].
  by destruct (nd_port_security local).
Qed.

End ListingProperties.

(** ** NvpPluginV2.get_ports: the join of the local ports and the backend *)

Section PortListingProperties.

Context {NVP : Type} {nvplib : NvpLib NVP} {gen : Generators}.
Implicit Types (s : State NVP) (self : Plugin) (ctx : Context).

Lemma omap_ext_elem_of {A B} (f g : A -> option B) (l : list A) :
  (forall x, x ∈ l -> f x = g x) -> omap f l = omap g l.
Proof.
  intros H. apply list_omap_ext, Forall2_same_length_lookup.
  split; [done|]. intros i x y Hx Hy. rewrite Hx in Hy. injection Hy as <-.
  apply H. by eapply list_elem_of_lookup_2.
Qed.

(** X16: the loop of [get_ports] over local ports of distinct ids.  The
    ports that it returns are the local ports that have a backend port
    under their id, in the order of the local store, each with the name,
    the administrative state and the status ([ACTIVE] or [DOWN], after the
    fabric status) of its backend port; a local port without a backend
    port is left out and has one debug record.  The backend ports that are
    left are those under no id of a local port.  The local store and the
    backend are as before. *)
Theorem project_ports_spec quantum_lports nvp_lports s :
  NoDup (pd_id <$> quantum_lports) ->
  exists rest,
    project_ports quantum_lports nvp_lports s
    = (Ok (omap (fun quantum_lport =>
                   (fun nvp_lport => project_port nvp_lport quantum_lport)
                     <$> nvp_lports !! pd_id quantum_lport)
                quantum_lports, rest),
       {| db := db s; nvp := nvp s;
          log :=
            log s
              ++ omap (fun quantum_lport =>
                         match nvp_lports !! pd_id quantum_lport with
                         | Some _ => None
                         | None =>
                             Some (LOG DEBUG
                                     "Quantum logical port %s was not found on NVP"
                                     [pd_id quantum_lport])
                         end) quantum_lports;
          novazone_cluster_map := novazone_cluster_map s |}) /\
    forall k,
      rest !! k = if bool_decide (k ∈ pd_id <$> quantum_lports) then None
                  else nvp_lports !! k.
Proof.
  revert nvp_lports s.
  induction quantum_lports as [|q l IH]; intros m s Hnd.
  - exists m. split; [|done]. cbn. rewrite app_nil_r. by destruct s.
  - rewrite fmap_cons in Hnd. apply NoDup_cons in Hnd as [Hnotin Hnd].
    assert (Hother : forall x, x ∈ l -> pd_id x <> pd_id q).
    { intros x Hx Heq. apply Hnotin. rewrite <- Heq.
      by apply list_elem_of_fmap_2. }
    cbn [project_ports omap list_omap].
    destruct (m !! pd_id q) as [p|] eqn:Hq.
    + destruct (IH (delete (pd_id q) m) s Hnd) as (rest & Hrun & Hrest).
      exists rest. split.
      * rewrite (bind_Ok _ _ _ _ _ Hrun). cbn [option_fmap option_map fmap].
        unfold ret. cbn [fst snd]. f_equal; [f_equal; f_equal|].
        -- f_equal. apply omap_ext_elem_of. intros x Hx.
           by rewrite lookup_delete_ne by (by apply not_eq_sym, Hother).
        -- f_equal. f_equal. apply omap_ext_elem_of. intros x Hx.
           by rewrite lookup_delete_ne by (by apply not_eq_sym, Hother).
      * intros k. rewrite Hrest, fmap_cons.
        destruct (decide (k = pd_id q)) as [->|Hk].
        -- rewrite (bool_decide_eq_false_2 (pd_id q ∈ pd_id <$> l)) by done.
           rewrite (bool_decide_eq_true_2 (pd_id q ∈ pd_id q :: _)) by left.
           apply lookup_delete_eq.
        -- rewrite lookup_delete_ne by done.
           destruct (decide (k ∈ pd_id <$> l)) as [Hin|Hnin].
           ++ rewrite (bool_decide_eq_true_2 (k ∈ pd_id <$> l)) by done.
              by rewrite (bool_decide_eq_true_2 (k ∈ pd_id q :: _))
                by (by right).
           ++ rewrite (bool_decide_eq_false_2 (k ∈ pd_id <$> l)) by done.
              rewrite (bool_decide_eq_false_2 (k ∈ pd_id q :: _)); [done|].
              rewrite not_elem_of_cons. done.
    + destruct (IH m (add_log (LOG DEBUG
                                   "Quantum logical port %s was not found on NVP"
                                   [pd_id q]) s) Hnd)
        as (rest & Hrun & Hrest).
      exists rest. split.
      * unfold bind at 1. cbn [LOG_]. rewrite Hrun.
        cbn [add_log db nvp log novazone_cluster_map].
        by rewrite <- app_assoc.
      * intros k. rewrite Hrest, fmap_cons.
        destruct (decide (k = pd_id q)) as [->|Hk].
        -- rewrite (bool_decide_eq_false_2 (pd_id q ∈ pd_id <$> l)) by done.
           by rewrite (bool_decide_eq_true_2 (pd_id q ∈ pd_id q :: _)) by left.
        -- destruct (decide (k ∈ pd_id <$> l)) as [Hin|Hnin].
           ++ rewrite (bool_decide_eq_true_2 (k ∈ pd_id <$> l)) by done.
              by rewrite (bool_decide_eq_true_2 (k ∈ pd_id q :: _))
                by (by right).
           ++ rewrite (bool_decide_eq_false_2 (k ∈ pd_id <$> l)) by done.
              rewrite (bool_decide_eq_false_2 (k ∈ pd_id q :: _)); [done|].
              rewrite not_elem_of_cons. done.
Qed.

(** The tags of one port, entered in the dictionary. *)
Lemma index_tags_lookup (port : LPort) (tags : list Tag)
    (m : gmap string LPort) k p :
  foldl (fun m t => if String.eqb (scope t) "q_port_id"
                    then <[tag t := port]> m else m) m tags !! k = Some p ->
  m !! k = Some p \/
  (p = port /\ exists t, t ∈ tags /\ scope t = "q_port_id" /\ tag t = k).
Proof.
  revert m. induction tags as [|t tags IH]; intros m; cbn [foldl]; [by left|].
  intros H. apply IH in H as [H|(-> & t' & Hin & Hsc & Hk)].
  - destruct (String.eqb_spec (scope t) "q_port_id") as [Hsc|Hsc]; [|by left].
    destruct (decide (tag t = k)) as [<-|Hne].
    + rewrite lookup_insert_eq in H. injection H as <-.
      right. split; [done|]. exists t. split; [left|]. done.
    + rewrite lookup_insert_ne in H by done. by left.
  - right. split; [done|]. exists t'. split; [by right|]. done.
Qed.

Lemma index_tags_is_Some (port : LPort) (tags : list Tag)
    (m : gmap string LPort) k :
  is_Some (m !! k) \/
  (exists t, t ∈ tags /\ scope t = "q_port_id" /\ tag t = k) ->
  is_Some (foldl (fun m t => if String.eqb (scope t) "q_port_id"
                             then <[tag t := port]> m else m) m tags !! k).
Proof.
  revert m. induction tags as [|t tags IH]; intros m; cbn [foldl].
  - intros [H|(t & Hin & _)]; [done|]. by apply elem_of_nil in Hin.
  - intros H. apply IH.
    destruct (String.eqb_spec (scope t) "q_port_id") as [Hsc|Hsc].
    + destruct (decide (tag t = k)) as [<-|Hne].
      * left. rewrite lookup_insert_eq. by eexists.
      * destruct H as [H|(t' & Hin & Hsc' & Hk)].
        -- left. by rewrite lookup_insert_ne.
        -- apply elem_of_cons in Hin as [->|Hin]; [done|].
           right. by exists t'.
    + destruct H as [H|(t' & Hin & Hsc' & Hk)]; [by left|].
      apply elem_of_cons in Hin as [->|Hin]; [done|].
      right. by exists t'.
Qed.

Lemma index_ports_lookup ports (m : gmap string LPort) k p :
  index_ports m ports !! k = Some p ->
  m !! k = Some p \/
  (p ∈ ports /\
   exists t, t ∈ lp_tags p /\ scope t = "q_port_id" /\ tag t = k).
Proof.
  unfold index_ports. revert m.
  induction ports as [|port ports IH]; intros m; cbn [foldl]; [by left|].
  intros H. apply IH in H as [H|(Hin & Ht)].
  - apply index_tags_lookup in H as [H|(-> & Ht)]; [by left|].
    right. split; [left|done].
  - right. split; [by right|done].
Qed.

Lemma index_ports_is_Some ports (m : gmap string LPort) k :
  is_Some (m !! k) \/
  (exists p t, p ∈ ports /\ t ∈ lp_tags p /\ scope t = "q_port_id"
               /\ tag t = k) ->
  is_Some (index_ports m ports !! k).
Proof.
  unfold index_ports. revert m.
  induction ports as [|port ports IH]; intros m; cbn [foldl].
  - intros [H|(p & t & Hin & _)]; [done|]. by apply elem_of_nil in Hin.
  - intros H. apply IH.
    destruct H as [H|(p & t & Hin & Ht & Hsc & Hk)].
    + left. apply index_tags_is_Some. by left.
    + apply elem_of_cons in Hin as [->|Hin].
      * left. apply index_tags_is_Some. right. by exists t.
      * right. by exists p, t.
Qed.

(** X17: the dictionary that [get_ports] makes of the backend ports is
    keyed by their tags of scope [q_port_id]: a key has an entry exactly
    when a backend port carries it in such a tag, the entry is a port that
    carries it, and a port without a tag of that scope has no entry. *)
Theorem index_ports_join_key ports k :
  (is_Some (index_ports ∅ ports !! k) <->
   exists p t, p ∈ ports /\ t ∈ lp_tags p /\ scope t = "q_port_id"
               /\ tag t = k) /\
  (forall p, index_ports ∅ ports !! k = Some p ->
     p ∈ ports /\
     exists t, t ∈ lp_tags p /\ scope t = "q_port_id" /\ tag t = k).
Proof.
  assert (Hl : forall p, index_ports ∅ ports !! k = Some p ->
     p ∈ ports /\
     exists t, t ∈ lp_tags p /\ scope t = "q_port_id" /\ tag t = k).
  { intros p H. apply index_ports_lookup in H as [H|H]; [|done].
    by rewrite lookup_empty in H. }
  split; [|done]. split.
  - intros [p Hp]. destruct (Hl p Hp) as (Hin & t & Ht). by exists p, t.
  - intros H. apply index_ports_is_Some. by right.
Qed.

Lemma map_each_query_raises {A B} (l : list A) (q : A -> NVP -> result B)
    x s :
  x ∈ l -> (exists e, q x (nvp s) = Raise e) ->
  exists e, fst (map_each l (fun c => nvp_query (q c)) s) = Raise e.
Proof.
  intros Hin [e He]. induction l as [|y l IH]; [by apply elem_of_nil in Hin|].
  cbn [map_each]. unfold bind at 1, nvp_query at 1.
  destruct (q y (nvp s)) as [b|e'] eqn:Hy; [|by exists e'].
  apply elem_of_cons in Hin as [->|Hin]; [congruence|].
  destruct (IH Hin) as [e'' IH'].
  destruct (map_each l _ s) as [[bs|e3] s1] eqn:Hm; [done|].
  rewrite (bind_Raise _ _ _ _ _ Hm). by exists e3.
Qed.

(** X18: when one cluster does not answer the query of its logical ports,
    [get_ports] returns no partial listing: it fails with
    [NvpPluginException], whatever the other clusters answer and whatever
    the error of the cluster, leaves one record of the exception in the
    log, and changes nothing else. *)
Theorem get_ports_backend_failure self ctx filters fields s c :
  c ∈ itervalues self ->
  (forall path, exists e, get_all_query_pages_lport path c (nvp s) = Raise e) ->
  get_ports self ctx (Some filters) fields s
  = (Raise (NvpPluginException "Unable to get ports"),
     add_log (LOG EXCEPTION "Unable to get ports" []) s).
Proof.
  intros Hin Hc. unfold get_ports.
  destruct (quantum_lports_of ctx (Some filters) s) as [[q|e] s1] eqn:Hq.
  2:{ exfalso. revert Hq. unfold quantum_lports_of, session_begin.
      unfold bind at 1, db_query.
      rewrite (map_each_pure _ _
                 (fun p => Store._extend_port_port_security_dict p (db s)));
        done. }
  pose proof (query_only_quantum_lports_of ctx (Some filters) s) as Hs.
  rewrite Hq in Hs. simpl in Hs. subst s1.
  rewrite (bind_Ok _ _ _ _ _ Hq).
  apply bind_Raise. unfold nvp_lports_of, get.
  unfold bind at 1, ret at 1. unfold bind at 1, ret at 1.
  unfold bind at 1, ret at 1. cbv zeta.
  rewrite try_except_query.
  - match goal with
    | |- context [map_each _ (fun c => nvp_query (?q c))] =>
        destruct (map_each_query_raises (itervalues self) q c s Hin (Hc _))
          as [e He]
    end.
    destruct (map_each _ _ s) as [[pages|e'] s1] eqn:Hm; [done|].
    by rewrite (bind_Raise _ _ _ _ _ Hm).
  - apply query_only_bind; [|intros; apply query_only_ret].
    apply query_only_map_each. intros; apply query_only_nvp_query.
Qed.

(** ** The fields of a listing *)

Lemma select_fields_lookup record fields row0 row :
  select_fields record fields row0 = Ok row ->
  forall k, row !! k = if bool_decide (k ∈ fields) then record !! k
                       else row0 !! k.
Proof.
  revert row0. induction fields as [|f fields IH]; intros row0; cbn.
  - by intros [= <-].
  - destruct (record !! f) as [v|] eqn:Hf; [|done].
    intros H k. rewrite (IH _ H k).
    destruct (decide (k ∈ fields)) as [Hin|Hnin].
    + rewrite (bool_decide_eq_true_2 (k ∈ fields)) by done.
      by rewrite (bool_decide_eq_true_2 (k ∈ f :: fields)) by (by right).
    + rewrite (bool_decide_eq_false_2 (k ∈ fields)) by done.
      destruct (decide (k = f)) as [->|Hne].
      * rewrite (bool_decide_eq_true_2 (f ∈ f :: fields)) by left.
        by rewrite lookup_insert_eq.
      * rewrite (bool_decide_eq_false_2 (k ∈ f :: fields))
          by (rewrite not_elem_of_cons; done).
        by rewrite lookup_insert_ne.
Qed.

Lemma select_fields_Raise record fields row0 e :
  select_fields record fields row0 = Raise e ->
  exists f, f ∈ fields /\ record !! f = None /\ e = KeyError f.
Proof.
  revert row0. induction fields as [|f fields IH]; intros row0; cbn; [done|].
  destruct (record !! f) as [v|] eqn:Hf.
  - intros H. apply IH in H as (f' & Hin & Hnone & ->).
    exists f'. split; [by right|done].
  - intros [= <-]. exists f. split; [left|done].
Qed.

Lemma select_rows_spec records fields :
  match select_rows records fields with
  | Ok rows =>
      Forall2 (fun record row =>
                 forall k, row !! k = if bool_decide (k ∈ fields)
                                      then record !! k else None)
              records rows
  | Raise e =>
      exists record f,
        record ∈ records /\ f ∈ fields /\ record !! f = None /\ e = KeyError f
  end.
Proof.
  induction records as [|r records IH]; cbn; [constructor|].
  destruct (select_fields r fields ∅) as [row|e] eqn:Hr.
  - destruct (select_rows records fields) as [rows|e].
    + constructor; [|done]. intros k.
      rewrite (select_fields_lookup _ _ _ _ Hr k). by rewrite lookup_empty.
    + destruct IH as (record & f & Hin & H). exists record, f.
      split; [by right|done].
  - apply select_fields_Raise in Hr as (f & Hin & Hnone & ->).
    exists r, f. split; [left|done].
Qed.

(** X19: the end of [get_networks] and [get_ports].  Without fields, and
    with an empty list of fields, the records are returned whole.  With
    fields, a record becomes a row that holds the fields asked for, with
    the values of the record, and nothing else; when a record lacks one of
    the fields the call fails with [KeyError] on that field.  The state is
    not changed. *)
Theorem with_fields_spec {A} (items : A -> gmap string pyval) fields
    (records : list A) s :
  snd (with_fields items fields records s) = s /\
  match fields with
  | None | Some [] =>
      fst (with_fields items fields records s) = Ok (Records records)
  | Some fs =>
      match fst (with_fields items fields records s) with
      | Ok (Rows rows) =>
          Forall2 (fun record row =>
                     forall k, row !! k = if bool_decide (k ∈ fs)
                                          then items record !! k else None)
                  records rows
      | Ok (Records _) => False
      | Raise e =>
          exists record f,
            record ∈ records /\ f ∈ fs /\ items record !! f = None /\
            e = KeyError f
      end
  end.
Proof.
  split; [apply with_fields_state|].
  destruct fields as [[|f fs]|]; [done| |done].
  unfold with_fields. cbn [default from_option id].
  unfold bind, lift.
  pose proof (select_rows_spec (items <$> records) (f :: fs)) as H.
  destruct (select_rows _ _) as [rows|e]; cbn [fst ret].
  - by apply Forall2_fmap_l in H.
  - destruct H as (record & f' & Hin & Hf & Hnone & ->).
    apply list_elem_of_fmap in Hin as (r & -> & Hin). by exists r, f'.
Qed.

End PortListingProperties.

(** ** NvpPluginV2.create_port and the choice of a switch *)

Section PortCreationProperties.

Context {NVP : Type} {nvplib : NvpLib NVP} {gen : Generators}.
Implicit Types (s : State NVP) (self : Plugin) (ctx : Context).

(** [_handle_lswitch_selection] does not touch the local store. *)
Lemma _handle_lswitch_selection_db cluster network network_binding max_ports
    allow_extra_lswitches s :
  db (snd (_handle_lswitch_selection cluster network network_binding max_ports
             allow_extra_lswitches s)) = db s.
Proof.
  destruct (get_lswitches cluster (net_id network) (nvp s))
    as [lswitches|e] eqn:Hget.
  - rewrite (_handle_lswitch_selection_run _ _ _ _ _ _ _ Hget).
    destruct (with_free_ports max_ports lswitches); [|done]. cbv zeta.
    destruct allow_extra_lswitches; [|done].
    destruct (List.filter _ lswitches) as [|main mains]; [done|].
    destruct (if has_scope _ _ then _ else _) as [[[]|e] n1]; [|done].
    destruct network_binding as [b|]; [|done].
    by destruct (create_lswitch _ _ _ _ _ _ _ _).
  - unfold _handle_lswitch_selection. unfold bind at 1, nvp_query.
    by rewrite Hget.
Qed.

Lemma select_lswitch_db self port pl s :
  db (snd (select_lswitch self port pl s)) = db s.
Proof.
  unfold select_lswitch.
  pose proof (readonly__find_target_cluster self (pb_nova_id port) s)
    as [Hdb _].
  unfold bind at 1.
  destruct (_find_target_cluster self (pb_nova_id port) s) as [[c|e] s0];
    [|done].
  simpl in Hdb. unfold bind at 1.
  pose proof (_handle_lswitch_selection_db c (pl_network pl)
                (pl_network_binding pl) (pl_max_ports pl)
                (pl_allow_extra_lswitches pl) s0) as Hsel.
  destruct (_handle_lswitch_selection _ _ _ _ _ s0) as [[ls|e] s1];
    simpl in *; congruence.
Qed.

(** X20: [create_port] once a switch is chosen and the backend has created
    the port on it.  When the attachment is plugged, the call returns the
    port of the local transaction with its port-security flag, the local
    store is the one in which the transaction has created the port, and the
    backend is the one after the plug.  When the backend refuses to plug
    the attachment, the call fails with [NvpPluginException]
    ([NvpNoMorePortsException] is raised as it is), the local store is
    rolled back to what it was before the call, and the backend stays as it
    is after the failure: the port that it has created is not removed. *)
Theorem create_port_after_selection self ctx port s pl s1 cluster
    selected_lswitch s2 lport n3 :
  (if is_attr_set (pb_port_security port)
   then policy_check ctx port_security_enabled_create else true) = true ->
  create_port_in_db self ctx port s = (Ok pl, s1) ->
  select_lswitch self port pl s1 = (Ok (cluster, selected_lswitch), s2) ->
  create_lport cluster (ls_uuid selected_lswitch)
    (pd_tenant_id (pl_port_data pl)) (pd_id (pl_port_data pl))
    (pd_name (pl_port_data pl)) (pd_device_id (pl_port_data pl))
    (pd_admin_state_up (pl_port_data pl)) (pd_mac_address (pl_port_data pl))
    (pd_fixed_ips (pl_port_data pl)) (Some (pl_port_security pl)) (nvp s2)
  = (Ok lport, n3) ->
  let run := create_port self ctx port s in
  match plug_interface cluster (ls_uuid selected_lswitch) (lp_uuid lport)
          "VifAttachment" (pd_id (pl_port_data pl)) n3 with
  | (Ok _, n4) =>
      fst run
      = Ok (Store._extend_port_port_security_dict (pl_port_data pl) (db s1))
      /\ db (snd run) = db s1 /\ nvp (snd run) = n4
  | (Raise e, n4) =>
      fst run
      = Raise match e with
              | NvpNoMorePortsException _ => e
              | _ =>
                  NvpPluginException
                    ("An exception occured while plugging the interface"
                       +:+ " in NVP for port " +:+ pd_id (pl_port_data pl))
              end
      /\ db (snd run) = db s /\ nvp (snd run) = n4
  end.
Proof.
  intros Hauth Hdb Hsel Hcreate run. subst run.
  pose proof (select_lswitch_db self port pl s1) as Hdb2.
  rewrite Hsel in Hdb2. simpl in Hdb2.
  unfold create_port.
  assert ((if is_attr_set (pb_port_security port)
           then _enforce_set_auth ctx port_security_enabled_create
           else ret tt) s = (Ok tt, s)) as Ha.
  { unfold _enforce_set_auth. destruct (is_attr_set _); [|done].
    by rewrite Hauth. }
  rewrite (bind_Ok _ _ _ _ _ Ha).
  destruct (plug_interface _ _ _ _ _ n3) as [[[]|e] n4] eqn:Hplug.
  - assert (Hnvp : create_port_on_nvp self port pl s1
                   = (Ok tt, set_nvp n4 (set_nvp n3 s2))).
    { unfold create_port_on_nvp, try_except.
      rewrite (bind_Ok _ _ _ _ _ Hsel).
      unfold bind at 1, nvp_call at 1. rewrite Hcreate.
      unfold nvp_call. cbn [nvp set_nvp]. by rewrite Hplug. }
    erewrite session_begin_Ok.
    2:{ rewrite (bind_Ok _ _ _ _ _ Hdb), (bind_Ok _ _ _ _ _ Hnvp).
        unfold bind at 1. cbn [LOG_].
        unfold _extend_port_port_security_dict, db_query. reflexivity. }
    cbn [fst snd db nvp add_log set_nvp]. by rewrite Hdb2.
  - assert (Hnvp : exists s3,
               create_port_on_nvp self port pl s1
               = (Raise match e with
                        | NvpNoMorePortsException _ => e
                        | _ =>
                            NvpPluginException
                              ("An exception occured while plugging the interface"
                                 +:+ " in NVP for port "
                                 +:+ pd_id (pl_port_data pl))
                        end, s3) /\
               nvp s3 = n4).
    { unfold create_port_on_nvp, try_except.
      rewrite (bind_Ok _ _ _ _ _ Hsel).
      unfold bind at 1, nvp_call at 1. rewrite Hcreate.
      unfold nvp_call. cbn [nvp set_nvp]. rewrite Hplug.
      destruct e; eexists; split; reflexivity. }
    destruct Hnvp as (s3 & Hnvp & Hn4).
    erewrite session_begin_Raise.
    2:{ rewrite (bind_Ok _ _ _ _ _ Hdb). apply bind_Raise. exact Hnvp. }
    cbn [fst snd db nvp set_db]. done.
Qed.

Lemma create_port_tenant ctx ctx' port d :
  ctx_tenant_id ctx = ctx_tenant_id ctx' ->
  Store.create_port ctx port d = Store.create_port ctx' port d.
Proof.
  intros H. unfold Store.create_port, Store._get_tenant_id_for_create.
  by rewrite H.
Qed.

(** X21: [create_port] consults the policy on port security only when the
    request sets the flag.  For a caller whom the policy refuses, a request
    that sets [port_security_enabled] fails with the error of the policy
    before anything is done, and a request that leaves it unset runs as it
    does for any other caller of the same tenant. *)
Theorem create_port_policy_gate self ctx port s :
  policy_check ctx port_security_enabled_create = false ->
  if is_attr_set (pb_port_security port)
  then create_port self ctx port s
       = (Raise (PolicyNotAuthorized port_security_enabled_create), s)
  else forall ctx', ctx_tenant_id ctx' = ctx_tenant_id ctx ->
                    create_port self ctx port s = create_port self ctx' port s.
Proof.
  intros Hpol. unfold create_port.
  destruct (is_attr_set (pb_port_security port)).
  - apply bind_Raise. unfold _enforce_set_auth. by rewrite Hpol.
  - intros ctx' Ht.
    assert (Hdb : create_port_in_db self ctx port s
                  = create_port_in_db self ctx' port s).
    { unfold create_port_in_db, bind, db_call.
      by rewrite (create_port_tenant ctx' ctx port (db s) Ht). }
    unfold bind at 1 3, ret at 1 2. unfold session_begin.
    unfold bind at 1 4. by rewrite Hdb.
Qed.

(** X22: [_handle_lswitch_selection] when every listed switch is full and
    extra switches are allowed.  When none of the listed switches has the
    id of the network as uuid, and so also when the list is empty, it fails
    with [IndexError] and asks nothing of the backend.  When the primary
    switch is there and the network has no provider binding, it fails with
    [AttributeError], after it has tagged the primary switch if the
    backend let it. *)
Theorem _handle_lswitch_selection_edges cluster network network_binding
    max_ports s lswitches :
  get_lswitches cluster (net_id network) (nvp s) = Ok lswitches ->
  Forall (full max_ports) lswitches ->
  let run :=
    _handle_lswitch_selection cluster network network_binding max_ports true
      s in
  (Forall (fun ls => ls_uuid ls <> net_id network) lswitches ->
   fst run = Raise (IndexError "list index out of range") /\
   nvp (snd run) = nvp s)
  /\
  (forall main n1,
     first_such (fun ls => String.eqb (ls_uuid ls) (net_id network))
       lswitches main ->
     network_binding = None ->
     (if has_scope "multi_lswitch" (ls_tags main) then (Ok tt, nvp s)
      else update_lswitch cluster (ls_uuid main) (ls_display_name main)
             (net_tenant_id network)
             [{| scope := "multi_lswitch"; tag := "True" |}] (nvp s))
     = (Ok tt, n1) ->
     fst run
     = Raise (AttributeError
                "'NoneType' object has no attribute 'binding_type'") /\
     nvp (snd run) = n1).
Proof.
  intros Hget Hfull run. subst run.
  rewrite (_handle_lswitch_selection_run _ _ _ _ _ _ _ Hget).
  apply with_free_ports_nil in Hfull. rewrite Hfull. cbv zeta. split.
  - intros Hnone.
    assert (List.filter (fun ls => String.eqb (ls_uuid ls) (net_id network))
                        lswitches = []) as ->; [|done].
    clear Hget Hfull. induction Hnone as [|ls l Hls _ IH]; [done|].
    cbn [List.filter]. apply String.eqb_neq in Hls. by rewrite Hls.
  - intros main n1 Hmain -> Htag.
    destruct (first_such_filter _ _ _ Hmain) as [mains ->].
    by rewrite Htag.
Qed.

End PortCreationProperties.

(** ** NvpPluginV2: one network, one port *)

Section SingleProperties.

Context {NVP : Type} {lib : NvpLib NVP} {ports_lib : nvplib.Ports NVP}.
Implicit Types (s : State NVP) (self : Plugin) (ctx : Context).

Lemma py_bind_Returns {A B} (m : PyM NVP A) (k : A -> PyM NVP B) s a s' :
  m s = (Returns a, s') -> py_bind m k s = k a s'.
Proof. intros H. unfold py_bind. by rewrite H. Qed.

Lemma py_bind_Fails {A B} (m : PyM NVP A) (k : A -> PyM NVP B) s e s' :
  m s = (Fails e, s') -> py_bind m k s = (Fails e, s').
Proof. intros H. unfold py_bind. by rewrite H. Qed.

Lemma run_Ok {A} (m : M NVP A) s a s' :
  m s = (Ok a, s') -> run m s = (Returns a, s').
Proof. intros H. unfold run. by rewrite H. Qed.

Lemma run_Raise {A} (m : M NVP A) s e s' :
  m s = (Raise e, s') -> run m s = (Fails (Exn e), s').
Proof. intros H. unfold run. by rewrite H. Qed.

Lemma fabric_status_of_forallb lswitches :
  fabric_status_of lswitches
  = if forallb ls_fabric_status lswitches then constants.NET_STATUS_ACTIVE
    else constants.NET_STATUS_DOWN.
Proof.
  induction lswitches as [|ls l IH]; [done|]. cbn [fabric_status_of forallb].
  by destruct (ls_fabric_status ls).
Qed.

(** The first block of [get_network] on a network of the local store. *)
Lemma get_network_record_run ctx id s network :
  Store.find_network id (db s) = Some network ->
  exists net,
    @get_network_record NVP ctx id s = (Ok net, s) /\
    nd_id net = net_id network /\ nd_name net = net_name network /\
    nd_tenant_id net = net_tenant_id network /\
    nd_admin_state_up net = net_admin_state_up network /\
    nd_shared net = net_shared network /\
    nd_subnets net = net_subnets network /\
    nd_port_security net
    = Store._get_network_security_binding (net_id network) (db s) /\
    (policy_check ctx provider_network_view = false -> nd_provider net = None).
Proof.
  intros Hfind. unfold get_network_record, session_begin.
  unfold bind at 1, db_query at 1, Store._get_network. rewrite Hfind.
  unfold _extend_network_dict_provider, _check_view_auth.
  destruct (policy_check ctx provider_network_view).
  - unfold bind at 1. unfold bind at 1, db_query at 1.
    destruct (Store.get_network_binding _ (db s)) as [b|];
      cbn; eexists; (split; [reflexivity|]); by repeat split.
  - cbn. eexists. split; [reflexivity|]. by repeat split.
Qed.

(** X23: [get_network] on a network of the local store whose switches the
    default cluster lists.  The status that it returns is [ACTIVE] when
    every listed switch has a fabric status that is true, and so also when
    the list is empty, and [DOWN] as soon as one has not; the status of the
    local record is not returned.  The other attributes are those of the
    local record of the network.  Only the default cluster is asked, and
    nothing is changed. *)
Theorem get_network_status self ctx id s network lswitches :
  Store.find_network id (db s) = Some network ->
  get_lswitches (default_cluster self) id (nvp s) = Ok lswitches ->
  exists net,
    fst (get_network_record ctx id s) = Ok net /\
    nd_id net = net_id network /\ nd_name net = net_name network /\
    nd_tenant_id net = net_tenant_id network /\
    get_network self ctx id None s
    = (Ok (netdict_items
             (set_status
                (if forallb ls_fabric_status lswitches
                 then constants.NET_STATUS_ACTIVE
                 else constants.NET_STATUS_DOWN) net)), s).
Proof.
  intros Hfind Hget.
  destruct (get_network_record_run ctx id s network Hfind)
    as (net & Hrec & Hid & Hname & Htenant & _).
  exists net. rewrite Hrec. repeat split; try done.
  unfold get_network. rewrite (bind_Ok _ _ _ _ _ Hrec).
  unfold bind at 1, try_except, _find_target_cluster.
  unfold bind at 1, ret at 1. unfold bind at 1, nvp_query at 1.
  rewrite Hget. cbn [ret]. by rewrite fabric_status_of_forallb.
Qed.

(** X24: the failures of [get_network].  A network that the local store
    does not have is [NetworkNotFound], and the backend is not asked.  For
    a network of the local store, every error of the default cluster on
    the query of its switches, [NetworkNotFound] among them, becomes
    [NvpPluginException], with one record of the exception in the log: no
    status is returned from the local record instead. *)
Theorem get_network_failures self ctx id fields s :
  (Store.find_network id (db s) = None ->
   get_network self ctx id fields s = (Raise (NetworkNotFound id), s))
  /\
  (forall network e,
     Store.find_network id (db s) = Some network ->
     get_lswitches (default_cluster self) id (nvp s) = Raise e ->
     get_network self ctx id fields s
     = (Raise (NvpPluginException "Unable to get lswitches"),
        add_log (LOG EXCEPTION "Unable to get lswitches" []) s)).
Proof.
  split.
  - intros Hfind. unfold get_network. apply bind_Raise.
    unfold get_network_record, session_begin.
    unfold bind at 1, db_query at 1, Store._get_network. rewrite Hfind.
    by destruct s.
  - intros network e Hfind Hget.
    destruct (get_network_record_run ctx id s network Hfind)
      as (net & Hrec & _).
    unfold get_network. rewrite (bind_Ok _ _ _ _ _ Hrec).
    apply bind_Raise.
    unfold try_except, _find_target_cluster.
    unfold bind at 1, ret at 1. unfold bind at 1, nvp_query at 1.
    by rewrite Hget.
Qed.

(** X25: [delete_port] on a port that the backend does not have fails with
    [PortNotFound] and changes nothing: the record of the port in the local
    store, if there is one, stays. *)
Theorem delete_port_not_on_backend self ctx id s :
  nvplib.get_port_by_quantum_tag (itervalues self) "*" id (nvp s) = Ok None ->
  delete_port self ctx id s = (Raise (PortNotFound id), s).
Proof.
  intros Hfound. unfold delete_port.
  unfold bind at 1, nvp_query at 1. by rewrite Hfound.
Qed.

Lemma delete_port_removes ctx id d d' :
  QuantumDbPluginV2.delete_port ctx id d = (Ok tt, d') ->
  Store.find_port id d' = None.
Proof.
  unfold QuantumDbPluginV2.delete_port.
  destruct (Store.find_port id d); [|done]. intros [= <-].
  unfold Store.find_port. cbn [ports].
  induction (ports d) as [|q l IH]; [done|]. cbn [List.filter].
  destruct (String.eqb (port_id q) id) eqn:Hq; cbn [negb]; [done|].
  cbn [List.find]. by rewrite Hq.
Qed.

Lemma delete_port_Raise ctx id d e d' :
  QuantumDbPluginV2.delete_port ctx id d = (Raise e, d') -> d' = d.
Proof.
  unfold QuantumDbPluginV2.delete_port.
  destruct (Store.find_port id d); [done|]. by intros [= <- <-].
Qed.

(** [delete_port], step by step. *)
Lemma delete_port_run self ctx id s :
  delete_port self ctx id s
  = match nvplib.get_port_by_quantum_tag (itervalues self) "*" id (nvp s) with
    | Raise e => (Raise e, s)
    | Ok None => (Raise (PortNotFound id), s)
    | Ok (Some (port, cluster)) =>
        match nvplib.delete_port cluster port (nvp s) with
        | (Raise e, n') => (Raise e, set_nvp n' s)
        | (Ok _, n') =>
            let s1 :=
              add_log (LOG DEBUG "delete_port() completed for tenant: %s"
                           [ctx_tenant_id ctx]) (set_nvp n' s) in
            let '(r, d') := QuantumDbPluginV2.delete_port ctx id (db s) in
            (r, set_db d' s1)
        end
    end.
Proof.
  unfold delete_port, bind, nvp_query, nvp_call, LOG_, db_call.
  destruct (nvplib.get_port_by_quantum_tag _ "*" id (nvp s))
    as [[[port cluster]|]|e0]; [|done..].
  by destruct (nvplib.delete_port cluster port (nvp s)) as [[[]|e1] n1].
Qed.

(** X26: [delete_port] deletes the port on the backend first.  The local
    store changes only in a call that succeeds, after the backend has
    deleted the port, and then the record of the port is gone; in every
    call that fails the local store is as before.  When the backend has
    deleted the port and the local store has no record of it, the call
    fails with [PortNotFound] and the port stays deleted on the backend. *)
Theorem delete_port_backend_first self ctx id s :
  let run := delete_port self ctx id s in
  (forall e, fst run = Raise e -> db (snd run) = db s)
  /\
  (fst run = Ok tt ->
   exists port cluster,
     nvplib.get_port_by_quantum_tag (itervalues self) "*" id (nvp s)
     = Ok (Some (port, cluster)) /\
     nvplib.delete_port cluster port (nvp s) = (Ok tt, nvp (snd run)) /\
     Store.find_port id (db (snd run)) = None)
  /\
  (forall port cluster n',
     nvplib.get_port_by_quantum_tag (itervalues self) "*" id (nvp s)
     = Ok (Some (port, cluster)) ->
     nvplib.delete_port cluster port (nvp s) = (Ok tt, n') ->
     Store.find_port id (db s) = None ->
     fst run = Raise (PortNotFound id) /\ nvp (snd run) = n').
Proof.
  intros run. subst run. rewrite delete_port_run.
  destruct (nvplib.get_port_by_quantum_tag _ "*" id (nvp s))
    as [[[port cluster]|]|e0] eqn:Hfound.
  2,3: by (split; [|split]).
  destruct (nvplib.delete_port cluster port (nvp s)) as [[[]|e1] n1] eqn:Hdel.
  2:{ split; [done|]. split; [done|].
      intros port' cluster' n' [= <- <-] H. by rewrite Hdel in H. }
  cbv zeta.
  destruct (QuantumDbPluginV2.delete_port ctx id (db s)) as [[[]|e2] d'] eqn:Hl.
  - split; [done|]. split.
    + intros _. exists port, cluster. cbn.
      split; [done|]. split; [done|]. by eapply delete_port_removes.
    + intros port' cluster' n' [= <- <-] H Hnone.
      unfold QuantumDbPluginV2.delete_port in Hl. by rewrite Hnone in Hl.
  - apply delete_port_Raise in Hl as Hd. subst d'.
    split; [done|]. split; [done|].
    intros port' cluster' n' [= <- <-] H Hnone. rewrite Hdel in H.
    injection H as <-. cbn.
    unfold QuantumDbPluginV2.delete_port in Hl. rewrite Hnone in Hl.
    by injection Hl as <-.
Qed.

(** [get_port], step by step. *)
Lemma get_port_run self ctx id fields s :
  get_port self ctx id fields s
  = match QuantumDbPluginV2.get_port ctx id fields (db s) with
    | Raise e => (Fails (Exn e), s)
    | Ok quantum_db =>
        match nvplib.get_port_by_quantum_tag (itervalues self) "*" id (nvp s)
        with
        | Raise e => (Fails (Exn e), s)
        | Ok None => (Fails TypeError, s)
        | Ok (Some (port, cluster)) =>
            (Returns
               (<["status" :=
                    PyStr (if lp_fabric_status_up port
                           then constants.PORT_STATUS_ACTIVE
                           else constants.PORT_STATUS_DOWN)]>
                  (<["admin_state_up" :=
                       PyBool (lp_admin_status_enabled port)]> quantum_db)),
             add_log
               (LOG DEBUG
                    "Port details for tenant %(tenant_id)s: %(quantum_db)s"
                    [ctx_tenant_id ctx]) s)
        end
    end.
Proof.
  unfold get_port, py_bind, run, db_query, nvp_query, LOG_, py_ret, py_fail.
  destruct (QuantumDbPluginV2.get_port ctx id fields (db s)); [|done].
  by destruct (nvplib.get_port_by_quantum_tag _ "*" id (nvp s))
    as [[[port cluster]|]|e0].
Qed.

(** X27: [get_port] on a port of the local store.  When the backend has a
    port of its tag, the administrative state and the status of the
    dictionary that is returned are those of the backend port, also when
    [fields] does not ask for them, and every other key is as the local
    store gives it for the fields asked for.  When the backend has no port
    of the tag the call does not fail with [PortNotFound] but with
    [TypeError].  Nothing is changed but the log. *)
Theorem get_port_spec self ctx id fields s quantum_db :
  QuantumDbPluginV2.get_port ctx id fields (db s) = Ok quantum_db ->
  let run := get_port self ctx id fields s in
  db (snd run) = db s /\ nvp (snd run) = nvp s /\
  match nvplib.get_port_by_quantum_tag (itervalues self) "*" id (nvp s) with
  | Ok (Some (port, cluster)) =>
      exists r,
        fst run = Returns r /\
        r !! "admin_state_up" = Some (PyBool (lp_admin_status_enabled port)) /\
        r !! "status"
        = Some (PyStr (if lp_fabric_status_up port
                       then constants.PORT_STATUS_ACTIVE
                       else constants.PORT_STATUS_DOWN)) /\
        forall k, k <> "admin_state_up" -> k <> "status" ->
                  r !! k = quantum_db !! k
  | Ok None => fst run = Fails TypeError
  | Raise e => fst run = Fails (Exn e)
  end.
Proof.
  intros Hlocal run. subst run. rewrite get_port_run, Hlocal.
  destruct (nvplib.get_port_by_quantum_tag _ "*" id (nvp s))
    as [[[port cluster]|]|e0]; [|done..].
  cbn [fst snd db nvp add_log].
  split; [done|]. split; [done|]. eexists. split; [reflexivity|].
  split; [|split].
  - by rewrite lookup_insert_ne, lookup_insert_eq.
  - by rewrite lookup_insert_eq.
  - intros k H1 H2. by rewrite !lookup_insert_ne.
Qed.

(** The handler of the last [try] of [update_port] catches everything. *)
Lemma py_try_except_total {A} (m : PyM NVP A) lvl msg args (a : A) s :
  exists r s',
    py_try_except m (run (LOG_ lvl msg args);;~ py_ret a) s = (Returns r, s') /\
    (db s' = db (snd (m s)) /\ nvp s' = nvp (snd (m s))).
Proof.
  unfold py_try_except. destruct (m s) as [[r|e] s1]; cbn; eauto.
Qed.

Lemma update_port_transaction_Fails self ctx id port tenant_id s e s' :
  update_port_transaction self ctx id port tenant_id s = (Fails e, s') ->
  db s' = db s.
Proof.
  unfold update_port_transaction, py_session_begin.
  destruct (py_bind _ _ s) as [[a|e1] s1]; [done|]. by intros [= _ <-].
Qed.

(** X28: [update_port] enforces the policy on port security for every
    request, whatever it updates, and a call that fails leaves the local
    store as it was: the update of the local record is rolled back when the
    port is not found on the backend or the backend refuses the update. *)
Theorem update_port_failures self ctx id port s :
  let run := update_port self ctx id port s in
  (policy_check ctx port_security_enabled_update = false ->
   run = (Fails (Exn (PolicyNotAuthorized port_security_enabled_update)), s))
  /\
  (forall e, fst run = Fails e -> db (snd run) = db s).
Proof.
  intros run. subst run. unfold update_port. split.
  - intros Hpol. apply py_bind_Fails, run_Raise.
    unfold _enforce_set_auth. by rewrite Hpol.
  - intros e.
    destruct (policy_check ctx port_security_enabled_update) eqn:Hpol.
    2:{ erewrite py_bind_Fails; [done|]. apply run_Raise.
        unfold _enforce_set_auth. by rewrite Hpol. }
    assert (Ha : run (_enforce_set_auth ctx port_security_enabled_update) s
                 = (Returns tt, s)).
    { apply run_Ok. unfold _enforce_set_auth. by rewrite Hpol. }
    rewrite (py_bind_Returns _ _ _ _ _ Ha).
    destruct (update_port_transaction self ctx id port
                (Store._get_tenant_id_for_create ctx Absent) s)
      as [[[[ret_port port_nvp] cluster]|e1] s1] eqn:Htx.
    + rewrite (py_bind_Returns _ _ _ _ _ Htx).
      match goal with
      | |- context [py_try_except ?m (run (LOG_ ?lvl ?msg ?args);;~ py_ret ?a) s1] =>
          destruct (py_try_except_total m lvl msg args a s1)
            as (r & s' & -> & _)
      end.
      done.
    + rewrite (py_bind_Fails _ _ _ _ _ Htx). intros _. cbn [snd].
      by eapply update_port_transaction_Fails.
Qed.

(** The transaction of [update_port] when the backend has no port of the
    tag. *)
Lemma update_port_transaction_not_on_backend self ctx id port tenant_id s
    ret_port d' :
  QuantumDbPluginV2.update_port ctx id port (db s) = (Ok ret_port, d') ->
  nvplib.get_port_by_quantum_tag (itervalues self) (pd_network_id ret_port) id
    (nvp s) = Ok None ->
  exists s',
    update_port_transaction self ctx id port tenant_id s = (Fails TypeError, s')
    /\ db s' = db s /\ nvp s' = nvp s.
Proof.
  intros Hlocal Hfound.
  unfold update_port_transaction, py_session_begin.
  unfold py_bind at 1, run at 1, db_call at 1. rewrite Hlocal.
  destruct (pu_port_security port) as [value|].
  - unfold py_bind at 1. unfold py_bind at 1, run at 1, db_call at 1.
    unfold PortSecurityDbMixin._update_port_security_binding. cbn [py_ret].
    unfold py_bind at 1, run at 1, nvp_query at 1.
    cbn [nvp set_db dict_update pd_network_id]. rewrite Hfound.
    cbn. by eexists.
  - unfold py_bind at 1. unfold py_bind at 1, run at 1, db_query at 1.
    cbn [py_ret].
    unfold py_bind at 1, run at 1, nvp_query at 1.
    cbn [nvp set_db dict_update pd_network_id set_port_security]. rewrite Hfound.
    cbn. by eexists.
Qed.

(** X29: [update_port] on a port of the local store that the backend does
    not have: the call fails with [TypeError], not with [PortNotFound], and
    the update of the local record is rolled back. *)
Theorem update_port_not_on_backend self ctx id port s ret_port d' :
  policy_check ctx port_security_enabled_update = true ->
  QuantumDbPluginV2.update_port ctx id port (db s) = (Ok ret_port, d') ->
  nvplib.get_port_by_quantum_tag (itervalues self) (pd_network_id ret_port) id
    (nvp s) = Ok None ->
  fst (update_port self ctx id port s) = Fails TypeError /\
  db (snd (update_port self ctx id port s)) = db s /\
  nvp (snd (update_port self ctx id port s)) = nvp s.
Proof.
  intros Hpol Hlocal Hfound. unfold update_port.
  assert (Ha : run (_enforce_set_auth ctx port_security_enabled_update) s
               = (Returns tt, s)).
  { apply run_Ok. unfold _enforce_set_auth. by rewrite Hpol. }
  rewrite (py_bind_Returns _ _ _ _ _ Ha).
  destruct (update_port_transaction_not_on_backend self ctx id port
              (Store._get_tenant_id_for_create ctx Absent) s ret_port d'
              Hlocal Hfound) as (s' & Htx & Hdb & Hnvp).
  by rewrite (py_bind_Fails _ _ _ _ _ Htx).
Qed.

(** X30: the status that [update_port] returns is fetched from the backend
    after the transaction, and a failure to fetch it does not fail the
    update.  Once the transaction has returned, the call returns its port
    with the status of the backend, or, when the backend does not answer,
    the port as the transaction left it, with one warning in the log; the
    local store and the backend are those of the transaction. *)
Theorem update_port_status_best_effort self ctx id port s ret_port port_nvp
    cluster s1 :
  policy_check ctx port_security_enabled_update = true ->
  update_port_transaction self ctx id port
    (Store._get_tenant_id_for_create ctx Absent) s
  = (Returns (ret_port, port_nvp, cluster), s1) ->
  update_port self ctx id port s
  = match nvplib.get_port_status cluster (pd_network_id ret_port)
            (lp_uuid port_nvp) (nvp s1) with
    | Ok status => (Returns (set_port_status (Some status) ret_port), s1)
    | Raise _ =>
        (Returns ret_port,
         add_log (LOG WARNING "Unable to retrieve port status for: %s."
                      [lp_uuid port_nvp]) s1)
    end.
Proof.
  intros Hpol Htx. unfold update_port.
  assert (Ha : run (_enforce_set_auth ctx port_security_enabled_update) s
               = (Returns tt, s)).
  { apply run_Ok. unfold _enforce_set_auth. by rewrite Hpol. }
  rewrite (py_bind_Returns _ _ _ _ _ Ha).
  rewrite (py_bind_Returns _ _ _ _ _ Htx).
  unfold py_try_except, py_bind at 1, run at 1, nvp_query.
  by destruct (nvplib.get_port_status _ _ _ (nvp s1)).
Qed.

End SingleProperties.

(** * The further properties on the small deployment *)

Section MoreRuns.

Import Demo.
Import DemoPorts.

(** X1 on the cluster [c1]: a second controller. *)
Lemma add_controller_appends_witness :
  exists c',
    nvp_cluster.add_controller c1 "10.0.0.2" (PyStr "443") "admin" "secret"
      (PyInt 30) (PyInt 10) (PyBool true) (PyStr "2") "tz-1" None (Some "z9")
    = Returns c' /\
    NVPCluster.name c' = "c1" /\
    exists ctl,
      controllers c' = [controller "z1"; ctl] /\
      NVPCluster.get_controller c' 1 = Ok ctl /\
      ctl_ip ctl = "10.0.0.2" /\ ctl_zone ctl = Some "z9".
Proof.
  destruct (nvp_cluster.add_controller c1 "10.0.0.2" (PyStr "443") "admin"
              "secret" (PyInt 30) (PyInt 10) (PyBool true) (PyStr "2") "tz-1"
              None (Some "z9")) as [c'|e] eqn:H;
    [|vm_compute in H; discriminate].
  exists c'. split; [reflexivity|].
  destruct (add_controller_appends _ _ _ _ _ _ _ _ _ _ _ _ _ H)
    as (Hname & ctl & Hctl & Hget & Hip & _ & _ & _ & _ & Hzone & _).
  split; [exact Hname|]. exists ctl. by repeat split.
Defined.

(** X2 on the cluster [c1]: its properties after a second controller. *)
Lemma add_controller_keeps_properties_witness :
  exists c',
    nvp_cluster.add_controller c1 "10.0.0.2" (PyStr "8443") "root" "other"
      (PyInt 1) (PyInt 1) (PyInt 1) (PyInt 1) "tz-2" (Some "u2") (Some "z9")
    = Returns c' /\
    NVPCluster.host c' = Ok "10.0.0.1" /\
    NVPCluster.port c' = Ok 443 /\
    NVPCluster.zone c' = Ok (Some "z1").
Proof.
  destruct (nvp_cluster.add_controller c1 "10.0.0.2" (PyStr "8443") "root"
              "other" (PyInt 1) (PyInt 1) (PyInt 1) (PyInt 1) "tz-2"
              (Some "u2") (Some "z9")) as [c'|e] eqn:H;
    [|vm_compute in H; discriminate].
  exists c'. split; [reflexivity|].
  assert (Hne : controllers c1 <> []) by discriminate.
  destruct (add_controller_keeps_properties _ _ _ _ _ _ _ _ _ _ _ _ _ Hne H)
    as (Hhost & Hport & _ & _ & _ & _ & _ & _ & _ & Hzone & _).
  split; [exact Hhost|]. split; [exact Hport|exact Hzone].
Defined.

(** X3 on a cluster [c3] with one controller. *)
Lemma fresh_cluster_properties_witness :
  exists c',
    nvp_cluster.add_controller (nvp_cluster.__init__ "c3") "10.0.0.3"
      (PyStr "443") "admin" "secret" (PyStr "30") (PyStr "10") (PyStr "2")
      (PyStr "2") "tz-1" None None
    = Returns c' /\
    NVPCluster.host (nvp_cluster.__init__ "c3")
    = Raise (IndexError "list index out of range") /\
    NVPCluster.host c' = Ok "10.0.0.3" /\
    NVPCluster.port c' = Ok 443.
Proof.
  destruct (nvp_cluster.add_controller (nvp_cluster.__init__ "c3") "10.0.0.3"
              (PyStr "443") "admin" "secret" (PyStr "30") (PyStr "10")
              (PyStr "2") (PyStr "2") "tz-1" None None) as [c'|e] eqn:H;
    [|vm_compute in H; discriminate].
  exists c'. split; [reflexivity|].
  destruct (fresh_cluster_properties _ _ _ _ _ _ _ _ _ _ _ _ _ H)
    as ((_ & Hfresh & _) & _ & Hhost & _ & _ & _ & _ & _ & Hport & _).
  split; [exact Hfresh|]. split; [exact Hhost|].
  apply Hport. reflexivity.
Defined.

(** X4 on a connection whose request timeout is not a number. *)
Lemma add_controller_fails_witness :
  nvp_cluster.add_controller c1 "10.0.0.2" (PyStr "443") "admin" "secret"
    (PyStr "30s") PyNone (PyStr "2") (PyStr "2") "tz-1" None None
  = Fails ValueError /\
  exists converted v rest,
    [PyStr "443"; PyStr "30s"; PyNone; PyStr "2"; PyStr "2"]
    = converted ++ v :: rest /\
    nvp_cluster.int v = Fails ValueError.
Proof.
  assert (H : nvp_cluster.add_controller c1 "10.0.0.2" (PyStr "443") "admin"
                "secret" (PyStr "30s") PyNone (PyStr "2") (PyStr "2") "tz-1"
                None None = Fails ValueError) by reflexivity.
  split; [exact H|].
  destruct (add_controller_fails _ _ _ _ _ _ _ _ _ _ _ _ _ H)
    as (_ & converted & v & rest & Heq & _ & Hv).
  by exists converted, v, rest.
Defined.

(** X5 on the two clusters, with the second configured as default. *)
Lemma init_default_cluster_spec_witness :
  init_default_cluster [("c1", c1); ("c2", c2)] (Some "c2") = (Ok c2, []).
Proof.
  destruct (init_default_cluster_spec [("c1", c1); ("c2", c2)] (Some "c2"))
    as [_ H].
  destruct H as (c & Hfst & _ & Hnamed & _); [discriminate|].
  destruct (Hnamed "c2" c2 eq_refl) as [-> Hlog]; [discriminate|reflexivity|].
  destruct (init_default_cluster _ _) as [r l]. simpl in *. by subst.
Defined.

(** X6: a gre network with a segmentation id. *)
Lemma create_network_segmentation_id_without_vlan_witness :
  create_network plugin admin (gre_body "N2" (Attr 5))
    (state Store.empty empty_backend)
  = (Raise (InvalidInput
              "Segmentation ID cannot be specified with flat network type"),
     state Store.empty empty_backend).
Proof.
  apply (create_network_segmentation_id_without_vlan plugin admin
           (gre_body "N2" (Attr 5)) (state Store.empty empty_backend) "gre");
    [reflexivity|reflexivity|left|reflexivity].
Defined.

(** X7: a gre network, valid, from a tenant who may not set the provider
    attributes. *)
Lemma provider_attributes_gate_witness :
  create_network plugin tenant (gre_body "N2" ATTR_NOT_SPECIFIED)
    (state Store.empty empty_backend)
  = (Raise (PolicyNotAuthorized provider_network_set),
     state Store.empty empty_backend) /\
  _handle_provider_create tenant (network_body "N2")
    (state Store.empty empty_backend)
  = (Ok tt, state Store.empty empty_backend).
Proof.
  split.
  - exact (provider_attributes_gate plugin tenant
             (gre_body "N2" ATTR_NOT_SPECIFIED)
             (state Store.empty empty_backend) eq_refl).
  - exact (provider_attributes_gate plugin tenant (network_body "N2")
             (state Store.empty empty_backend) eq_refl).
Defined.

(** X8: a physical network without a network type. *)
Lemma create_network_type_required_witness :
  create_network plugin admin (physnet_body "N2" "phys1")
    (state Store.empty empty_backend)
  = (Raise (InvalidInput "provider:network_type required"),
     state Store.empty empty_backend).
Proof.
  apply (create_network_type_required plugin admin (physnet_body "N2" "phys1")
           (state Store.empty empty_backend)); [reflexivity|reflexivity|].
  intros nt H. discriminate H.
Defined.

(** X9: a second vlan network beside [n1], bound to vlan 100. *)
Lemma create_network_keeps_vlan_ids_unique_witness :
  vlan_ids_unique (db (state n1_vlan_store empty_backend)) /\
  vlan_ids_unique
    (db (snd (create_network plugin admin (vlan_body "N2" "phys1" 200)
                (state n1_vlan_store empty_backend)))) /\
  length (network_bindings
            (db (snd (create_network plugin admin (vlan_body "N2" "phys1" 200)
                        (state n1_vlan_store empty_backend))))) = 2%nat.
Proof.
  assert (H : vlan_ids_unique (db (state n1_vlan_store empty_backend)))
    by apply NoDup_singleton.
  split; [exact H|]. split; [|reflexivity].
  exact (create_network_keeps_vlan_ids_unique plugin admin
           (vlan_body "N2" "phys1" 200) _ H).
Defined.

(** X10: the network [n1] on two clusters, of which the second has no
    switch for it. *)
Lemma _get_lswitch_cluster_pairs_spec_witness :
  _get_lswitch_cluster_pairs plugin2 "n1" "t1" drifted
  = (Ok [(c1, ["n1"])],
     add_log (LOG DEBUG "Returning pairs for network: %s" []) drifted).
Proof.
  rewrite (_get_lswitch_cluster_pairs_spec plugin2 "n1" "t1" drifted);
    [reflexivity|].
  repeat constructor.
  - intros e H. vm_compute in H. discriminate H.
  - intros e H. vm_compute in H. injection H as <-. by eexists.
Defined.

(** X11: the second cluster does not answer. *)
Lemma _get_lswitch_cluster_pairs_error_witness :
  _get_lswitch_cluster_pairs plugin2 "n1" "t1" c2_down
  = (Raise unreachable_error, c2_down).
Proof.
  apply (_get_lswitch_cluster_pairs_error plugin2 "n1" "t1" c2_down [c1] c2 []).
  - reflexivity.
  - repeat constructor. intros e H. vm_compute in H. discriminate H.
  - reflexivity.
  - intros id H. discriminate H.
Defined.

(** X12: the backend refuses to delete the switch of [n1]. *)
Lemma delete_network_local_first_witness :
  fst (@delete_network Backend keep_switches plugin admin "n1" drifted)
  = Raise (NvpApiException "forbidden") /\
  Store.find_network "n1"
    (db (snd (@delete_network Backend keep_switches plugin admin "n1" drifted)))
  = None /\
  Store.find_network "n1" (db drifted) = Some (network_row "n1" "N1") /\
  nvp (snd (@delete_network Backend keep_switches plugin admin "n1" drifted))
  = nvp drifted.
Proof.
  destruct (@delete_network_local_first Backend keep_switches plugin admin
              "n1" drifted) as [_ H].
  destruct (Store.delete_network admin "n1" (db drifted)) as [r d'] eqn:Hdel.
  assert (r = Ok tt) as ->.
  { vm_compute in Hdel. by injection Hdel as <- _. }
  destruct (H d' c1 [] [lswitch "n1" "N1" 0] (NvpApiException "forbidden")
              (nvp drifted) eq_refl eq_refl eq_refl (Forall_nil_2 _) eq_refl)
    as (Hfst & Hdb & Hnvp & Hnone).
  split; [exact Hfst|]. split; [by rewrite Hdb|].
  split; [reflexivity|exact Hnvp].
Defined.

(** X13: the switch of [n1] has another name and is down on the backend. *)
Lemma get_networks_names_and_status_witness :
  exists net s',
    get_networks plugin admin (Some ∅) None renamed = (Ok (Records [net]), s')
    /\ nd_id net = "n1" /\ nd_name net = Some "renamed"
    /\ nd_status net = "DOWN"
    /\ net_name <$> Store.find_network "n1" (db renamed) = Some (Some "N1").
Proof.
  destruct (get_networks plugin admin (Some ∅) None renamed) as [r s'] eqn:H.
  assert (exists net, r = Ok (Records [net])) as [net ->].
  { vm_compute in H. injection H as <- _. by eexists. }
  exists net, s'. split; [reflexivity|].
  destruct (get_networks_names_and_status _ _ _ _ _ _ H)
    as (q & n & Hq & Hn & Hall).
  vm_compute in Hq. injection Hq as <-.
  vm_compute in Hn. injection Hn as <-.
  apply Forall2_cons_1 in Hall as [(ls & Hin & _ & Hname & Hstatus & Hid & _) _].
  apply list_elem_of_singleton in Hin as ->.
  split; [exact Hid|]. split; [exact Hname|]. split; [exact Hstatus|].
  reflexivity.
Defined.

(** X14: two ids of the filter among three switches. *)
Lemma filter_by_ids_filter_witness :
  filter_by_ids ["n1"; "x2"]
    [lswitch "n1" "N1" 0; lswitch "x1" "X1" 0; lswitch "x2" "X2" 0]
  = [lswitch "n1" "N1" 0; lswitch "x2" "X2" 0].
Proof.
  rewrite (filter_by_ids_filter ["n1"; "x2"]); [reflexivity|].
  apply NoDup_cons. split; [|apply NoDup_singleton].
  intros H. apply list_elem_of_singleton in H. discriminate H.
Defined.

(** X15: the bridged network [n1], listed for a tenant who may not view
    the provider attributes. *)
Lemma get_networks_hides_provider_attributes_witness :
  exists net s',
    get_networks plugin tenant (Some ∅) None bridged_free
    = (Ok (Records [net]), s') /\
    nd_provider net = None /\
    Store.get_network_binding "n1" (db bridged_free) = Some n1_binding.
Proof.
  destruct (get_networks plugin tenant (Some ∅) None bridged_free)
    as [r s'] eqn:H.
  assert (exists net, r = Ok (Records [net])) as [net ->].
  { vm_compute in H. injection H as <- _. by eexists. }
  exists net, s'. split; [reflexivity|].
  pose proof (get_networks_hides_provider_attributes plugin tenant (Some ∅)
                bridged_free [net] s' eq_refl H) as Hall.
  apply Forall_cons in Hall as [(Hp & _) _].
  split; [exact Hp|reflexivity].
Defined.

(** X16: two local ports, of which the backend has the first. *)
Lemma project_ports_spec_witness :
  exists projected rest s',
    project_ports
      [Store._make_port_dict (port_row "p1" "n1");
       Store._make_port_dict (port_row "p2" "n1")]
      (index_ports ∅ [lport "lp1" "p1" false; lport "lp9" "p9" true])
      with_port
    = (Ok ([projected], rest), s') /\
    pd_id projected = "p1" /\ pd_status projected = Some "DOWN" /\
    rest !! "p1" = None /\ rest !! "p9" = Some (lport "lp9" "p9" true).
Proof.
  assert (Hnd : NoDup (pd_id <$> [Store._make_port_dict (port_row "p1" "n1");
                                  Store._make_port_dict (port_row "p2" "n1")])).
  { apply NoDup_cons. split; [|apply NoDup_singleton].
    intros H. apply list_elem_of_singleton in H. discriminate H. }
  destruct (project_ports_spec _
              (index_ports ∅ [lport "lp1" "p1" false; lport "lp9" "p9" true])
              with_port Hnd) as (rest & Hrun & Hrest).
  eexists _, rest, _. split; [exact Hrun|].
  split; [reflexivity|]. split; [reflexivity|].
  split; [exact (Hrest "p1")|exact (Hrest "p9")].
Defined.

(** X18: the only cluster does not answer. *)
Lemma get_ports_backend_failure_witness :
  get_ports plugin admin (Some ∅) None (state p1_store down_backend)
  = (Raise (NvpPluginException "Unable to get ports"),
     add_log (LOG EXCEPTION "Unable to get ports" [])
             (state p1_store down_backend)).
Proof.
  apply (get_ports_backend_failure plugin admin ∅ None
           (state p1_store down_backend) c1); [left|].
  intros path. by eexists.
Defined.

(** X21: a port without [port_security_enabled], from a tenant whom the
    policy refuses. *)
Lemma create_port_policy_gate_witness :
  create_port plugin tenant (port_body "n1") overlay_full
  = create_port plugin admin (port_body "n1") overlay_full.
Proof.
  exact (create_port_policy_gate plugin tenant (port_body "n1") overlay_full
           eq_refl admin eq_refl).
Defined.

(** X22: the bridged network [n1], full, asked for without its binding. *)
Lemma _handle_lswitch_selection_edges_witness :
  fst (_handle_lswitch_selection c1 (network_row "n1" "N1") None 2 true
         bridged_full)
  = Raise (AttributeError "'NoneType' object has no attribute 'binding_type'")
  /\
  has_scope "multi_lswitch"
    (ls_tags (lswitch "n1" "N1" 2)) = false /\
  (has_scope "multi_lswitch" <$>
     (ls_tags <$>
        on_cluster c1
          (be_lswitches
             (nvp (snd (_handle_lswitch_selection c1 (network_row "n1" "N1")
                          None 2 true bridged_full))))))
  = [true].
Proof.
  assert (Hfull : Forall (full 2) [lswitch "n1" "N1" 2]).
  { repeat constructor. unfold full. simpl. lia. }
  assert (Hget : get_lswitches c1 (net_id (network_row "n1" "N1"))
                   (nvp bridged_full) = Ok [lswitch "n1" "N1" 2])
    by reflexivity.
  destruct (_handle_lswitch_selection_edges c1 (network_row "n1" "N1") None 2
              bridged_full [lswitch "n1" "N1" 2] Hget Hfull) as [_ H].
  destruct (update_lswitch c1 "n1" "N1" "t1"
              [{| scope := "multi_lswitch"; tag := "True" |}]
              (nvp bridged_full)) as [r n1] eqn:Hup.
  assert (r = Ok tt) as ->.
  { vm_compute in Hup. by injection Hup as <- _. }
  destruct (H (lswitch "n1" "N1" 2) n1) as [Hfst Hnvp].
  - exists [], []. split; [reflexivity|]. split; [constructor|reflexivity].
  - reflexivity.
  - exact Hup.
  - split; [exact Hfst|]. split; [reflexivity|]. rewrite Hnvp.
    vm_compute in Hup. injection Hup as <-. reflexivity.
Defined.

(** X23: the network [n1] with two switches, of which one is down. *)
Lemma get_network_status_witness :
  exists net,
    fst (get_network_record admin "n1" n1_degraded) = Ok net /\
    get_network plugin admin "n1" None n1_degraded
    = (Ok (netdict_items (set_status "DOWN" net)), n1_degraded) /\
    nd_status net = "ACTIVE".
Proof.
  assert (Hget : get_lswitches (default_cluster plugin) "n1" (nvp n1_degraded)
                 = Ok [lswitch "n1" "N1" 2;
                       {| ls_uuid := "n1-ext"; ls_display_name := "N1-ext-1";
                          ls_tags :=
                            [{| scope := "quantum_net_id"; tag := "n1" |}];
                          ls_fabric_status := false; ls_lport_count := 0 |}])
    by reflexivity.
  destruct (get_network_status plugin admin "n1" n1_degraded
              (network_row "n1" "N1") _ eq_refl Hget)
    as (net & Hrec & _ & _ & _ & Hrun).
  exists net. split; [exact Hrec|]. split; [exact Hrun|].
  vm_compute in Hrec. by injection Hrec as <-.
Defined.

(** X24: the network [n1] without a switch on the backend. *)
Lemma get_network_failures_witness :
  get_network plugin admin "n1" None local_only
  = (Raise (NvpPluginException "Unable to get lswitches"),
     add_log (LOG EXCEPTION "Unable to get lswitches" []) local_only) /\
  get_network plugin admin "n2" None local_only
  = (Raise (NetworkNotFound "n2"), local_only).
Proof.
  destruct (get_network_failures plugin admin "n1" None local_only) as [_ H1].
  destruct (get_network_failures plugin admin "n2" None local_only) as [H2 _].
  split.
  - assert (Hget : get_lswitches (default_cluster plugin) "n1"
                     (nvp local_only) = Raise (NetworkNotFound "n1"))
      by reflexivity.
    exact (H1 (network_row "n1" "N1") (NetworkNotFound "n1") eq_refl Hget).
  - exact (H2 eq_refl).
Defined.

(** X25: the port [p1] is known locally and not to the backend. *)
Lemma delete_port_not_on_backend_witness :
  delete_port plugin admin "p1" port_local_only
  = (Raise (PortNotFound "p1"), port_local_only) /\
  Store.find_port "p1" (db port_local_only) = Some (port_row "p1" "n1").
Proof.
  split; [|reflexivity].
  assert (Hf : nvplib.get_port_by_quantum_tag (itervalues plugin) "*" "p1"
                 (nvp port_local_only) = Ok None)
    by reflexivity.
  exact (delete_port_not_on_backend plugin admin "p1" port_local_only Hf).
Defined.

(** X26: the port [p1], on both sides. *)
Lemma delete_port_backend_first_witness :
  fst (delete_port plugin admin "p1" with_port) = Ok tt /\
  Store.find_port "p1" (db (snd (delete_port plugin admin "p1" with_port)))
  = None /\
  be_lports (nvp (snd (delete_port plugin admin "p1" with_port))) = [].
Proof.
  destruct (delete_port_backend_first plugin admin "p1" with_port)
    as (_ & H & _).
  destruct (H eq_refl) as (port & cluster & _ & _ & Hnone).
  split; [reflexivity|]. split; [exact Hnone|reflexivity].
Defined.

(** X27: the port [p1], asked for with its id only. *)
Lemma get_port_spec_witness :
  exists r,
    fst (get_port plugin admin "p1" (Some ["id"]) with_port) = Returns r /\
    r !! "status" = Some (PyStr "DOWN") /\
    r !! "admin_state_up" = Some (PyBool true) /\
    r !! "id" = Some (PyStr "p1") /\
    r !! "name" = None /\
    fst (get_port plugin admin "p1" None port_local_only) = Fails TypeError.
Proof.
  destruct (QuantumDbPluginV2.get_port admin "p1" (Some ["id"]) (db with_port))
    as [quantum_db|e] eqn:Hlocal; [|vm_compute in Hlocal; discriminate].
  destruct (get_port_spec plugin admin "p1" (Some ["id"]) with_port quantum_db
              Hlocal) as (_ & _ & H).
  assert (Hf : nvplib.get_port_by_quantum_tag (itervalues plugin) "*" "p1"
                 (nvp with_port) = Ok (Some (lport "lp1" "p1" false, c1)))
    by reflexivity.
  rewrite Hf in H. destruct H as (r & Hr & Hadmin & Hstatus & Hother).
  destruct (QuantumDbPluginV2.get_port admin "p1" None (db port_local_only))
    as [quantum_db'|e] eqn:Hlocal'; [|vm_compute in Hlocal'; discriminate].
  destruct (get_port_spec plugin admin "p1" None port_local_only quantum_db'
              Hlocal') as (_ & _ & H').
  assert (Hf' : nvplib.get_port_by_quantum_tag (itervalues plugin) "*" "p1"
                  (nvp port_local_only) = Ok None)
    by reflexivity.
  rewrite Hf' in H'.
  exists r. split; [exact Hr|]. split; [exact Hstatus|].
  split; [exact Hadmin|].
  vm_compute in Hlocal. injection Hlocal as <-.
  split; [by rewrite Hother|]. split; [by rewrite Hother|exact H'].
Defined.

(** X28: a tenant whom the policy refuses renames the port [p1]. *)
Lemma update_port_failures_witness :
  update_port plugin tenant "p1" (rename "new") with_port
  = (Fails (Exn (PolicyNotAuthorized port_security_enabled_update)), with_port).
Proof.
  destruct (update_port_failures plugin tenant "p1" (rename "new") with_port)
    as [H _].
  exact (H eq_refl).
Defined.

(** X29: the port [p1] is renamed, and the backend does not have it. *)
Lemma update_port_not_on_backend_witness :
  fst (update_port plugin admin "p1" (rename "new") port_local_only)
  = Fails TypeError /\
  db (snd (update_port plugin admin "p1" (rename "new") port_local_only))
  = db port_local_only /\
  port_name <$> Store.find_port "p1" (db port_local_only) = Some "p1".
Proof.
  destruct (QuantumDbPluginV2.update_port admin "p1" (rename "new")
              (db port_local_only)) as [r d'] eqn:Hlocal.
  assert (exists ret_port, r = Ok ret_port /\ pd_network_id ret_port = "n1")
    as (ret_port & -> & Hnet).
  { vm_compute in Hlocal. injection Hlocal as <- _. by eexists. }
  assert (Hfound : nvplib.get_port_by_quantum_tag (itervalues plugin)
                     (pd_network_id ret_port) "p1" (nvp port_local_only)
                   = Ok None).
  { rewrite Hnet. reflexivity. }
  destruct (update_port_not_on_backend plugin admin "p1" (rename "new")
              port_local_only ret_port d' eq_refl Hlocal Hfound)
    as (Hfst & Hdb & _).
  split; [exact Hfst|]. split; [exact Hdb|reflexivity].
Defined.

(** X30: the port [p1] is renamed on a backend whose status query times
    out. *)
Lemma update_port_status_best_effort_witness :
  exists ret_port s',
    @update_port Backend no_status_ports plugin admin "p1" (rename "new")
      with_port = (Returns ret_port, s') /\
    pd_name ret_port = "new" /\
    port_name <$> Store.find_port "p1" (db s') = Some "new" /\
    log_level_of <$> last (log s') = Some WARNING.
Proof.
  destruct (@update_port_transaction Backend no_status_ports plugin admin "p1"
              (rename "new") (Store._get_tenant_id_for_create admin Absent)
              with_port) as [r s1] eqn:Htx.
  assert (exists ret_port port_nvp cluster,
             r = Returns (ret_port, port_nvp, cluster))
    as (ret_port & port_nvp & cluster & ->).
  { vm_compute in Htx. injection Htx as <- _. by eexists _, _, _. }
  pose proof (@update_port_status_best_effort Backend no_status_ports plugin
                admin "p1" (rename "new") with_port ret_port port_nvp cluster
                s1 eq_refl Htx) as H.
  cbn in H. eexists _, _. split; [exact H|].
  vm_compute in Htx. injection Htx as <- _ _ <-.
  by repeat split.
Defined.

(** X20: a port on the bridged network [n1], on a backend that creates
    the port and refuses to plug the attachment. *)
Lemma create_port_after_selection_witness :
  (exists msg,
     fst (@create_port Backend no_plug demo_generators plugin admin
            (port_body "n1") bridged_free)
     = Raise (NvpPluginException msg)) /\
  db (snd (@create_port Backend no_plug demo_generators plugin admin
             (port_body "n1") bridged_free))
  = db bridged_free /\
  length (be_lports (nvp bridged_free)) = 0%nat /\
  length (be_lports
            (nvp (snd (@create_port Backend no_plug demo_generators plugin
                         admin (port_body "n1") bridged_free)))) = 1%nat.
Proof.
  destruct (create_port_in_db plugin admin (port_body "n1") bridged_free)
    as [[pl|e] s1] eqn:Hdb; [|vm_compute in Hdb; discriminate].
  destruct (@select_lswitch Backend no_plug plugin (port_body "n1") pl s1)
    as [r s2] eqn:Hsel.
  assert (exists cluster ls, r = Ok (cluster, ls)) as (cluster & ls & ->).
  { pose proof Hdb as Hdb'. vm_compute in Hdb'. injection Hdb' as <- <-.
    vm_compute in Hsel. injection Hsel as <- _. by eexists _, _. }
  destruct (@create_lport Backend no_plug cluster (ls_uuid ls)
              (pd_tenant_id (pl_port_data pl)) (pd_id (pl_port_data pl))
              (pd_name (pl_port_data pl)) (pd_device_id (pl_port_data pl))
              (pd_admin_state_up (pl_port_data pl))
              (pd_mac_address (pl_port_data pl))
              (pd_fixed_ips (pl_port_data pl)) (Some (pl_port_security pl))
              (nvp s2)) as [rl n3] eqn:Hc.
  assert (exists lport, rl = Ok lport /\ length (be_lports n3) = 1%nat)
    as (lport & -> & Hn3).
  { pose proof Hdb as Hdb'. vm_compute in Hdb'. injection Hdb' as <- <-.
    vm_compute in Hsel. injection Hsel as <- <- <-.
    vm_compute in Hc. injection Hc as <- <-. by eexists. }
  pose proof (@create_port_after_selection Backend no_plug demo_generators
                plugin admin (port_body "n1") bridged_free pl s1 cluster ls s2
                lport n3 eq_refl Hdb Hsel Hc) as H.
  cbn [plug_interface no_plug] in H. destruct H as (Hfst & Hdb' & Hnvp).
  split; [eexists; exact Hfst|]. split; [exact Hdb'|].
  split; [reflexivity|]. by rewrite Hnvp.
Defined.

End MoreRuns.
